(** * seller-apis: reconciliation of a supplier feed with two marketplaces

    Shallow embedding of [seller.py] (Ozon) and [market.py] (Yandex Market)
    and the properties of their reconciliation, batching and catalog-fetch
    code.

    Conventions of the embedding.
    - A Python [str] is a [string] (its UTF-8 bytes); an [int] is a [Z].
      Offer identifiers are strings, as the marketplaces send them.
    - A function that can raise returns a [result]; the exception classes
      that the modelled code can raise are the constructors of [exn].
    - Code that talks to the network runs in the monad [M]: it threads the
      log of the requests issued so far, and the remote side is an oracle
      that answers a request given that log.
    - A list that the source mutates in place ([offer_ids] in
      [create_stocks]) is returned next to the function's result. *)

From Stdlib Require Import String Ascii List ZArith Lia Bool Arith.
From Stdlib Require Import Permutation DecimalString.
From Stdlib Require DecimalZ DecimalPos.
Import ListNotations.

Local Open Scope string_scope.
Local Open Scope list_scope.
Local Open Scope Z_scope.

(* ================================================================= *)
(** ** Exceptions and results *)

Inductive exn : Type :=
| ValueError
| TypeError
| AttributeError
| IndexError
| RequestException.

Inductive result (A : Type) : Type :=
| Ok (a : A)
| Err (e : exn).

Arguments Ok {A} a.
Arguments Err {A} e.

Definition rbind {A B} (r : result A) (k : A -> result B) : result B :=
  match r with
  | Ok a => k a
  | Err e => Err e
  end.

Declare Scope result_scope.
Delimit Scope result_scope with result.
Notation "x <- r ;; k" := (rbind r (fun x => k))
  (at level 61, r at next level, right associativity) : result_scope.
Notation "' pat <- r ;; k" := (rbind r (fun x => match x with pat => k end))
  (at level 61, pat pattern, r at next level, right associativity)
  : result_scope.
Local Open Scope result_scope.

(* ================================================================= *)
(** ** Python values found in a feed row *)

(** The cells of the spreadsheet come out of [pandas.read_excel] as
    strings or integers; [dict.get] yields [None] for a column that is
    not there.  (Floating-point cells are outside the embedding.) *)
Inductive pyval : Type :=
| PNone
| PStr (s : string)
| PInt (z : Z).

Definition string_of_Z (z : Z) : string :=
  NilZero.string_of_int (Z.to_int z).

(** [str(v)] *)
Definition py_str (v : pyval) : string :=
  match v with
  | PNone => "None"
  | PStr s => s
  | PInt z => string_of_Z z
  end.

(** *** [int(s)] for a string

    Base-10 [int()] as CPython's [PyLong_FromString] reads an ASCII
    string: blanks are stripped on both sides, one sign may follow, then
    decimal digits that single underscores may separate.

    [int_of_string] is [int()] on the strings of [is_ascii] that hold at
    most [int_max_str_digits] digits.  Outside them CPython differs: it
    also reads the decimal digits and the blanks of other scripts, which
    are bytes above 127 here and rejected, and it raises [ValueError] on
    a text of more digits than the interpreter's limit, 4300 unless it
    is reconfigured.  The hypotheses [is_ascii] and
    [within_digit_limit], and the bound on the digits of a literal in
    [resolved], keep a statement inside this domain. *)

Definition int_max_str_digits : nat := 4300.


Definition is_digit (c : ascii) : bool :=
  let n := nat_of_ascii c in (48 <=? n)%nat && (n <=? 57)%nat.

Definition is_space (c : ascii) : bool :=
  let n := nat_of_ascii c in
  ((9 <=? n)%nat && (n <=? 13)%nat) || (n =? 32)%nat.

Definition digit_value (c : ascii) : Z := Z.of_nat (nat_of_ascii c) - 48.

Fixpoint lstrip (l : list ascii) : list ascii :=
  match l with
  | c :: t => if is_space c then lstrip t else l
  | [] => []
  end.

Definition strip (l : list ascii) : list ascii :=
  rev (lstrip (rev (lstrip l))).

(** [digits us acc l]: the digits of [l] read after the value [acc];
    [us] says that the previous character was an underscore. *)
Fixpoint digits (us : bool) (acc : Z) (l : list ascii) : option Z :=
  match l with
  | [] => if us then None else Some acc
  | c :: t =>
      if is_digit c then digits false (10 * acc + digit_value c) t
      else if Ascii.eqb c "_" then
             if us then None else digits true acc t
           else None
  end.

Definition unsigned (l : list ascii) : option Z :=
  match l with
  | [] => None
  | c :: _ => if is_digit c then digits false 0 l else None
  end.

Definition int_of_string (s : string) : option Z :=
  match strip (list_ascii_of_string s) with
  | c :: t =>
      if Ascii.eqb c "+" then unsigned t
      else if Ascii.eqb c "-" then option_map Z.opp (unsigned t)
      else unsigned (c :: t)
  | [] => None
  end.

(** [int(v)] *)
Definition py_int (v : pyval) : result Z :=
  match v with
  | PNone => Err TypeError
  | PInt z => Ok z
  | PStr s =>
      match int_of_string s with
      | Some z => Ok z
      | None => Err ValueError
      end
  end.

(** A feed row: the [dict] of one spreadsheet line, by column name. *)
Definition watch : Type := list (string * pyval).

(** [d.get(key)] *)
Fixpoint get (d : watch) (key : string) : pyval :=
  match d with
  | [] => PNone
  | (k, v) :: t => if String.eqb k key then v else get t key
  end.

Definition Kod : string := "Код".
Definition Kolichestvo : string := "Количество".
Definition Cena : string := "Цена".

(** [x in l] and [l.remove(x)] on a list of strings. *)
Definition py_in (x : string) (l : list string) : bool :=
  existsb (String.eqb x) l.

Fixpoint py_remove (x : string) (l : list string) : result (list string) :=
  match l with
  | [] => Err ValueError
  | y :: t =>
      if String.eqb y x then Ok t
      else t' <- py_remove x t ;; Ok (y :: t')
  end.

(* ================================================================= *)
(** ** Price normalizer and batcher ([seller.py], shared by both files) *)

(** [s.split(sep)] for a one-character separator; never empty. *)
Fixpoint split_on (sep : ascii) (s : string) : list string :=
  match s with
  | EmptyString => [EmptyString]
  | String c t =>
      if Ascii.eqb c sep then EmptyString :: split_on sep t
      else match split_on sep t with
           | h :: r => String c h :: r
           | [] => [String c EmptyString]
           end
  end.

(** [re.sub("[^0-9]", "", s)] *)
Fixpoint re_sub_non_digits (s : string) : string :=
  match s with
  | EmptyString => EmptyString
  | String c t =>
      if is_digit c then String c (re_sub_non_digits t)
      else re_sub_non_digits t
  end.

(** [seller.py], line 233. *)
Definition price_conversion (price : string) : string :=
  re_sub_non_digits (hd EmptyString (split_on "." price)).

(** [price_conversion(v)] on a cell: only a [str] has [split]. *)
Definition py_price_conversion (v : pyval) : result string :=
  match v with
  | PStr s => Ok (price_conversion s)
  | _ => Err AttributeError
  end.

(** [range(start, stop, step)], consumed. *)
Definition py_range (start stop step : Z) : result (list Z) :=
  if step =? 0 then Err ValueError
  else
    let len :=
      if 0 <? step
      then (if start <? stop then (stop - start - 1) / step + 1 else 0)
      else (if stop <? start then (start - stop - 1) / (- step) + 1 else 0) in
    Ok (map (fun k => start + Z.of_nat k * step) (seq 0 (Z.to_nat len))).

(** A slice bound brought into [0, len], counting a negative one from
    the end. *)
Definition clamp (len i : Z) : Z :=
  if i <? 0 then Z.max 0 (len + i) else Z.min len i.

(** [lst[i:j]] *)
Definition py_slice {A} (lst : list A) (i j : Z) : list A :=
  let len := Z.of_nat (length lst) in
  let lo := clamp len i in
  let hi := clamp len j in
  firstn (Z.to_nat (hi - lo)) (skipn (Z.to_nat lo) lst).

(** [list(divide(lst, n))]: the chunks that the generator of
    [seller.py], lines 247-248, yields when it is consumed; the error of
    [range] surfaces at that moment. *)
Definition divide {A} (lst : list A) (n : Z) : result (list (list A)) :=
  r <- py_range 0 (Z.of_nat (length lst)) n ;;
  Ok (map (fun i => py_slice lst i (i + n)) r).

(* ================================================================= *)
(** ** Quantity resolution

    The [if]/[elif]/[else] of [seller.py], lines 174-180, which
    [market.py], lines 153-159, repeats word for word. *)
Definition resolve_stock (watch : watch) : result Z :=
  let count := py_str (get watch Kolichestvo) in
  if String.eqb count ">10" then Ok 100
  else if String.eqb count "1" then Ok 0
  else py_int (get watch Kolichestvo).

(** The offer code of a row, [str(watch.get("Код"))]. *)
Definition code (watch : watch) : string := py_str (get watch Kod).

(* ================================================================= *)
(** ** Requests to the outside world *)

Inductive outcome (A : Type) : Type :=
| Ret (a : A)
| Raise (e : exn)
| Timeout.

Arguments Ret {A} a.
Arguments Raise {A} e.
Arguments Timeout {A}.

(** A computation over the log of the events of type [E] issued so
    far.  [Timeout] is the outcome of a loop whose fuel ran out. *)
Definition M (E A : Type) : Type := list E -> outcome A * list E.

Definition ret {E A} (a : A) : M E A := fun h => (Ret a, h).

Definition bind {E A B} (m : M E A) (k : A -> M E B) : M E B :=
  fun h =>
    match m h with
    | (Ret a, h') => k a h'
    | (Raise e, h') => (Raise e, h')
    | (Timeout, h') => (Timeout, h')
    end.

Definition lift {E A} (r : result A) : M E A :=
  fun h => (match r with Ok a => Ret a | Err e => Raise e end, h).

(** One request [ev]; the remote side answers from the log. *)
Definition perform {E A} (ev : E) (answer : list E -> result A) : M E A :=
  fun h => (match answer h with Ok a => Ret a | Err e => Raise e end,
            h ++ [ev]).

Declare Scope io_scope.
Delimit Scope io_scope with io.
Notation "x <- m ;; k" := (bind m (fun x => k))
  (at level 61, m at next level, right associativity) : io_scope.
Notation "' pat <- m ;; k" := (bind m (fun x => match x with pat => k end))
  (at level 61, pat pattern, m at next level, right associativity)
  : io_scope.
Notation "m ;;; k" := (bind m (fun _ => k))
  (at level 61, right associativity) : io_scope.

(** [for x in xs: body(x)] *)
Fixpoint for_each {E A B} (xs : list A) (body : A -> M E B) : M E unit :=
  match xs with
  | [] => ret tt
  | x :: t => bind (body x) (fun _ => for_each t body)
  end.

Local Open Scope io_scope.

(** The body of a JSON answer that the code passes on unread. *)
Definition json : Type := string.

(** [x.get(...)] on a value that may be [None]. *)
Definition attr {A} (x : option A) : result A :=
  match x with
  | Some a => Ok a
  | None => Err AttributeError
  end.

(** [l.extend(x)] needs an iterable. *)
Definition iterable {A} (x : option (list A)) : result (list A) :=
  match x with
  | Some l => Ok l
  | None => Err TypeError
  end.

(* ================================================================= *)
(** ** [seller.py] *)

Module Seller.

(** An entry of the product list, and the [result] object of one
    answer of [/v2/product/list]; a key that is absent reads [None]. *)
Record product : Type := { product_offer_id : string }.

Record page : Type := {
  get_items : option (list product);
  get_total : option Z;
  get_last_id : option string
}.

Record stock_item : Type := { offer_id : string; stock : Z }.

Record price_item : Type := {
  auto_action_enabled : string;
  currency_code : string;
  price_offer_id : string;
  old_price : string;
  price : string
}.

Inductive request : Type :=
| ProductList (last_id : option string) (client_id seller_token : string)
| ImportPrices (prices : list price_item) (client_id seller_token : string)
| ImportStocks (stocks : list stock_item) (client_id seller_token : string)
| DownloadStock.

(** The remote side: what each endpoint answers after the requests
    logged so far.  [Err] stands for the exception of
    [raise_for_status] or of the transport. *)
Record world : Type := {
  product_list_api :
    list request -> option string -> string -> string ->
    result (option page);
  import_prices_api :
    list request -> list price_item -> string -> string -> result json;
  import_stocks_api :
    list request -> list stock_item -> string -> string -> result json;
  download_api : list request -> result (list watch)
}.

Section Api.
Variable w : world.

Definition get_product_list (last_id : option string)
           (client_id seller_token : string) : M request (option page) :=
  perform (ProductList last_id client_id seller_token)
          (fun h => product_list_api w h last_id client_id seller_token).

(** The [while True] of lines 63-69, at most [fuel] turns. *)
Fixpoint get_offer_ids_loop (fuel : nat) (client_id seller_token : string)
         (last_id : option string) (product_list : list product)
  : M request (list product) :=
  match fuel with
  | O => fun h => (Timeout, h)
  | S fuel =>
      some_prod <- get_product_list last_id client_id seller_token ;;
      some_prod <- lift (attr some_prod) ;;
      new_items <- lift (iterable (get_items some_prod)) ;;
      let product_list := product_list ++ new_items in
      let total := get_total some_prod in
      let last_id := get_last_id some_prod in
      if match total with
         | Some t => t =? Z.of_nat (length product_list)
         | None => false
         end
      then ret product_list
      else get_offer_ids_loop fuel client_id seller_token
                              last_id product_list
  end.

Definition get_offer_ids (fuel : nat) (client_id seller_token : string)
  : M request (list string) :=
  product_list <-
    get_offer_ids_loop fuel client_id seller_token (Some "") [] ;;
  ret (map product_offer_id product_list).

Definition update_price (prices : list price_item)
           (client_id seller_token : string) : M request json :=
  perform (ImportPrices prices client_id seller_token)
          (fun h => import_prices_api w h prices client_id seller_token).

Definition update_stocks (stocks : list stock_item)
           (client_id seller_token : string) : M request json :=
  perform (ImportStocks stocks client_id seller_token)
          (fun h => import_stocks_api w h stocks client_id seller_token).

Definition download_stock : M request (list watch) :=
  perform DownloadStock (download_api w).
End Api.

(** The first loop of [create_stocks], lines 172-182: [stocks] grows
    and [offer_ids] shrinks in place. *)
Fixpoint create_stocks_loop (watch_remnants : list watch)
         (stocks : list stock_item) (offer_ids : list string)
  : result (list stock_item * list string) :=
  match watch_remnants with
  | [] => Ok (stocks, offer_ids)
  | watch :: rest =>
      if py_in (code watch) offer_ids then
        (stock <- resolve_stock watch ;;
         let stocks :=
           stocks ++ [{| offer_id := code watch; stock := stock |}] in
         offer_ids <- py_remove (code watch) offer_ids ;;
         create_stocks_loop rest stocks offer_ids)%result
      else create_stocks_loop rest stocks offer_ids
  end.

(** [create_stocks]: the list it returns, and [offer_ids] as the call
    leaves it to the caller. *)
Definition create_stocks (watch_remnants : list watch)
           (offer_ids : list string)
  : result (list stock_item * list string) :=
  ('(stocks, offer_ids) <- create_stocks_loop watch_remnants [] offer_ids ;;
   Ok (stocks ++ map (fun offer_id =>
                        {| offer_id := offer_id; stock := 0 |}) offer_ids,
       offer_ids))%result.

Fixpoint create_prices_loop (watch_remnants : list watch)
         (prices : list price_item) (offer_ids : list string)
  : result (list price_item) :=
  match watch_remnants with
  | [] => Ok prices
  | watch :: rest =>
      if py_in (code watch) offer_ids then
        (p <- py_price_conversion (get watch Cena) ;;
         let price := {| auto_action_enabled := "UNKNOWN";
                         currency_code := "RUB";
                         price_offer_id := code watch;
                         old_price := "0";
                         price := p |} in
         create_prices_loop rest (prices ++ [price]) offer_ids)%result
      else create_prices_loop rest prices offer_ids
  end.

Definition create_prices (watch_remnants : list watch)
           (offer_ids : list string) : result (list price_item) :=
  create_prices_loop watch_remnants [] offer_ids.

Section Run.
Variable w : world.

(** The body of the coroutine [upload_prices]. *)
Definition upload_prices (fuel : nat) (watch_remnants : list watch)
           (client_id seller_token : string)
  : M request (list price_item) :=
  offer_ids <- get_offer_ids w fuel client_id seller_token ;;
  prices <- lift (create_prices watch_remnants offer_ids) ;;
  chunks <- lift (divide prices 1000) ;;
  for_each chunks
           (fun some_price => update_price w some_price
                                           client_id seller_token) ;;;
  ret prices.

(** The body of the coroutine [upload_stocks]. *)
Definition upload_stocks (fuel : nat) (watch_remnants : list watch)
           (client_id seller_token : string)
  : M request (list stock_item * list stock_item) :=
  offer_ids <- get_offer_ids w fuel client_id seller_token ;;
  '(stocks, _) <- lift (create_stocks watch_remnants offer_ids) ;;
  chunks <- lift (divide stocks 100) ;;
  for_each chunks
           (fun some_stock => update_stocks w some_stock
                                            client_id seller_token) ;;;
  let not_empty := filter (fun s => negb (stock s =? 0)) stocks in
  ret (not_empty, stocks).

(** The [try] block of [main], lines 310-319; the handlers that
    follow it print the exception and issue no request.  The list
    that [create_stocks] has shrunk is the one [create_prices]
    reads. *)
Definition main_try (fuel : nat) (client_id seller_token : string)
  : M request unit :=
  offer_ids <- get_offer_ids w fuel client_id seller_token ;;
  watch_remnants <- download_stock w ;;
  '(stocks, offer_ids) <- lift (create_stocks watch_remnants offer_ids) ;;
  chunks <- lift (divide stocks 100) ;;
  for_each chunks
           (fun some_stock => update_stocks w some_stock
                                            client_id seller_token) ;;;
  prices <- lift (create_prices watch_remnants offer_ids) ;;
  chunks <- lift (divide prices 900) ;;
  for_each chunks
           (fun some_price => update_price w some_price
                                           client_id seller_token) ;;;
  ret tt.
End Run.

(** [main] once the environment is read: the three handlers of lines
    320-325 catch every exception of the [try] block and print it, so
    the call returns [None].  (What is printed is not part of the
    log.) *)
Definition main (w : world) (fuel : nat) (client_id seller_token : string)
  : M request unit :=
  fun h =>
    match main_try w fuel client_id seller_token h with
    | (Raise _, h') => (Ret tt, h')
    | r => r
    end.

End Seller.

(* ================================================================= *)
(** ** [market.py] *)

(** [list(filter(f, l))] for a predicate that can raise. *)
Fixpoint filter_r {A} (f : A -> result bool) (l : list A)
  : result (list A) :=
  match l with
  | [] => Ok []
  | x :: t =>
      (b <- f x ;;
       t' <- filter_r f t ;;
       Ok (if b then x :: t' else t'))%result
  end.

Module Market.

(** The [result] object of one answer of [offer-mapping-entries]. *)
Record offer : Type := { shopSku : string }.
Record entry : Type := { get_offer : offer }.
Record paging : Type := { get_nextPageToken : option string }.

Record page : Type := {
  get_offerMappingEntries : option (list entry);
  get_paging : option paging
}.

Record stock_entry : Type := {
  count : Z;
  type : string;
  updatedAt : string
}.

Record stock_item : Type := {
  sku : string;
  warehouseId : string;
  items : list stock_entry
}.

Record price_value : Type := { value : Z; currencyId : string }.
Record price_item : Type := { id : string; price : price_value }.

Inductive request : Type :=
| OfferMappingEntries (page_token : option string)
                      (campaign_id access_token : string)
| PutStocks (skus : list stock_item) (campaign_id access_token : string)
| PriceUpdates (offers : list price_item)
               (campaign_id access_token : string).

Record world : Type := {
  offer_mapping_api :
    list request -> option string -> string -> string ->
    result (option page);
  put_stocks_api :
    list request -> list stock_item -> string -> string -> result json;
  price_updates_api :
    list request -> list price_item -> string -> string -> result json;
  (** [datetime.utcnow()], cut to seconds, in ISO format with a [Z]. *)
  utcnow : list request -> string
}.

(** [not page] *)
Definition py_not (page : option string) : bool :=
  match page with
  | None => true
  | Some s => String.eqb s ""
  end.

Section Api.
Variable w : world.

Definition get_product_list (page : option string)
           (campaign_id access_token : string)
  : M request (option Market.page) :=
  perform (OfferMappingEntries page campaign_id access_token)
          (fun h => offer_mapping_api w h page campaign_id access_token).

Definition update_stocks (stocks : list stock_item)
           (campaign_id access_token : string) : M request json :=
  perform (PutStocks stocks campaign_id access_token)
          (fun h => put_stocks_api w h stocks campaign_id access_token).

Definition update_price (prices : list price_item)
           (campaign_id access_token : string) : M request json :=
  perform (PriceUpdates prices campaign_id access_token)
          (fun h => price_updates_api w h prices campaign_id access_token).

(** The [while True] of lines 122-127, at most [fuel] turns. *)
Fixpoint get_offer_ids_loop (fuel : nat) (campaign_id market_token : string)
         (page : option string) (product_list : list entry)
  : M request (list entry) :=
  match fuel with
  | O => fun h => (Timeout, h)
  | S fuel =>
      some_prod <- get_product_list page campaign_id market_token ;;
      some_prod <- lift (attr some_prod) ;;
      entries <- lift (iterable (get_offerMappingEntries some_prod)) ;;
      let product_list := product_list ++ entries in
      paging <- lift (attr (get_paging some_prod)) ;;
      let page := get_nextPageToken paging in
      if py_not page then ret product_list
      else get_offer_ids_loop fuel campaign_id market_token
                              page product_list
  end.

Definition get_offer_ids (fuel : nat) (campaign_id market_token : string)
  : M request (list string) :=
  product_list <-
    get_offer_ids_loop fuel campaign_id market_token (Some "") [] ;;
  ret (map (fun product => shopSku (get_offer product)) product_list).
End Api.

(** The record that lines 160-172 and 176-188 build. *)
Definition stock_record (sku warehouse_id : string) (stock : Z)
           (date : string) : stock_item :=
  {| sku := sku;
     warehouseId := warehouse_id;
     items := [{| count := stock; type := "FIT"; updatedAt := date |}] |}.

Fixpoint create_stocks_loop (watch_remnants : list watch)
         (warehouse_id date : string)
         (stocks : list stock_item) (offer_ids : list string)
  : result (list stock_item * list string) :=
  match watch_remnants with
  | [] => Ok (stocks, offer_ids)
  | watch :: rest =>
      if py_in (code watch) offer_ids then
        (stock <- resolve_stock watch ;;
         let stocks :=
           stocks ++ [stock_record (code watch) warehouse_id stock date] in
         offer_ids <- py_remove (code watch) offer_ids ;;
         create_stocks_loop rest warehouse_id date stocks offer_ids)%result
      else create_stocks_loop rest warehouse_id date stocks offer_ids
  end.

(** [create_stocks]; [date] is the clock as line 150 reads it, once.
    Returns the list and [offer_ids] as the call leaves it. *)
Definition create_stocks (watch_remnants : list watch)
           (offer_ids : list string) (warehouse_id date : string)
  : result (list stock_item * list string) :=
  ('(stocks, offer_ids) <-
     create_stocks_loop watch_remnants warehouse_id date [] offer_ids ;;
   Ok (stocks ++ map (fun offer_id =>
                        stock_record offer_id warehouse_id 0 date)
                     offer_ids,
       offer_ids))%result.

(** [int(price_conversion(v))] *)
Definition price_as_int (v : pyval) : result Z :=
  (p <- py_price_conversion v ;; py_int (PStr p))%result.

Fixpoint create_prices_loop (watch_remnants : list watch)
         (prices : list price_item) (offer_ids : list string)
  : result (list price_item) :=
  match watch_remnants with
  | [] => Ok prices
  | watch :: rest =>
      if py_in (code watch) offer_ids then
        (v <- price_as_int (get watch Cena) ;;
         let price :=
           {| id := code watch;
              price := {| value := v; currencyId := "RUR" |} |} in
         create_prices_loop rest (prices ++ [price]) offer_ids)%result
      else create_prices_loop rest prices offer_ids
  end.

Definition create_prices (watch_remnants : list watch)
           (offer_ids : list string) : result (list price_item) :=
  create_prices_loop watch_remnants [] offer_ids.

(** [stock.get("items")[0].get("count") != 0] *)
Definition count_not_zero (stock : stock_item) : result bool :=
  match items stock with
  | item :: _ => Ok (negb (count item =? 0))
  | [] => Err IndexError
  end.

Section Run.
Variable w : world.

(** The body of the coroutine [upload_prices]. *)
Definition upload_prices (fuel : nat) (watch_remnants : list watch)
           (campaign_id market_token : string)
  : M request (list price_item) :=
  offer_ids <- get_offer_ids w fuel campaign_id market_token ;;
  prices <- lift (create_prices watch_remnants offer_ids) ;;
  chunks <- lift (divide prices 500) ;;
  for_each chunks
           (fun some_prices => update_price w some_prices
                                            campaign_id market_token) ;;;
  ret prices.

(** The body of the coroutine [upload_stocks]. *)
Definition upload_stocks (fuel : nat) (watch_remnants : list watch)
           (campaign_id market_token warehouse_id : string)
  : M request (list stock_item * list stock_item) :=
  offer_ids <- get_offer_ids w fuel campaign_id market_token ;;
  date <- (fun h => (Ret (utcnow w h), h)) ;;
  '(stocks, _) <-
    lift (create_stocks watch_remnants offer_ids warehouse_id date) ;;
  chunks <- lift (divide stocks 2000) ;;
  for_each chunks
           (fun some_stock => update_stocks w some_stock
                                            campaign_id market_token) ;;;
  not_empty <- lift (filter_r count_not_zero stocks) ;;
  ret (not_empty, stocks).
End Run.

Section Main.
Variable w : world.

(** The [try] block of [main], lines 291-307, for the feed
    [watch_remnants].  Lines 298 and 307 call the coroutine function
    [upload_prices] and drop the coroutine it returns: nothing awaits
    it, its body does not run, and the two lines issue no request. *)
Definition main_try (fuel : nat) (watch_remnants : list watch)
           (market_token campaign_fbs_id campaign_dbs_id : string)
           (warehouse_fbs_id warehouse_dbs_id : string) : M request unit :=
  offer_ids <- get_offer_ids w fuel campaign_fbs_id market_token ;;
  date <- (fun h => (Ret (utcnow w h), h)) ;;
  '(stocks, _) <-
    lift (create_stocks watch_remnants offer_ids warehouse_fbs_id date) ;;
  chunks <- lift (divide stocks 2000) ;;
  for_each chunks
           (fun some_stock => update_stocks w some_stock
                                            campaign_fbs_id market_token) ;;;
  offer_ids <- get_offer_ids w fuel campaign_dbs_id market_token ;;
  date <- (fun h => (Ret (utcnow w h), h)) ;;
  '(stocks, _) <-
    lift (create_stocks watch_remnants offer_ids warehouse_dbs_id date) ;;
  chunks <- lift (divide stocks 2000) ;;
  for_each chunks
           (fun some_stock => update_stocks w some_stock
                                            campaign_dbs_id market_token) ;;;
  ret tt.

(** [main] once the environment is read.  [downloaded] is what
    [download_stock()] gives on line 289, before the [try]: its
    exception is not caught.  The handlers of lines 308-313 catch every
    exception of the [try] block. *)
Definition main (fuel : nat) (downloaded : result (list watch))
           (market_token campaign_fbs_id campaign_dbs_id : string)
           (warehouse_fbs_id warehouse_dbs_id : string) : M request unit :=
  watch_remnants <- lift downloaded ;;
  fun h =>
    match main_try fuel watch_remnants market_token
                   campaign_fbs_id campaign_dbs_id
                   warehouse_fbs_id warehouse_dbs_id h with
    | (Raise _, h') => (Ret tt, h')
    | r => r
    end.
End Main.

End Market.

(* ================================================================= *)
(** ** Vocabulary of the statements *)

Definition codes (watch_remnants : list watch) : list string :=
  map code watch_remnants.

(** The elements of a list in the order of their first occurrence. *)
Fixpoint first_occurrences (l : list string) : list string :=
  match l with
  | [] => []
  | x :: t =>
      x :: filter (fun y => negb (String.eqb y x)) (first_occurrences t)
  end.

(** The codes of the feed that the catalog knows, each once, in feed
    order; and the identifiers of the catalog that the feed does not
    mention, in catalog order. *)
Definition matched_codes (watch_remnants : list watch)
           (offer_ids : list string) : list string :=
  first_occurrences (filter (fun c => py_in c offer_ids)
                            (codes watch_remnants)).

Definition unmatched_ids (watch_remnants : list watch)
           (offer_ids : list string) : list string :=
  filter (fun c => negb (py_in c (codes watch_remnants))) offer_ids.

(** The first row of the feed that carries the code [c]. *)
Definition first_row (c : string) (watch_remnants : list watch)
  : option watch :=
  find (fun w => String.eqb (code w) c) watch_remnants.

(** The requests of a log that carry a batch, per endpoint. *)
Definition seller_stock_batches (h : list Seller.request)
  : list (list Seller.stock_item) :=
  flat_map (fun r => match r with
                     | Seller.ImportStocks b _ _ => [b]
                     | _ => []
                     end) h.

Definition seller_price_batches (h : list Seller.request)
  : list (list Seller.price_item) :=
  flat_map (fun r => match r with
                     | Seller.ImportPrices b _ _ => [b]
                     | _ => []
                     end) h.

Definition market_stock_batches (h : list Market.request)
  : list (list Market.stock_item) :=
  flat_map (fun r => match r with
                     | Market.PutStocks b _ _ => [b]
                     | _ => []
                     end) h.

Definition market_price_batches (h : list Market.request)
  : list (list Market.price_item) :=
  flat_map (fun r => match r with
                     | Market.PriceUpdates b _ _ => [b]
                     | _ => []
                     end) h.

(** The two [create_stocks] differ in the record they build, the two
    [create_prices] in the record and in how they read the price.  The
    loops below abstract that part; [Seller] and [Market] are shown to
    be instances of them. *)
Section Loops.
Context {R P : Type}.
Variable mk : string -> Z -> R.
Variable mk_price : watch -> result P.

Fixpoint stocks_loop (watch_remnants : list watch) (stocks : list R)
         (offer_ids : list string) : result (list R * list string) :=
  match watch_remnants with
  | [] => Ok (stocks, offer_ids)
  | watch :: rest =>
      if py_in (code watch) offer_ids then
        (stock <- resolve_stock watch ;;
         offer_ids <- py_remove (code watch) offer_ids ;;
         stocks_loop rest (stocks ++ [mk (code watch) stock])
                     offer_ids)%result
      else stocks_loop rest stocks offer_ids
  end.

Definition stocks_of (watch_remnants : list watch)
           (offer_ids : list string) : result (list R * list string) :=
  ('(stocks, offer_ids) <- stocks_loop watch_remnants [] offer_ids ;;
   Ok (stocks ++ map (fun c => mk c 0) offer_ids, offer_ids))%result.

Fixpoint prices_loop (watch_remnants : list watch) (prices : list P)
         (offer_ids : list string) : result (list P) :=
  match watch_remnants with
  | [] => Ok prices
  | watch :: rest =>
      if py_in (code watch) offer_ids then
        (p <- mk_price watch ;;
         prices_loop rest (prices ++ [p]) offer_ids)%result
      else prices_loop rest prices offer_ids
  end.
End Loops.

Definition seller_price (watch : watch) : result Seller.price_item :=
  (p <- py_price_conversion (get watch Cena) ;;
   Ok {| Seller.auto_action_enabled := "UNKNOWN";
         Seller.currency_code := "RUB";
         Seller.price_offer_id := code watch;
         Seller.old_price := "0";
         Seller.price := p |})%result.

Definition market_price (watch : watch) : result Market.price_item :=
  (v <- Market.price_as_int (get watch Cena) ;;
   Ok {| Market.id := code watch;
         Market.price := {| Market.value := v;
                            Market.currencyId := "RUR" |} |})%result.

(** A feed row with string cells, for the examples. *)
Definition row (c q p : string) : watch :=
  [(Kod, PStr c); (Kolichestvo, PStr q); (Cena, PStr p)].

(** The end-to-end scenario of the specification. *)
Definition demo_remnants : list watch :=
  [row "A" ">10" "100.00 x"; row "B" "1" "50.00 x"].

Definition demo_ids : list string := ["A"; "B"; "C"].

(** The price normalizer in the words of the specification: the
    part of a string before its first decimal point, and the test that
    a string holds decimal digits only. *)
Fixpoint before_dot (s : string) : string :=
  match s with
  | EmptyString => EmptyString
  | String c t =>
      if Ascii.eqb c "." then EmptyString else String c (before_dot t)
  end.

Definition digits_only (s : string) : bool :=
  forallb is_digit (list_ascii_of_string s).





(** The value of a string of decimal digits, read after [acc]. *)
Fixpoint decimal_value (acc : Z) (l : list ascii) : Z :=
  match l with
  | [] => acc
  | c :: t => decimal_value (10 * acc + digit_value c) t
  end.


(** The cells within the digit limit of [str] and [int]: a text
    with at most [int_max_str_digits] digits, an integer of as many.  A
    row is readable when its quantity is such a cell and the
    resolution of [create_stocks] raises nothing on it. *)
Definition within_digit_limit (v : pyval) : bool :=
  match v with
  | PStr s =>
      (length (filter is_digit (list_ascii_of_string s))
       <=? int_max_str_digits)%nat
  | PInt z => Z.abs z <? 10 ^ Z.of_nat int_max_str_digits
  | PNone => true
  end.

Definition readable (w : watch) : Prop :=
  within_digit_limit (get w Kolichestvo) = true
  /\ exists v, resolve_stock w = Ok v.

(** Two remote sides for the examples.  [seller_catalog ids] serves
    the whole catalog [ids] in one page and accepts every batch.
    [stuck_world] answers every page request with the same two
    products, an empty [last_id] and a total of 3. *)
Definition seller_catalog (ids : list string) : Seller.world :=
  {| Seller.product_list_api := fun _ _ _ _ =>
       Ok (Some {| Seller.get_items :=
                     Some (map Seller.Build_product ids);
                   Seller.get_total := Some (Z.of_nat (length ids));
                   Seller.get_last_id := Some "" |});
     Seller.import_prices_api := fun _ _ _ _ => Ok "{}";
     Seller.import_stocks_api := fun _ _ _ _ => Ok "{}";
     Seller.download_api := fun _ => Ok [] |}.

(** A remote side whose catalog lists the offer ["A"] twice and whose
    feed has one row for it. *)
Definition seller_repeated : Seller.world :=
  {| Seller.product_list_api := fun _ _ _ _ =>
       Ok (Some {| Seller.get_items :=
                     Some [Seller.Build_product "A";
                           Seller.Build_product "A"];
                   Seller.get_total := Some 2;
                   Seller.get_last_id := Some "" |});
     Seller.import_prices_api := fun _ _ _ _ => Ok "{}";
     Seller.import_stocks_api := fun _ _ _ _ => Ok "{}";
     Seller.download_api := fun _ => Ok [row "A" "5" "10.00"] |}.

Definition stuck_page : Seller.page :=
  {| Seller.get_items :=
       Some [Seller.Build_product "A"; Seller.Build_product "B"];
     Seller.get_total := Some 3;
     Seller.get_last_id := Some "" |}.

Definition stuck_world : Seller.world :=
  {| Seller.product_list_api := fun _ _ _ _ => Ok (Some stuck_page);
     Seller.import_prices_api := fun _ _ _ _ => Ok "{}";
     Seller.import_stocks_api := fun _ _ _ _ => Ok "{}";
     Seller.download_api := fun _ => Ok [] |}.

(** [market_catalog ids] serves [ids] in one page with no
    [nextPageToken] and accepts every batch. *)
Definition market_catalog (ids : list string) : Market.world :=
  {| Market.offer_mapping_api := fun _ _ _ _ =>
       Ok (Some {| Market.get_offerMappingEntries :=
                     Some (map (fun c =>
                                  Market.Build_entry (Market.Build_offer c))
                               ids);
                   Market.get_paging :=
                     Some {| Market.get_nextPageToken := None |} |});
     Market.put_stocks_api := fun _ _ _ _ => Ok "{}";
     Market.price_updates_api := fun _ _ _ _ => Ok "{}";
     Market.utcnow := fun _ => "2024-01-01T00:00:00Z" |}.

(** A catalog of [n] distinct identifiers, ["0"], ["1"], ... *)
Definition numbered (n : nat) : list string :=
  map (fun k => string_of_Z (Z.of_nat k)) (seq 0 n).

(** The chunks of a list in closed form: [m] chunks of width [N];
    and the number of chunks, as [range] computes it. *)
Definition chunks_nat {A} (N m : nat) (l : list A) : list (list A) :=
  map (fun k => firstn N (skipn (k * N) l)) (seq 0 m).

Definition chunk_count (len n : Z) : Z :=
  if 0 <? len then (len - 0 - 1) / n + 1 else 0.

(** The stock record of [seller.py]. *)
Definition seller_stock (c : string) (v : Z) : Seller.stock_item :=
  {| Seller.offer_id := c; Seller.stock := v |}.

(** *** Vocabulary of the further properties *)

(** A paginated conversation with [market.py]: from the log [h], the
    request for the page [page] is answered with the entries and the
    token of the head of the script, and an empty or absent token ends
    the script.  The script lists, per request, the token sent and the
    entries received. *)
Inductive market_pages (w : Market.world) (cid tok : string)
  : list Market.request -> option string ->
    list (option string * list Market.entry) -> Prop :=
| market_last_page h page pm entries pg :
    Market.offer_mapping_api w h page cid tok = Ok (Some pm) ->
    Market.get_offerMappingEntries pm = Some entries ->
    Market.get_paging pm = Some pg ->
    Market.py_not (Market.get_nextPageToken pg) = true ->
    market_pages w cid tok h page [(page, entries)]
| market_next_page h page pm entries pg script :
    Market.offer_mapping_api w h page cid tok = Ok (Some pm) ->
    Market.get_offerMappingEntries pm = Some entries ->
    Market.get_paging pm = Some pg ->
    Market.py_not (Market.get_nextPageToken pg) = false ->
    market_pages w cid tok
                 (h ++ [Market.OfferMappingEntries page cid tok])
                 (Market.get_nextPageToken pg) script ->
    market_pages w cid tok h page ((page, entries) :: script).

(** The same for [seller.py], where [n] products are already
    gathered: the script ends with the first answer whose [total] is
    the number of products gathered by then. *)
Inductive seller_pages (w : Seller.world) (cid tok : string)
  : list Seller.request -> option string -> nat ->
    list (option string * list Seller.product) -> Prop :=
| seller_last_page h last n ps items :
    Seller.product_list_api w h last cid tok = Ok (Some ps) ->
    Seller.get_items ps = Some items ->
    Seller.get_total ps = Some (Z.of_nat (n + length items)) ->
    seller_pages w cid tok h last n [(last, items)]
| seller_next_page h last n ps items script :
    Seller.product_list_api w h last cid tok = Ok (Some ps) ->
    Seller.get_items ps = Some items ->
    Seller.get_total ps <> Some (Z.of_nat (n + length items)) ->
    seller_pages w cid tok
                 (h ++ [Seller.ProductList last cid tok])
                 (Seller.get_last_id ps) (n + length items) script ->
    seller_pages w cid tok h last n ((last, items) :: script).

(** A conversation of [k] answered pages that the remote side then
    breaks off with the exception [e]. *)
Inductive market_pages_fail (w : Market.world) (cid tok : string) (e : exn)
  : list Market.request -> option string -> list (option string) -> Prop :=
| market_fail_now h page :
    Market.offer_mapping_api w h page cid tok = Err e ->
    market_pages_fail w cid tok e h page [page]
| market_fail_later h page pm entries pg tokens :
    Market.offer_mapping_api w h page cid tok = Ok (Some pm) ->
    Market.get_offerMappingEntries pm = Some entries ->
    Market.get_paging pm = Some pg ->
    Market.py_not (Market.get_nextPageToken pg) = false ->
    market_pages_fail w cid tok e
                      (h ++ [Market.OfferMappingEntries page cid tok])
                      (Market.get_nextPageToken pg) tokens ->
    market_pages_fail w cid tok e h page (page :: tokens).

Inductive seller_pages_fail (w : Seller.world) (cid tok : string) (e : exn)
  : list Seller.request -> option string -> nat ->
    list (option string) -> Prop :=
| seller_fail_now h last n :
    Seller.product_list_api w h last cid tok = Err e ->
    seller_pages_fail w cid tok e h last n [last]
| seller_fail_later h last n ps items tokens :
    Seller.product_list_api w h last cid tok = Ok (Some ps) ->
    Seller.get_items ps = Some items ->
    Seller.get_total ps <> Some (Z.of_nat (n + length items)) ->
    seller_pages_fail w cid tok e
                      (h ++ [Seller.ProductList last cid tok])
                      (Seller.get_last_id ps) (n + length items) tokens ->
    seller_pages_fail w cid tok e h last n (last :: tokens).

(** Remote sides of two pages: the first page is asked for with the
    empty token, the second with the token that the first gave. *)
Definition market_two_pages : Market.world :=
  {| Market.offer_mapping_api := fun _ page _ _ =>
       Ok (Some
             (if Market.py_not page
              then {| Market.get_offerMappingEntries :=
                        Some [Market.Build_entry (Market.Build_offer "A");
                              Market.Build_entry (Market.Build_offer "B")];
                      Market.get_paging :=
                        Some {| Market.get_nextPageToken := Some "p2" |} |}
              else {| Market.get_offerMappingEntries :=
                        Some [Market.Build_entry (Market.Build_offer "C")];
                      Market.get_paging :=
                        Some {| Market.get_nextPageToken := None |} |}));
     Market.put_stocks_api := fun _ _ _ _ => Ok "{}";
     Market.price_updates_api := fun _ _ _ _ => Ok "{}";
     Market.utcnow := fun _ => "2024-01-01T00:00:00Z" |}.

Definition seller_two_pages : Seller.world :=
  {| Seller.product_list_api := fun _ last _ _ =>
       Ok (Some
             (if Market.py_not last
              then {| Seller.get_items :=
                        Some [Seller.Build_product "A";
                              Seller.Build_product "B"];
                      Seller.get_total := Some 3;
                      Seller.get_last_id := Some "B" |}
              else {| Seller.get_items := Some [Seller.Build_product "C"];
                      Seller.get_total := Some 3;
                      Seller.get_last_id := Some "" |}));
     Seller.import_prices_api := fun _ _ _ _ => Ok "{}";
     Seller.import_stocks_api := fun _ _ _ _ => Ok "{}";
     Seller.download_api := fun _ => Ok demo_remnants |}.

(** A remote side that serves its catalog and refuses the second
    stock batch it is sent. *)
Definition seller_refuses_second (ids : list string) : Seller.world :=
  {| Seller.product_list_api := fun _ _ _ _ =>
       Ok (Some {| Seller.get_items :=
                     Some (map Seller.Build_product ids);
                   Seller.get_total := Some (Z.of_nat (length ids));
                   Seller.get_last_id := Some "" |});
     Seller.import_prices_api := fun _ _ _ _ => Ok "{}";
     Seller.import_stocks_api := fun h _ _ _ =>
       match seller_stock_batches h with
       | [] => Ok "{}"
       | _ => Err RequestException
       end;
     Seller.download_api := fun _ => Ok [] |}.

(** The records that the two [create_prices] build from a row whose
    price cell is the string [s]. *)
Definition seller_price_record (c s : string) : Seller.price_item :=
  {| Seller.auto_action_enabled := "UNKNOWN";
     Seller.currency_code := "RUB";
     Seller.price_offer_id := c;
     Seller.old_price := "0";
     Seller.price := price_conversion s |}.

Definition market_price_record (c : string) (v : Z) : Market.price_item :=
  {| Market.id := c;
     Market.price := {| Market.value := v; Market.currencyId := "RUR" |} |}.

(** The rows of the feed whose code is in the list. *)
Definition known_rows (watch_remnants : list watch) (offer_ids : list string)
  : list watch :=
  filter (fun w => py_in (code w) offer_ids) watch_remnants.

(** The count of a stock record of [market.py], 0 when it has no
    item. *)
Definition market_count (r : Market.stock_item) : Z :=
  match Market.items r with
  | item :: _ => Market.count item
  | [] => 0
  end.

(** [for x in l: out.append(f(x))], ended by the first exception. *)
Fixpoint map_r {A B} (f : A -> result B) (l : list A) : result (list B) :=
  match l with
  | [] => Ok []
  | x :: t => (y <- f x ;; t' <- map_r f t ;; Ok (y :: t'))%result
  end.

(** A remote side that serves a first page and fails on the
    second. *)
Definition market_breaks : Market.world :=
  {| Market.offer_mapping_api := fun _ page _ _ =>
       if Market.py_not page
       then Ok (Some {| Market.get_offerMappingEntries :=
                          Some [Market.Build_entry (Market.Build_offer "A")];
                        Market.get_paging :=
                          Some {| Market.get_nextPageToken := Some "p2" |} |})
       else Err RequestException;
     Market.put_stocks_api := fun _ _ _ _ => Ok "{}";
     Market.price_updates_api := fun _ _ _ _ => Ok "{}";
     Market.utcnow := fun _ => "2024-01-01T00:00:00Z" |}.

(** From the log [h], the remote side accepts the first [k] of the
    chunks sent one after the other and refuses the next one with the
    exception [e]. *)
Definition accepted_until {E A} (ev : list A -> E)
           (ans : list A -> list E -> result json)
           (h : list E) (chunks : list (list A)) (k : nat) (e : exn)
  : Prop :=
  (k < length chunks)%nat
  /\ (forall i, (i < k)%nat ->
                exists j, ans (nth i chunks [])
                              (h ++ map ev (firstn i chunks)) = Ok j)
  /\ ans (nth k chunks []) (h ++ map ev (firstn k chunks)) = Err e.

(** The feed without the rows that repeat a code: of the rows with
    one code, the first stays.  [seen] holds the codes met so far. *)
Fixpoint first_rows (seen : list string) (watch_remnants : list watch)
  : list watch :=
  match watch_remnants with
  | [] => []
  | w :: t =>
      if py_in (code w) seen then first_rows seen t
      else w :: first_rows (code w :: seen) t
  end.

(* ################################################################# *)
(** * Properties *)

(** ** The embedding on the examples of the specification *)

Example str_of_int : py_str (PInt (-37)) = "-37" /\ py_str (PInt 0) = "0".
Proof. split; reflexivity. Qed.

Example int_of_str :
  int_of_string " 1_000 " = Some 1000 /\ int_of_string "-7" = Some (-7)
  /\ int_of_string "007" = Some 7 /\ int_of_string "n/a" = None
  /\ int_of_string "" = None /\ int_of_string "1__0" = None
  /\ int_of_string "+ 1" = None /\ int_of_string "3.5" = None.
Proof. repeat split; reflexivity. Qed.

Example end_to_end_stocks :
  Seller.create_stocks demo_remnants demo_ids =
  Ok ([seller_stock "A" 100; seller_stock "B" 0; seller_stock "C" 0], ["C"]).
Proof. reflexivity. Qed.

Example end_to_end_prices :
  option_map (map (fun p => (Seller.price_offer_id p, Seller.price p)))
             (match Seller.create_prices demo_remnants demo_ids with
              | Ok ps => Some ps
              | Err _ => None
              end)
  = Some [("A", "100"); ("B", "50")].
Proof. reflexivity. Qed.

Example divide_by_two :
  divide [1; 2; 3; 4; 5] 2 = Ok [[1; 2]; [3; 4]; [5]].
Proof. reflexivity. Qed.

(** ** Strings and membership *)

Lemma py_in_In (x : string) (l : list string) :
  py_in x l = true <-> In x l.
Proof.
  unfold py_in. rewrite existsb_exists. split.
  - intros [y [Hy Heq]]. apply String.eqb_eq in Heq. now subst.
  - intros H. exists x. split; [assumption | apply String.eqb_refl].
Qed.

Lemma py_in_not_In (x : string) (l : list string) :
  py_in x l = false <-> ~ In x l.
Proof.
  rewrite <- py_in_In. destruct (py_in x l); split; congruence.
Qed.

Lemma py_in_cons (x y : string) (l : list string) :
  py_in x (y :: l) = String.eqb x y || py_in x l.
Proof. reflexivity. Qed.

Lemma filter_all {A} (p : A -> bool) (l : list A) :
  (forall x, In x l -> p x = true) -> filter p l = l.
Proof.
  induction l as [|a l IH]; simpl; intros H; [reflexivity|].
  rewrite (H a (or_introl eq_refl)). f_equal. apply IH.
  intros x Hx. apply H. now right.
Qed.

Lemma filter_and {A} (p q : A -> bool) (l : list A) :
  filter p (filter q l) = filter (fun x => q x && p x) l.
Proof.
  induction l as [|a l IH]; simpl; [reflexivity|].
  destruct (q a); simpl; [destruct (p a)|]; now rewrite IH.
Qed.

(** [l.remove(x)] succeeds on a member, and on a duplicate-free list it
    leaves the other elements in place. *)
Lemma py_remove_in (x : string) (l : list string) :
  py_in x l = true -> exists l', py_remove x l = Ok l'.
Proof.
  induction l as [|y l IH]; simpl; [discriminate|].
  rewrite (String.eqb_sym x y).
  destruct (String.eqb y x); simpl; intros H; [now eexists|].
  destruct (IH H) as [l' ->]. simpl. now eexists.
Qed.

Lemma py_remove_nodup (x : string) (l : list string) :
  NoDup l -> py_in x l = true ->
  py_remove x l = Ok (filter (fun y => negb (String.eqb y x)) l).
Proof.
  induction 1 as [|y l Hy Hl IH]; simpl; [discriminate|].
  rewrite (String.eqb_sym x y).
  destruct (String.eqb y x) eqn:E; simpl; intros H.
  - apply String.eqb_eq in E. subst y. f_equal. symmetry.
    apply filter_all. intros z Hz.
    destruct (String.eqb z x) eqn:E; [|reflexivity].
    apply String.eqb_eq in E. now subst z.
  - now rewrite (IH H).
Qed.

(** ** First occurrences *)

Lemma first_occurrences_In (x : string) (l : list string) :
  In x (first_occurrences l) <-> In x l.
Proof.
  induction l as [|y l IH]; simpl; [tauto|].
  rewrite filter_In, IH. split.
  - intros [H | [H _]]; auto.
  - intros [H | H]; auto.
    destruct (String.eqb x y) eqn:E.
    + apply String.eqb_eq in E. now left.
    + right. now split.
Qed.

Lemma first_occurrences_NoDup (l : list string) :
  NoDup (first_occurrences l).
Proof.
  induction l as [|y l IH]; simpl; constructor.
  - rewrite filter_In. intros [_ H]. now rewrite String.eqb_refl in H.
  - now apply NoDup_filter.
Qed.

Lemma first_occurrences_filter (p : string -> bool) (l : list string) :
  first_occurrences (filter p l) = filter p (first_occurrences l).
Proof.
  induction l as [|y l IH]; simpl; [reflexivity|].
  destruct (p y) eqn:E; simpl.
  - f_equal. rewrite IH, !filter_and. apply filter_ext.
    intros a. apply andb_comm.
  - rewrite IH, filter_and. apply filter_ext. intros a.
    destruct (String.eqb a y) eqn:Ea; simpl; [|reflexivity].
    apply String.eqb_eq in Ea. subst a. exact E.
Qed.

Lemma matched_codes_In (c : string) (rem : list watch) (ids : list string) :
  In c (matched_codes rem ids) <-> In c ids /\ In c (codes rem).
Proof.
  unfold matched_codes.
  rewrite first_occurrences_In, filter_In, py_in_In. tauto.
Qed.

Lemma unmatched_ids_In (c : string) (rem : list watch) (ids : list string) :
  In c (unmatched_ids rem ids) <-> In c ids /\ ~ In c (codes rem).
Proof.
  unfold unmatched_ids.
  rewrite filter_In, negb_true_iff, py_in_not_In. tauto.
Qed.

Lemma first_row_None (c : string) (rem : list watch) :
  first_row c rem = None <-> ~ In c (codes rem).
Proof.
  unfold first_row, codes.
  induction rem as [|w rem IH]; simpl; [tauto|].
  destruct (String.eqb (code w) c) eqn:E.
  - apply String.eqb_eq in E. split; [discriminate | tauto].
  - apply String.eqb_neq in E. rewrite IH. tauto.
Qed.

(** ** The reconciliation loops *)

Section LoopFacts.
Context {R P : Type}.
Variable mk : string -> Z -> R.
Variable id_of : R -> string.
Hypothesis id_of_mk : forall c v, id_of (mk c v) = c.
Variable mk_price : watch -> result P.
Variable pid_of : P -> string.
Hypothesis pid_of_mk :
  forall w p, mk_price w = Ok p -> pid_of p = code w.

Lemma stocks_loop_acc (rem : list watch) :
  forall acc ids,
    stocks_loop mk rem acc ids =
    ('(s, i) <- stocks_loop mk rem [] ids ;; Ok (acc ++ s, i))%result.
Proof.
  induction rem as [|w rem IH]; intros acc ids; simpl.
  - now rewrite app_nil_r.
  - destruct (py_in (code w) ids); [|apply IH].
    destruct (resolve_stock w) as [v|e]; simpl; [|reflexivity].
    destruct (py_remove (code w) ids) as [ids1|e]; simpl; [|reflexivity].
    rewrite IH, (IH [mk (code w) v]).
    destruct (stocks_loop mk rem [] ids1) as [[s i]|e]; simpl;
      [|reflexivity].
    now rewrite <- app_assoc.
Qed.

(** What the first loop leaves: the unmatched identifiers, and one
    record per matched code, built from the first row with that
    code. *)
Lemma stocks_loop_spec (rem : list watch) :
  forall ids s ids',
    NoDup ids ->
    stocks_loop mk rem [] ids = Ok (s, ids') ->
    ids' = unmatched_ids rem ids
    /\ map id_of s = matched_codes rem ids
    /\ Forall (fun r => exists w v,
                   first_row (id_of r) rem = Some w
                   /\ resolve_stock w = Ok v
                   /\ r = mk (id_of r) v) s.
Proof.
  induction rem as [|w rem IH]; intros ids s ids' Hnd H; simpl in H.
  - inversion H; subst. repeat split; [|constructor].
    unfold unmatched_ids. symmetry. now apply filter_all.
  - destruct (py_in (code w) ids) eqn:E.
    + destruct (resolve_stock w) as [v|e] eqn:Ev; simpl in H;
        [|discriminate].
      rewrite (py_remove_nodup _ _ Hnd E) in H. simpl in H.
      rewrite stocks_loop_acc in H.
      set (ids1 := filter (fun y => negb (String.eqb y (code w))) ids) in *.
      destruct (stocks_loop mk rem [] ids1) as [[s1 i1]|e] eqn:E1;
        simpl in H; [|discriminate].
      inversion H; subst s ids'; clear H.
      destruct (IH ids1 s1 i1 (NoDup_filter _ Hnd) E1) as (Hi & Hm & Hf).
      repeat split.
      * rewrite Hi. unfold unmatched_ids, ids1. simpl.
        rewrite filter_and. apply filter_ext. intros a.
        symmetry. apply negb_orb.
      * simpl. rewrite id_of_mk, Hm. unfold matched_codes. simpl.
        rewrite E. simpl. f_equal.
        rewrite <- first_occurrences_filter, filter_and.
        f_equal. apply filter_ext_in. intros a _. unfold ids1.
        destruct (py_in a ids) eqn:Ea; simpl.
        -- destruct (String.eqb a (code w)) eqn:Eb; simpl.
           ++ apply py_in_not_In. rewrite filter_In.
              intros [_ Hc]. now rewrite Eb in Hc.
           ++ apply py_in_In. rewrite filter_In, Eb.
              split; [now apply py_in_In | reflexivity].
        -- apply py_in_not_In. rewrite filter_In.
           apply py_in_not_In in Ea. tauto.
      * constructor.
        -- exists w, v. rewrite id_of_mk. unfold first_row. simpl.
           now rewrite String.eqb_refl.
        -- rewrite Forall_forall in *. intros r Hr.
           destruct (Hf r Hr) as (w' & v' & Hw' & Hv' & Hr').
           exists w', v'. repeat split; try assumption.
           unfold first_row. simpl.
           destruct (String.eqb (code w) (id_of r)) eqn:Eb; [|exact Hw'].
           exfalso. apply String.eqb_eq in Eb.
           assert (Hin : In (id_of r) (matched_codes rem ids1)).
           { rewrite <- Hm. now apply in_map. }
           apply matched_codes_In in Hin. destruct Hin as [Hin _].
           unfold ids1 in Hin. rewrite filter_In in Hin.
           destruct Hin as [_ Hin]. rewrite <- Eb in Hin.
           now rewrite String.eqb_refl in Hin.
    + destruct (IH ids s ids' Hnd H) as (Hi & Hm & Hf).
      apply py_in_not_In in E. repeat split.
      * rewrite Hi. unfold unmatched_ids. apply filter_ext_in.
        intros a Ha. simpl.
        destruct (String.eqb a (code w)) eqn:Eb; [|reflexivity].
        apply String.eqb_eq in Eb. now subst a.
      * rewrite Hm. unfold matched_codes. simpl.
        apply py_in_not_In in E. now rewrite E.
      * rewrite Forall_forall in *. intros r Hr.
        destruct (Hf r Hr) as (w' & v' & Hw' & Hv' & Hr').
        exists w', v'. repeat split; try assumption.
        unfold first_row. simpl.
        destruct (String.eqb (code w) (id_of r)) eqn:Eb; [|exact Hw'].
        exfalso. apply String.eqb_eq in Eb.
        assert (Hin : In (id_of r) (matched_codes rem ids)).
        { rewrite <- Hm. now apply in_map. }
        apply matched_codes_In in Hin. rewrite <- Eb in Hin. tauto.
Qed.


Lemma matched_unmatched_NoDup (rem : list watch) (ids : list string) :
  NoDup ids -> NoDup (matched_codes rem ids ++ unmatched_ids rem ids).
Proof.
  intros Hnd. apply NoDup_app.
  - apply first_occurrences_NoDup.
  - now apply NoDup_filter.
  - intros c Hm Hu. apply matched_codes_In in Hm.
    apply unmatched_ids_In in Hu. tauto.
Qed.

Lemma stocks_of_spec (rem : list watch) (ids : list string) stocks ids' :
  NoDup ids ->
  stocks_of mk rem ids = Ok (stocks, ids') ->
  ids' = unmatched_ids rem ids
  /\ map id_of stocks = matched_codes rem ids ++ unmatched_ids rem ids
  /\ (forall r, In r stocks ->
        exists v, r = mk (id_of r) v
                  /\ match first_row (id_of r) rem with
                     | Some w => resolve_stock w = Ok v
                     | None => v = 0
                     end).
Proof.
  intros Hnd H. unfold stocks_of in H.
  destruct (stocks_loop mk rem [] ids) as [[s i]|e] eqn:E; simpl in H;
    [|discriminate].
  inversion H; subst stocks ids'; clear H.
  destruct (stocks_loop_spec rem ids s i Hnd E) as (Hi & Hm & Hf).
  repeat split; [assumption| |].
  - rewrite map_app, Hm, map_map, <- Hi. f_equal.
    rewrite <- (map_id i) at 2. apply map_ext. intros c. apply id_of_mk.
  - intros r Hr. apply in_app_or in Hr. destruct Hr as [Hr | Hr].
    + rewrite Forall_forall in Hf.
      destruct (Hf r Hr) as (w & v & Hw & Hv & Hr').
      exists v. now rewrite Hw.
    + apply in_map_iff in Hr. destruct Hr as (c & <- & Hc).
      exists 0. rewrite id_of_mk. split; [reflexivity|].
      rewrite Hi in Hc. apply unmatched_ids_In in Hc.
      destruct Hc as [_ Hc]. apply first_row_None in Hc. now rewrite Hc.
Qed.






(** The call returns as soon as the rows it matches resolve. *)
Lemma stocks_loop_returns (rem : list watch) :
  forall acc ids,
    (forall w, In w rem -> In (code w) ids ->
               exists v, resolve_stock w = Ok v) ->
    exists s i, stocks_loop mk rem acc ids = Ok (s, i)
                /\ incl i ids.
Proof.
  induction rem as [|w rem IH]; intros acc ids Hres; simpl.
  - exists acc, ids. split; [reflexivity | apply incl_refl].
  - destruct (py_in (code w) ids) eqn:E.
    + destruct (Hres w (or_introl eq_refl)) as [v ->];
        [now apply py_in_In|]. simpl.
      destruct (py_remove_in _ _ E) as [ids1 Hr]. rewrite Hr. simpl.
      assert (Hincl : incl ids1 ids).
      { clear - Hr. revert ids1 Hr.
        induction ids as [|y l IHl]; simpl; intros ids1 Hr;
          [discriminate|].
        destruct (String.eqb y (code w)).
        - inversion Hr; subst. now apply incl_tl, incl_refl.
        - destruct (py_remove (code w) l) as [t|e]; simpl in Hr;
            [|discriminate].
          inversion Hr; subst. apply incl_cons; [now left|].
          apply incl_tl. now apply IHl. }
      destruct (IH (acc ++ [mk (code w) v]) ids1) as (s & i & Hs & Hi).
      { intros w' Hw' Hc. apply Hres; [now right | now apply Hincl]. }
      exists s, i. split; [assumption|]. eapply incl_tran; eassumption.
    + apply IH. intros w' Hw' Hc. apply Hres; [now right | assumption].
Qed.

Lemma stocks_of_returns (rem : list watch) (ids : list string) :
  (forall w, In w rem -> In (code w) ids ->
             exists v, resolve_stock w = Ok v) ->
  exists stocks ids', stocks_of mk rem ids = Ok (stocks, ids').
Proof.
  intros Hres. unfold stocks_of.
  destruct (stocks_loop_returns rem [] ids Hres) as (s & i & -> & _).
  simpl. now eexists _, _.
Qed.

(** *** Prices *)

Lemma prices_loop_acc (rem : list watch) :
  forall acc ids,
    prices_loop mk_price rem acc ids =
    (ps <- prices_loop mk_price rem [] ids ;; Ok (acc ++ ps))%result.
Proof.
  induction rem as [|w rem IH]; intros acc ids; simpl.
  - now rewrite app_nil_r.
  - destruct (py_in (code w) ids); [|apply IH].
    destruct (mk_price w) as [p|e]; simpl; [|reflexivity].
    rewrite IH, (IH [p]).
    destruct (prices_loop mk_price rem [] ids) as [ps|e]; simpl;
      [|reflexivity].
    now rewrite <- app_assoc.
Qed.

(** One price record for each row whose code is in the list, in feed
    order: the list is read and never shrunk. *)
Lemma prices_loop_spec (rem : list watch) :
  forall ids ps,
    prices_loop mk_price rem [] ids = Ok ps ->
    map pid_of ps = filter (fun c => py_in c ids) (codes rem).
Proof.
  induction rem as [|w rem IH]; intros ids ps H; simpl in H.
  - now inversion H.
  - simpl. destruct (py_in (code w) ids).
    + destruct (mk_price w) as [p|e] eqn:Ep; simpl in H; [|discriminate].
      rewrite prices_loop_acc in H.
      destruct (prices_loop mk_price rem [] ids) as [ps1|e] eqn:E1;
        simpl in H; [|discriminate].
      inversion H; subst ps. simpl.
      now rewrite (pid_of_mk _ _ Ep), (IH ids ps1 E1).
    + now apply IH.
Qed.

Lemma prices_loop_none (rem : list watch) (ids : list string) :
  (forall w, In w rem -> ~ In (code w) ids) ->
  prices_loop mk_price rem [] ids = Ok [].
Proof.
  induction rem as [|w rem IH]; intros H; simpl; [reflexivity|].
  assert (E : py_in (code w) ids = false).
  { apply py_in_not_In. apply H. now left. }
  rewrite E. apply IH. intros w' Hw'. apply H. now right.
Qed.

Lemma prices_loop_returns (rem : list watch) (ids : list string) :
  (forall w, In w rem -> In (code w) ids -> exists p, mk_price w = Ok p) ->
  exists ps, prices_loop mk_price rem [] ids = Ok ps.
Proof.
  induction rem as [|w rem IH]; intros H; simpl; [now eexists|].
  destruct IH as [ps Hps].
  { intros w' Hw'. apply H. now right. }
  destruct (py_in (code w) ids) eqn:E; [|now exists ps].
  destruct (H w (or_introl eq_refl)) as [p ->]; [now apply py_in_In|].
  simpl. rewrite prices_loop_acc, Hps. simpl. now eexists.
Qed.
End LoopFacts.

(** [Seller] and [Market] are instances of the loops. *)

Lemma seller_create_stocks_loop rem : forall acc ids,
  Seller.create_stocks_loop rem acc ids = stocks_loop seller_stock rem acc ids.
Proof.
  induction rem as [|w rem IH]; intros acc ids; simpl; [reflexivity|].
  destruct (py_in (code w) ids); [|apply IH].
  destruct (resolve_stock w); simpl; [|reflexivity].
  destruct (py_remove (code w) ids); simpl; [apply IH | reflexivity].
Qed.

Lemma seller_create_stocks rem ids :
  Seller.create_stocks rem ids = stocks_of seller_stock rem ids.
Proof.
  unfold Seller.create_stocks, stocks_of.
  now rewrite seller_create_stocks_loop.
Qed.

Lemma market_create_stocks_loop rem wh date : forall acc ids,
  Market.create_stocks_loop rem wh date acc ids =
  stocks_loop (fun c v => Market.stock_record c wh v date) rem acc ids.
Proof.
  induction rem as [|w rem IH]; intros acc ids; simpl; [reflexivity|].
  destruct (py_in (code w) ids); [|apply IH].
  destruct (resolve_stock w); simpl; [|reflexivity].
  destruct (py_remove (code w) ids); simpl; [apply IH | reflexivity].
Qed.

Lemma market_create_stocks rem ids wh date :
  Market.create_stocks rem ids wh date =
  stocks_of (fun c v => Market.stock_record c wh v date) rem ids.
Proof.
  unfold Market.create_stocks, stocks_of.
  now rewrite market_create_stocks_loop.
Qed.

Lemma seller_create_prices rem ids :
  Seller.create_prices rem ids = prices_loop seller_price rem [] ids.
Proof.
  unfold Seller.create_prices. generalize (@nil Seller.price_item).
  induction rem as [|w rem IH]; intros acc; simpl; [reflexivity|].
  destruct (py_in (code w) ids); [|apply IH].
  unfold seller_price.
  destruct (py_price_conversion (get w Cena)); simpl; [apply IH|reflexivity].
Qed.

Lemma market_create_prices rem ids :
  Market.create_prices rem ids = prices_loop market_price rem [] ids.
Proof.
  unfold Market.create_prices. generalize (@nil Market.price_item).
  induction rem as [|w rem IH]; intros acc; simpl; [reflexivity|].
  destruct (py_in (code w) ids); [|apply IH].
  unfold market_price.
  destruct (Market.price_as_int (get w Cena)); simpl; [apply IH|reflexivity].
Qed.

Lemma seller_price_id w p :
  seller_price w = Ok p -> Seller.price_offer_id p = code w.
Proof.
  unfold seller_price.
  destruct (py_price_conversion (get w Cena)); simpl; [|discriminate].
  now inversion 1.
Qed.

Lemma market_price_id w p :
  market_price w = Ok p -> Market.id p = code w.
Proof.
  unfold market_price.
  destruct (Market.price_as_int (get w Cena)); simpl; [|discriminate].
  now inversion 1.
Qed.

(** ** Quantity resolution *)



Section Malformed.
Context {R : Type} (mk : string -> Z -> R).


End Malformed.

(** ** Reconciliation *)



(** C3, as the code has it.  For a duplicate-free catalog, the stock
    records of either marketplace carry each identifier at most once,
    and the record of a code that the feed repeats has the count of the
    first row with that code.  [create_prices] shrinks nothing: it
    yields one price record for every row whose code is in the list it
    is given, so a code that the feed repeats gets as many price
    records as it has rows. *)
Theorem C3_one_stock_record_per_offer
        (rem : list watch) (ids : list string) (wh date : string) :
  NoDup ids ->
  (forall stocks ids',
      Seller.create_stocks rem ids = Ok (stocks, ids') ->
      NoDup (map Seller.offer_id stocks)
      /\ forall r w, In r stocks ->
                     first_row (Seller.offer_id r) rem = Some w ->
                     resolve_stock w = Ok (Seller.stock r))
  /\ (forall stocks ids',
         Market.create_stocks rem ids wh date = Ok (stocks, ids') ->
         NoDup (map Market.sku stocks)
         /\ forall r w, In r stocks ->
                        first_row (Market.sku r) rem = Some w ->
                        exists v, resolve_stock w = Ok v
                                  /\ r = Market.stock_record
                                           (Market.sku r) wh v date)
  /\ (forall prices,
         Seller.create_prices rem ids = Ok prices ->
         map Seller.price_offer_id prices =
         filter (fun c => py_in c ids) (codes rem))
  /\ (forall prices,
         Market.create_prices rem ids = Ok prices ->
         map Market.id prices = filter (fun c => py_in c ids) (codes rem)).
Proof.
  intros Hnd. repeat split.
  - rewrite seller_create_stocks in H.
    destruct (stocks_of_spec seller_stock Seller.offer_id
                (fun _ _ => eq_refl) rem ids stocks ids' Hnd H)
      as (_ & -> & _).
    now apply matched_unmatched_NoDup.
  - intros r w Hr Hw. rewrite seller_create_stocks in H.
    destruct (stocks_of_spec seller_stock Seller.offer_id
                (fun _ _ => eq_refl) rem ids stocks ids' Hnd H)
      as (_ & _ & Hs).
    destruct (Hs r Hr) as (v & Hv & Hf). rewrite Hw in Hf.
    rewrite Hv. exact Hf.
  - rewrite market_create_stocks in H.
    destruct (stocks_of_spec (fun c v => Market.stock_record c wh v date)
                Market.sku (fun _ _ => eq_refl) rem ids stocks ids' Hnd H)
      as (_ & -> & _).
    now apply matched_unmatched_NoDup.
  - intros r w Hr Hw. rewrite market_create_stocks in H.
    destruct (stocks_of_spec (fun c v => Market.stock_record c wh v date)
                Market.sku (fun _ _ => eq_refl) rem ids stocks ids' Hnd H)
      as (_ & _ & Hs).
    destruct (Hs r Hr) as (v & Hv & Hf). rewrite Hw in Hf.
    exists v. now split.
  - intros prices H. rewrite seller_create_prices in H.
    exact (prices_loop_spec seller_price Seller.price_offer_id
             seller_price_id rem ids prices H).
  - intros prices H. rewrite market_create_prices in H.
    exact (prices_loop_spec market_price Market.id
             market_price_id rem ids prices H).
Qed.

(** The feed of the counterexamples: the code [A] on two rows. *)
Lemma C3_witness :
  NoDup ["A"]
  /\ Seller.create_stocks [row "A" "5" "10.00"; row "A" "7" "12.00"] ["A"]
     = Ok ([seller_stock "A" 5], [])
  /\ NoDup (map Seller.offer_id [seller_stock "A" 5]).
Proof.
  assert (Hnd : NoDup ["A"]) by (repeat constructor; simpl; tauto).
  split; [exact Hnd|]. split; [reflexivity|].
  destruct (C3_one_stock_record_per_offer
              [row "A" "5" "10.00"; row "A" "7" "12.00"] ["A"] "" "" Hnd)
    as (Hs & _).
  exact (proj1 (Hs _ _ eq_refl)).
Defined.

(** Against C3 as stated: on a feed that repeats a code, both
    [create_prices] return two price records for the one identifier. *)
Lemma C3_counterexample :
  NoDup ["A"]
  /\ (exists prices,
         Seller.create_prices
           [row "A" "5" "10.00"; row "A" "7" "12.00"] ["A"] = Ok prices
         /\ map Seller.price_offer_id prices = ["A"; "A"])
  /\ (exists prices,
         Market.create_prices
           [row "A" "5" "10.00"; row "A" "7" "12.00"] ["A"] = Ok prices
         /\ map Market.id prices = ["A"; "A"])
  /\ ~ NoDup ["A"; "A"].
Proof.
  split; [repeat constructor; simpl; tauto|].
  split; [eexists; split; reflexivity|].
  split; [eexists; split; reflexivity|].
  intros H. inversion H as [|? ? Hin _]; subst. apply Hin. now left.
Qed.

(** *** Integer literals *)

Lemma is_digit_not_space (c : ascii) : is_digit c = true -> is_space c = false.
Proof.
  unfold is_digit, is_space. intros H.
  apply andb_true_iff in H. destruct H as [H1 H2].
  apply Nat.leb_le in H1, H2.
  apply orb_false_iff. split.
  - apply andb_false_iff. right. apply Nat.leb_gt. lia.
  - apply Nat.eqb_neq. lia.
Qed.

Lemma is_digit_not_sign (c : ascii) :
  is_digit c = true ->
  Ascii.eqb c "+" = false /\ Ascii.eqb c "-" = false
  /\ Ascii.eqb c "." = false.
Proof.
  intros H. repeat split;
    match goal with
    | |- Ascii.eqb c ?x = false =>
        destruct (Ascii.eqb_spec c x) as [->|_];
          [discriminate | reflexivity]
    end.
Qed.

Lemma digits_decimal (l : list ascii) :
  forall acc,
    forallb is_digit l = true ->
    digits false acc l = Some (decimal_value acc l).
Proof.
  induction l as [|c t IH]; intros acc H; cbn [digits decimal_value];
    [reflexivity|].
  cbn [forallb] in H. apply andb_true_iff in H. destruct H as [Hc Ht].
  rewrite Hc. now apply IH.
Qed.

Lemma unsigned_digits (l : list ascii) :
  forallb is_digit l = true -> l <> [] ->
  unsigned l = Some (decimal_value 0 l).
Proof.
  destruct l as [|c t]; [congruence|]. intros H _. unfold unsigned.
  assert (Hc : is_digit c = true).
  { cbn [forallb] in H. now apply andb_true_iff in H. }
  rewrite Hc. now apply digits_decimal.
Qed.













(** ** Price normalizer *)

Lemma split_on_hd (s : string) :
  hd EmptyString (split_on "." s) = before_dot s.
Proof.
  induction s as [|c t IH]; simpl; [reflexivity|].
  destruct (Ascii.eqb c "."); [reflexivity|].
  destruct (split_on "." t) as [|h r]; simpl in *; now rewrite <- IH.
Qed.

Lemma re_sub_filter (s : string) :
  list_ascii_of_string (re_sub_non_digits s) =
  filter is_digit (list_ascii_of_string s).
Proof.
  induction s as [|c t IH]; simpl; [reflexivity|].
  destruct (is_digit c); simpl; now rewrite IH.
Qed.

Lemma re_sub_digits_only (s : string) :
  digits_only (re_sub_non_digits s) = true.
Proof.
  unfold digits_only. rewrite re_sub_filter. apply forallb_forall.
  intros c Hc. now apply filter_In in Hc.
Qed.

Lemma digits_only_fixed (s : string) :
  digits_only s = true ->
  before_dot s = s /\ re_sub_non_digits s = s.
Proof.
  unfold digits_only.
  induction s as [|c t IH]; simpl; [now split|].
  intros H. apply andb_true_iff in H. destruct H as [Hc Ht].
  destruct (IH Ht) as [IH1 IH2]. rewrite Hc, IH1, IH2.
  destruct (Ascii.eqb c ".") eqn:E; [|now split].
  apply Ascii.eqb_eq in E. subst c. discriminate.
Qed.

(** C8.  [price_conversion] keeps the decimal digits of the part of
    the string before its first decimal point, in order, and nothing
    else; its result holds digits only; on a string of digits only it
    is the identity, hence idempotent; and it maps ["19'990.00 руб."]
    to ["19990"]. *)
Theorem C8_price_conversion (price : string) :
  list_ascii_of_string (price_conversion price) =
  filter is_digit (list_ascii_of_string (before_dot price))
  /\ digits_only (price_conversion price) = true
  /\ (digits_only price = true -> price_conversion price = price)
  /\ price_conversion (price_conversion price) = price_conversion price
  /\ price_conversion "19'990.00 руб." = "19990".
Proof.
  assert (Hid : forall s, digits_only s = true -> price_conversion s = s).
  { intros s Hs. unfold price_conversion. rewrite split_on_hd.
    destruct (digits_only_fixed s Hs) as [-> ->]. reflexivity. }
  assert (Hd : forall s, digits_only (price_conversion s) = true).
  { intros s. apply re_sub_digits_only. }
  repeat split.
  - unfold price_conversion. now rewrite split_on_hd, re_sub_filter.
  - apply Hd.
  - apply Hid.
  - apply Hid, Hd.
Qed.

Lemma C8_witness :
  digits_only "19990" = true /\ price_conversion "19990" = "19990".
Proof.
  split; [reflexivity|].
  exact (proj1 (proj2 (proj2 (C8_price_conversion "19990"))) eq_refl).
Defined.

(** ** Batcher *)

Section Divide.
Context {A : Type}.
Implicit Types l lst : list A.

Lemma firstn_plus (a b : nat) :
  forall l, firstn (a + b) l = firstn a l ++ firstn b (skipn a l).
Proof.
  induction a as [|a IH]; intros [|x l]; simpl; try reflexivity.
  - now rewrite firstn_nil.
  - now rewrite IH.
Qed.

Lemma concat_chunks_nat (N m : nat) l :
  concat (chunks_nat N m l) = firstn (m * N) l.
Proof.
  unfold chunks_nat. induction m as [|m IH]; [reflexivity|].
  rewrite seq_S, map_app, concat_app, IH. simpl.
  rewrite app_nil_r, (Nat.add_comm N (m * N)). symmetry.
  apply firstn_plus.
Qed.

Lemma nth_chunks_nat (N m k : nat) l :
  (k < m)%nat ->
  nth k (chunks_nat N m l) [] = firstn N (skipn (k * N) l).
Proof.
  intros Hk. unfold chunks_nat.
  rewrite (nth_indep _ [] (firstn N (skipn (0 * N) l)))
    by now rewrite length_map, length_seq.
  rewrite (map_nth (fun k => firstn N (skipn (k * N) l))).
  now rewrite seq_nth.
Qed.

(** A slice that starts inside the list. *)
Lemma py_slice_from (i n : nat) l :
  (i <= length l)%nat ->
  py_slice l (Z.of_nat i) (Z.of_nat i + Z.of_nat n) =
  firstn n (skipn i l).
Proof.
  intros Hi. unfold py_slice, clamp.
  destruct (Z.ltb_spec (Z.of_nat i) 0) as [H|_]; [lia|].
  destruct (Z.ltb_spec (Z.of_nat i + Z.of_nat n) 0) as [H|_]; [lia|].
  rewrite (Z.min_r _ (Z.of_nat i)) by lia. rewrite Nat2Z.id.
  destruct (Z.le_gt_cases (Z.of_nat i + Z.of_nat n) (Z.of_nat (length l)))
    as [H|H].
  - rewrite Z.min_r by lia. f_equal. lia.
  - rewrite Z.min_l by lia.
    rewrite !firstn_all2; try reflexivity; rewrite length_skipn; lia.
Qed.

Lemma chunk_count_bounds (len n : Z) :
  0 <= len -> 1 <= n ->
  0 <= chunk_count len n
  /\ len <= chunk_count len n * n
  /\ (0 < chunk_count len n -> (chunk_count len n - 1) * n < len)
  /\ (len = 0 -> chunk_count len n = 0).
Proof.
  intros Hl Hn. unfold chunk_count.
  destruct (Z.ltb_spec 0 len) as [H|H]; [|lia].
  assert (H1 := Z.mul_div_le (len - 0 - 1) n ltac:(lia)).
  assert (H2 := Z.mul_succ_div_gt (len - 0 - 1) n ltac:(lia)).
  assert (H3 : 0 <= (len - 0 - 1) / n) by (apply Z.div_pos; lia).
  nia.
Qed.

Lemma chunk_count_nat (n : Z) l (k : nat) :
  1 <= n ->
  let m := Z.to_nat (chunk_count (Z.of_nat (length l)) n) in
  (length l <= m * Z.to_nat n)%nat
  /\ ((k < m)%nat -> (k * Z.to_nat n < length l)%nat)
  /\ ((S k < m)%nat -> (S k * Z.to_nat n < length l)%nat)
  /\ (l = [] -> m = 0%nat).
Proof.
  intros Hn m.
  destruct (chunk_count_bounds (Z.of_nat (length l)) n ltac:(lia) Hn)
    as (H0 & H1 & H2 & H3).
  assert (Hm : Z.of_nat m = chunk_count (Z.of_nat (length l)) n)
    by (unfold m; lia).
  assert (HN : Z.of_nat (Z.to_nat n) = n) by lia.
  repeat split.
  - apply Nat2Z.inj_le. rewrite Nat2Z.inj_mul, Hm, HN. exact H1.
  - intros Hk. apply Nat2Z.inj_lt. rewrite Nat2Z.inj_mul, HN.
    assert (Z.of_nat k * n <= (chunk_count (Z.of_nat (length l)) n - 1) * n)
      by (apply Z.mul_le_mono_nonneg_r; lia).
    lia.
  - intros Hk. apply Nat2Z.inj_lt. rewrite Nat2Z.inj_mul, HN.
    assert (Z.of_nat (S k) * n
            <= (chunk_count (Z.of_nat (length l)) n - 1) * n)
      by (apply Z.mul_le_mono_nonneg_r; lia).
    lia.
  - intros ->. simpl in *. specialize (H3 eq_refl). lia.
Qed.

(** [divide] with a positive width, in closed form. *)
Lemma divide_chunks_nat lst (n : Z) :
  1 <= n ->
  divide lst n =
  Ok (chunks_nat (Z.to_nat n)
                 (Z.to_nat (chunk_count (Z.of_nat (length lst)) n)) lst).
Proof.
  intros Hn. unfold divide, py_range.
  destruct (Z.eqb_spec n 0) as [H|_]; [lia|].
  destruct (Z.ltb_spec 0 n) as [_|H]; [|lia].
  fold (chunk_count (Z.of_nat (length lst)) n). simpl.
  f_equal. unfold chunks_nat. rewrite map_map.
  apply map_ext_in. intros k Hk. apply in_seq in Hk.
  destruct (chunk_count_nat n lst k Hn) as (_ & Hlt & _).
  cbv beta.
  transitivity (py_slice lst (Z.of_nat (k * Z.to_nat n))
                         (Z.of_nat (k * Z.to_nat n)
                          + Z.of_nat (Z.to_nat n))).
  - rewrite Nat2Z.inj_mul, Z2Nat.id by lia. f_equal; lia.
  - apply py_slice_from. lia.
Qed.

(** A width below 1: an error for 0, no chunk for a negative one. *)
Lemma divide_zero lst : divide lst 0 = Err ValueError.
Proof. reflexivity. Qed.

Lemma divide_negative lst (n : Z) : n < 0 -> divide lst n = Ok [].
Proof.
  intros Hn. unfold divide, py_range.
  destruct (Z.eqb_spec n 0) as [H|_]; [lia|].
  destruct (Z.ltb_spec 0 n) as [H|_]; [lia|].
  destruct (Z.ltb_spec (Z.of_nat (length lst)) 0) as [H|_]; [lia|].
  reflexivity.
Qed.
End Divide.

(** C7.  For a width [n >= 1], [divide] returns chunks whose
    concatenation is the list; chunk [k] is the [n] elements that
    follow the first [k * n], so the chunks are contiguous and do not
    overlap; every chunk but the last has exactly [n] elements, no
    chunk is empty or longer than [n]; and the empty list gives no
    chunk. *)
Theorem C7_divide_chunks {A : Type} (lst : list A) (n : Z) :
  1 <= n ->
  exists chunks,
    divide lst n = Ok chunks
    /\ concat chunks = lst
    /\ (forall k, (k < length chunks)%nat ->
                  nth k chunks [] =
                  firstn (Z.to_nat n) (skipn (k * Z.to_nat n) lst))
    /\ (forall k, (S k < length chunks)%nat ->
                  Z.of_nat (length (nth k chunks [])) = n)
    /\ (forall c, In c chunks -> 1 <= Z.of_nat (length c) <= n)
    /\ (lst = [] -> chunks = []).
Proof.
  intros Hn. eexists. split; [now apply divide_chunks_nat|].
  set (m := Z.to_nat (chunk_count (Z.of_nat (length lst)) n)).
  assert (Hlen : length (chunks_nat (Z.to_nat n) m lst) = m).
  { unfold chunks_nat. now rewrite length_map, length_seq. }
  repeat split.
  - rewrite concat_chunks_nat. apply firstn_all2.
    now destruct (chunk_count_nat n lst 0 Hn) as (H & _).
  - intros k Hk. rewrite Hlen in Hk. now apply nth_chunks_nat.
  - intros k Hk. rewrite Hlen in Hk.
    rewrite nth_chunks_nat by lia.
    destruct (chunk_count_nat n lst k Hn) as (_ & _ & H & _).
    specialize (H Hk). rewrite length_firstn, length_skipn.
    simpl in H. lia.
  - apply In_nth with (d := []) in H.
    destruct H as (k & Hk & <-). rewrite Hlen in Hk.
    rewrite nth_chunks_nat by lia.
    destruct (chunk_count_nat n lst k Hn) as (_ & H & _).
    specialize (H Hk). rewrite length_firstn, length_skipn. lia.
  - apply In_nth with (d := []) in H.
    destruct H as (k & Hk & <-). rewrite Hlen in Hk.
    rewrite nth_chunks_nat by lia.
    rewrite length_firstn. lia.
  - intros ->. reflexivity.
Qed.

Lemma C7_witness :
  1 <= 2
  /\ exists chunks,
      divide [1; 2; 3; 4; 5] 2 = Ok chunks /\ concat chunks = [1; 2; 3; 4; 5].
Proof.
  assert (H : 1 <= 2) by discriminate.
  split; [exact H|].
  destruct (C7_divide_chunks [1; 2; 3; 4; 5] 2 H) as (chunks & Hd & Hc & _).
  exists chunks. now split.
Defined.

(** C9, as the code has it.  A width of 0 is an error: [range] raises
    [ValueError] when the chunks are first asked for.  A negative width
    is not: [divide] then yields no chunk at all. *)
Theorem C9_divide_nonpositive {A : Type} (lst : list A) (n : Z) :
  n <= 0 ->
  (n = 0 -> divide lst n = Err ValueError)
  /\ (n < 0 -> divide lst n = Ok []).
Proof.
  intros _. split.
  - intros ->. apply divide_zero.
  - apply divide_negative.
Qed.

Lemma C9_witness :
  0 <= 0 /\ divide [1; 2; 3] 0 = Err ValueError.
Proof.
  assert (H : 0 <= 0) by discriminate.
  split; [exact H|].
  exact (proj1 (C9_divide_nonpositive [1; 2; 3] 0 H) eq_refl).
Defined.

(** Against C9 as stated: a negative width raises nothing. *)
Lemma C9_counterexample :
  -1 <= 0 /\ divide [1; 2; 3] (-1) = Ok [].
Proof. split; [discriminate | reflexivity]. Qed.

(** ** Catalog fetch *)

(** One turn of the loop of [seller.py], by the answer it gets. *)
Lemma seller_loop_step (w : Seller.world) (fuel : nat) (cid tok : string)
      (last : option string) (acc : list Seller.product)
      (h : list Seller.request) :
  Seller.get_offer_ids_loop w (S fuel) cid tok last acc h =
  let h1 := h ++ [Seller.ProductList last cid tok] in
  match Seller.product_list_api w h last cid tok with
  | Err e => (Raise e, h1)
  | Ok None => (Raise AttributeError, h1)
  | Ok (Some p) =>
      match Seller.get_items p with
      | None => (Raise TypeError, h1)
      | Some items =>
          if match Seller.get_total p with
             | Some t => t =? Z.of_nat (length (acc ++ items))
             | None => false
             end
          then (Ret (acc ++ items), h1)
          else Seller.get_offer_ids_loop w fuel cid tok
                                         (Seller.get_last_id p)
                                         (acc ++ items) h1
      end
  end.
Proof.
  cbn [Seller.get_offer_ids_loop]. unfold bind at 1.
  unfold Seller.get_product_list, perform.
  destruct (Seller.product_list_api w h last cid tok) as [[p|]|e];
    try reflexivity.
  unfold bind, lift, attr, iterable. simpl.
  destruct (Seller.get_items p) as [items|]; [|reflexivity].
  destruct (Seller.get_total p) as [t|]; [|reflexivity].
  destruct (t =? Z.of_nat (length (acc ++ items))); reflexivity.
Qed.

(** One turn of the loop of [market.py]. *)
Lemma market_loop_step (w : Market.world) (fuel : nat) (cid tok : string)
      (page : option string) (acc : list Market.entry)
      (h : list Market.request) :
  Market.get_offer_ids_loop w (S fuel) cid tok page acc h =
  let h1 := h ++ [Market.OfferMappingEntries page cid tok] in
  match Market.offer_mapping_api w h page cid tok with
  | Err e => (Raise e, h1)
  | Ok None => (Raise AttributeError, h1)
  | Ok (Some p) =>
      match Market.get_offerMappingEntries p with
      | None => (Raise TypeError, h1)
      | Some entries =>
          match Market.get_paging p with
          | None => (Raise AttributeError, h1)
          | Some pg =>
              if Market.py_not (Market.get_nextPageToken pg)
              then (Ret (acc ++ entries), h1)
              else Market.get_offer_ids_loop
                     w fuel cid tok (Market.get_nextPageToken pg)
                     (acc ++ entries) h1
          end
      end
  end.
Proof.
  cbn [Market.get_offer_ids_loop]. unfold bind at 1.
  unfold Market.get_product_list, perform.
  destruct (Market.offer_mapping_api w h page cid tok) as [[p|]|e];
    try reflexivity.
  unfold bind, lift, attr, iterable. simpl.
  destruct (Market.get_offerMappingEntries p) as [entries|];
    [|reflexivity].
  destruct (Market.get_paging p) as [pg|]; [|reflexivity].
  destruct (Market.py_not (Market.get_nextPageToken pg)); reflexivity.
Qed.

(** C2, as the code has it.  In [market.py] the loop stops at the
    first answer whose paging has an empty or absent [nextPageToken],
    whatever the number of entries received, and [get_offer_ids]
    returns the identifiers gathered so far.  In [seller.py] the page
    token decides nothing: the loop stops at the first answer whose
    [total] equals the number of products gathered, and after any other
    answer it asks again with the [last_id] it was given, empty or
    not. *)
Theorem C2_catalog_fetch_stops
        (wm : Market.world) (ws : Seller.world) (fuel : nat)
        (cid tok : string) (page last : option string)
        (accm : list Market.entry) (accs : list Seller.product)
        (hm : list Market.request) (hs : list Seller.request) :
  (forall pm entries pg,
      Market.offer_mapping_api wm hm page cid tok = Ok (Some pm) ->
      Market.get_offerMappingEntries pm = Some entries ->
      Market.get_paging pm = Some pg ->
      Market.get_nextPageToken pg = None
      \/ Market.get_nextPageToken pg = Some "" ->
      Market.get_offer_ids_loop wm (S fuel) cid tok page accm hm =
      (Ret (accm ++ entries),
       hm ++ [Market.OfferMappingEntries page cid tok])
      /\ (page = Some "" ->
          Market.get_offer_ids wm (S fuel) cid tok hm =
          (Ret (map (fun e => Market.shopSku (Market.get_offer e)) entries),
           hm ++ [Market.OfferMappingEntries page cid tok])))
  /\ (forall ps items,
         Seller.product_list_api ws hs last cid tok = Ok (Some ps) ->
         Seller.get_items ps = Some items ->
         (Seller.get_total ps = Some (Z.of_nat (length (accs ++ items))) ->
          Seller.get_offer_ids_loop ws (S fuel) cid tok last accs hs =
          (Ret (accs ++ items), hs ++ [Seller.ProductList last cid tok]))
         /\ (Seller.get_total ps
             <> Some (Z.of_nat (length (accs ++ items))) ->
             Seller.get_offer_ids_loop ws (S fuel) cid tok last accs hs =
             Seller.get_offer_ids_loop
               ws fuel cid tok (Seller.get_last_id ps) (accs ++ items)
               (hs ++ [Seller.ProductList last cid tok]))).
Proof.
  split.
  - intros pm entries pg Hm He Hp Htok.
    assert (Hnot : Market.py_not (Market.get_nextPageToken pg) = true).
    { destruct Htok as [-> | ->]; reflexivity. }
    split.
    + rewrite market_loop_step, Hm, He, Hp. cbv zeta. now rewrite Hnot.
    + intros ->. unfold Market.get_offer_ids, bind.
      rewrite market_loop_step, Hm, He, Hp. cbv zeta. now rewrite Hnot.
  - intros ps items Hs Hi. split; intros Ht.
    + rewrite seller_loop_step, Hs, Hi, Ht. cbv zeta.
      now rewrite Z.eqb_refl.
    + rewrite seller_loop_step, Hs, Hi. cbv zeta.
      destruct (Seller.get_total ps) as [t|]; [|reflexivity].
      destruct (Z.eqb_spec t (Z.of_nat (length (accs ++ items))));
        [congruence | reflexivity].
Qed.

Lemma C2_witness :
  Market.offer_mapping_api (market_catalog ["A"; "B"]) [] (Some "") "" ""
  = Ok (Some {| Market.get_offerMappingEntries :=
                  Some (map (fun c =>
                               Market.Build_entry (Market.Build_offer c))
                            ["A"; "B"]);
                Market.get_paging :=
                  Some {| Market.get_nextPageToken := None |} |})
  /\ Market.get_offer_ids (market_catalog ["A"; "B"]) 1 "" "" []
     = (Ret ["A"; "B"], [Market.OfferMappingEntries (Some "") "" ""]).
Proof.
  split; [reflexivity|].
  exact (proj2
           (proj1
              (C2_catalog_fetch_stops
                 (market_catalog ["A"; "B"]) stuck_world 0 "" ""
                 (Some "") (Some "") [] [] [] [])
              _ _ _ eq_refl eq_refl eq_refl (or_introl eq_refl))
           eq_refl).
Defined.

(** Against C2 as stated, for [seller.py]: the remote side answers
    with an empty [last_id] and two products out of a total of 3, and
    the loop does not stop; whatever the fuel, it runs out. *)
Lemma C2_counterexample :
  Seller.product_list_api stuck_world [] (Some "") "" ""
  = Ok (Some stuck_page)
  /\ Seller.get_last_id stuck_page = Some ""
  /\ forall fuel,
      fst (Seller.get_offer_ids stuck_world fuel "" "" []) = Timeout.
Proof.
  split; [reflexivity|]. split; [reflexivity|].
  assert (Hloop : forall fuel last acc h,
             length acc <> 1%nat ->
             fst (Seller.get_offer_ids_loop stuck_world fuel "" ""
                                            last acc h) = Timeout).
  { induction fuel as [|fuel IH]; intros last acc h Hacc; [reflexivity|].
    rewrite seller_loop_step. cbn -[Seller.get_offer_ids_loop Z.eqb Z.of_nat].
    destruct (Z.eqb_spec 3 (Z.of_nat (length
                (acc ++ [Seller.Build_product "A"; Seller.Build_product "B"]))))
      as [H|H].
    - rewrite length_app in H. simpl in H. lia.
    - apply IH. rewrite length_app. simpl. lia. }
  intros fuel. unfold Seller.get_offer_ids, bind.
  specialize (Hloop fuel (Some "") [] [] ltac:(discriminate)).
  destruct (Seller.get_offer_ids_loop stuck_world fuel "" "" (Some "") [] [])
    as [[a|e|] h']; simpl in *; congruence.
Qed.


(** ** Dispatch *)

Lemma Forall_firstn {A} (P : A -> Prop) (k : nat) :
  forall l, Forall P l -> Forall P (firstn k l).
Proof.
  induction k as [|k IH]; intros l H; [constructor|].
  destruct H as [|x l Hx Hl]; simpl; constructor; auto.
Qed.

Lemma divide_bound {A} (xs : list A) (n : Z) (chunks : list (list A)) :
  1 <= n -> divide xs n = Ok chunks ->
  Forall (fun b => Z.of_nat (length b) <= n) chunks.
Proof.
  intros Hn H. rewrite (divide_chunks_nat xs n Hn) in H.
  inversion H; subst chunks. unfold chunks_nat.
  apply Forall_forall. intros b Hb. apply in_map_iff in Hb.
  destruct Hb as (k & <- & _). rewrite length_firstn. lia.
Qed.

Section Dispatch.
Context {E A : Type}.
Variable ev : list A -> E.
Variable ans : list A -> list E -> result json.

(** The loop over the chunks issues one request per chunk, in order,
    up to the first one that fails. *)
Lemma for_each_perform (chunks : list (list A)) :
  forall h,
    let r := for_each chunks (fun c => perform (ev c) (ans c)) h in
    exists k,
      snd r = h ++ map ev (firstn k chunks)
      /\ ((exists e, fst r = Raise e)
          \/ (fst r = Ret tt /\ firstn k chunks = chunks)).
Proof.
  induction chunks as [|c t IH]; intros h; cbv zeta.
  - exists 0%nat. simpl. rewrite app_nil_r. split; [reflexivity|].
    right. now split.
  - assert (Heq : for_each (c :: t) (fun c => perform (ev c) (ans c)) h =
                  match ans c h with
                  | Ok _ => for_each t (fun c => perform (ev c) (ans c))
                                     (h ++ [ev c])
                  | Err e => (Raise e, h ++ [ev c])
                  end).
    { cbn [for_each]. unfold bind at 1. unfold perform at 1.
      now destruct (ans c h). }
    rewrite Heq. clear Heq. destruct (ans c h) as [j|e].
    + destruct (IH (h ++ [ev c])) as (k & Hs & Ho).
      exists (S k). rewrite Hs. simpl.
      rewrite <- app_assoc. split; [reflexivity|].
      destruct Ho as [Ho | [Ho Hk]]; [now left|].
      right. split; [assumption | now rewrite Hk].
    + exists 1%nat. simpl. split; [reflexivity|]. left. now eexists.
Qed.

(** Chunking by [n], sending the chunks, then going on with [k]:
    the log gains the chunks sent, none wider than [n]; either all
    were sent and [k] has run, or one was refused. *)
Lemma dispatch_then {C} (k : M E C) (xs : list A) (n : Z) (h : list E)
      (o : outcome C) (h' : list E) :
  1 <= n ->
  bind (lift (divide xs n))
       (fun chunks =>
          bind (for_each chunks (fun c => perform (ev c) (ans c)))
               (fun _ => k)) h = (o, h') ->
  exists new,
    Forall (fun b => Z.of_nat (length b) <= n) new
    /\ (exists chunks j, divide xs n = Ok chunks /\ new = firstn j chunks)
    /\ ((divide xs n = Ok new /\ k (h ++ map ev new) = (o, h'))
        \/ ((exists e, o = Raise e) /\ h' = h ++ map ev new)).
Proof.
  intros Hn.
  set (body := fun c => perform (ev c) (ans c)).
  destruct (divide xs n) as [chunks|e] eqn:Hd.
  2:{ rewrite (divide_chunks_nat xs n Hn) in Hd. discriminate. }
  assert (Hb := divide_bound xs n chunks Hn Hd).
  set (r := bind (lift (Ok chunks)) _ h).
  assert (Hr : r = match for_each chunks body h with
                   | (Ret _, h1) => k h1
                   | (Raise e, h1) => (Raise e, h1)
                   | (Timeout, h1) => (Timeout, h1)
                   end) by reflexivity.
  rewrite Hr. clear Hr r.
  destruct (for_each_perform chunks h) as (j & Hs & Ho).
  cbv zeta in Hs, Ho. fold body in Hs, Ho.
  destruct (for_each chunks body h) as [[u|e|] h1]; simpl in Hs, Ho;
    subst h1; intros H.
  - destruct Ho as [[e He] | [_ Hj]]; [discriminate|].
    rewrite Hj in H. exists chunks. split; [assumption|].
    split; [now exists chunks, j|]. left. now split.
  - inversion H; subst o h'.
    exists (firstn j chunks). split; [now apply Forall_firstn|].
    split; [now exists chunks, j|].
    right. split; [now eexists | reflexivity].
  - destruct Ho as [[e He] | [He _]]; discriminate.
Qed.

(** When the remote side accepts every chunk, all of them are sent. *)
Lemma for_each_accepted (chunks : list (list A)) :
  (forall c h, exists j, ans c h = Ok j) ->
  forall h,
    for_each chunks (fun c => perform (ev c) (ans c)) h =
    (Ret tt, h ++ map ev chunks).
Proof.
  intros Hacc. induction chunks as [|c t IH]; intros h; cbn [for_each].
  - unfold ret. simpl. now rewrite app_nil_r.
  - unfold bind, perform. destruct (Hacc c h) as [j ->].
    rewrite IH. simpl. now rewrite <- app_assoc.
Qed.
End Dispatch.

(** The catalog fetch sends no batch. *)
Lemma seller_fetch_batches (w : Seller.world) (fuel : nat)
      (cid tok : string) (h : list Seller.request) :
  let r := Seller.get_offer_ids w fuel cid tok h in
  seller_stock_batches (snd r) = seller_stock_batches h
  /\ seller_price_batches (snd r) = seller_price_batches h.
Proof.
  assert (Hloop : forall last acc h,
             let r := Seller.get_offer_ids_loop w fuel cid tok last acc h in
             seller_stock_batches (snd r) = seller_stock_batches h
             /\ seller_price_batches (snd r) = seller_price_batches h).
  { induction fuel as [|fuel IH]; intros last acc h0; [now split|].
    cbv zeta. rewrite seller_loop_step. cbv zeta.
    assert (Hone : seller_stock_batches
                     (h0 ++ [Seller.ProductList last cid tok])
                   = seller_stock_batches h0
                   /\ seller_price_batches
                        (h0 ++ [Seller.ProductList last cid tok])
                      = seller_price_batches h0).
    { unfold seller_stock_batches, seller_price_batches.
      rewrite !flat_map_app. simpl. now rewrite !app_nil_r. }
    destruct (Seller.product_list_api w h0 last cid tok) as [[p|]|e];
      try exact Hone.
    destruct (Seller.get_items p) as [items|]; try exact Hone.
    destruct (match Seller.get_total p with
              | Some t => t =? Z.of_nat (length (acc ++ items))
              | None => false
              end); [exact Hone|].
    destruct (IH (Seller.get_last_id p) (acc ++ items)
                 (h0 ++ [Seller.ProductList last cid tok])) as [H1 H2].
    cbv zeta in H1, H2. rewrite H1, H2. exact Hone. }
  cbv zeta. unfold Seller.get_offer_ids, bind.
  specialize (Hloop (Some "") [] h). cbv zeta in Hloop.
  destruct (Seller.get_offer_ids_loop w fuel cid tok (Some "") [] h)
    as [[pl|e|] h1]; exact Hloop.
Qed.

Lemma market_fetch_batches (w : Market.world) (fuel : nat)
      (cid tok : string) (h : list Market.request) :
  let r := Market.get_offer_ids w fuel cid tok h in
  market_stock_batches (snd r) = market_stock_batches h
  /\ market_price_batches (snd r) = market_price_batches h.
Proof.
  assert (Hloop : forall page acc h,
             let r := Market.get_offer_ids_loop w fuel cid tok page acc h in
             market_stock_batches (snd r) = market_stock_batches h
             /\ market_price_batches (snd r) = market_price_batches h).
  { induction fuel as [|fuel IH]; intros page acc h0; [now split|].
    cbv zeta. rewrite market_loop_step. cbv zeta.
    assert (Hone : market_stock_batches
                     (h0 ++ [Market.OfferMappingEntries page cid tok])
                   = market_stock_batches h0
                   /\ market_price_batches
                        (h0 ++ [Market.OfferMappingEntries page cid tok])
                      = market_price_batches h0).
    { unfold market_stock_batches, market_price_batches.
      rewrite !flat_map_app. simpl. now rewrite !app_nil_r. }
    destruct (Market.offer_mapping_api w h0 page cid tok) as [[p|]|e];
      try exact Hone.
    destruct (Market.get_offerMappingEntries p) as [entries|];
      try exact Hone.
    destruct (Market.get_paging p) as [pg|]; try exact Hone.
    destruct (Market.py_not (Market.get_nextPageToken pg));
      [exact Hone|].
    destruct (IH (Market.get_nextPageToken pg) (acc ++ entries)
                 (h0 ++ [Market.OfferMappingEntries page cid tok]))
      as [H1 H2].
    cbv zeta in H1, H2. rewrite H1, H2. exact Hone. }
  cbv zeta. unfold Market.get_offer_ids, bind.
  specialize (Hloop (Some "") [] h). cbv zeta in Hloop.
  destruct (Market.get_offer_ids_loop w fuel cid tok (Some "") [] h)
    as [[pl|e|] h1]; exact Hloop.
Qed.

(** What a log gains when batches are appended to it. *)
Lemma seller_stock_batches_app h (new : list (list Seller.stock_item))
      (cid tok : string) :
  seller_stock_batches
    (h ++ map (fun b => Seller.ImportStocks b cid tok) new)
  = seller_stock_batches h ++ new
  /\ seller_price_batches
       (h ++ map (fun b => Seller.ImportStocks b cid tok) new)
     = seller_price_batches h.
Proof.
  unfold seller_stock_batches, seller_price_batches.
  rewrite !flat_map_app. split.
  - f_equal. induction new as [|b t IH]; simpl; now f_equal.
  - rewrite <- app_nil_r. f_equal.
    induction new as [|b t IH]; simpl; [reflexivity | assumption].
Qed.

Lemma seller_price_batches_app h (new : list (list Seller.price_item))
      (cid tok : string) :
  seller_price_batches
    (h ++ map (fun b => Seller.ImportPrices b cid tok) new)
  = seller_price_batches h ++ new
  /\ seller_stock_batches
       (h ++ map (fun b => Seller.ImportPrices b cid tok) new)
     = seller_stock_batches h.
Proof.
  unfold seller_stock_batches, seller_price_batches.
  rewrite !flat_map_app. split.
  - f_equal. induction new as [|b t IH]; simpl; now f_equal.
  - rewrite <- app_nil_r. f_equal.
    induction new as [|b t IH]; simpl; [reflexivity | assumption].
Qed.

Lemma market_stock_batches_app h (new : list (list Market.stock_item))
      (cid tok : string) :
  market_stock_batches
    (h ++ map (fun b => Market.PutStocks b cid tok) new)
  = market_stock_batches h ++ new.
Proof.
  unfold market_stock_batches. rewrite flat_map_app. f_equal.
  induction new as [|b t IH]; simpl; now f_equal.
Qed.

Lemma market_price_batches_app h (new : list (list Market.price_item))
      (cid tok : string) :
  market_price_batches
    (h ++ map (fun b => Market.PriceUpdates b cid tok) new)
  = market_price_batches h ++ new.
Proof.
  unfold market_price_batches. rewrite flat_map_app. f_equal.
  induction new as [|b t IH]; simpl; now f_equal.
Qed.

(** The run ended before any batch was sent. *)
Ltac nothing_sent H :=
  inversion H; subst; exists []; rewrite ?app_nil_r;
  repeat split; solve [assumption | constructor | intros; discriminate].

Lemma seller_upload_stocks_batches (ws : Seller.world) (fuel : nat)
      (rem : list watch) (cid tok : string) (hs : list Seller.request)
      o h' :
  Seller.upload_stocks ws fuel rem cid tok hs = (o, h') ->
  exists new,
    seller_stock_batches h' = seller_stock_batches hs ++ new
    /\ Forall (fun b => Z.of_nat (length b) <= 100) new
    /\ (forall ne stocks, o = Ret (ne, stocks) ->
                          divide stocks 100 = Ok new).
Proof.
  intros H. unfold Seller.upload_stocks in H. unfold bind at 1 in H.
  destruct (seller_fetch_batches ws fuel cid tok hs) as [Hf _].
  cbv zeta in Hf.
  destruct (Seller.get_offer_ids ws fuel cid tok hs) as [[ids|e|] h1];
    simpl in Hf; [|nothing_sent H..].
  unfold bind at 1, lift at 1 in H.
  destruct (Seller.create_stocks rem ids) as [[stocks ids']|e];
    [|nothing_sent H].
  cbn beta iota in H. unfold Seller.update_stocks in H.
  apply (dispatch_then (fun b => Seller.ImportStocks b cid tok)
           (fun b h => Seller.import_stocks_api ws h b cid tok)) in H;
    [|lia].
  destruct H as (new & Hb & _ & [[Hd Hk] | [[e ->] ->]]); exists new.
  - inversion Hk; subst o h'.
    destruct (seller_stock_batches_app h1 new cid tok) as [-> _].
    rewrite Hf. repeat split; [assumption|].
    intros ne stocks0 Hr. now inversion Hr; subst.
  - destruct (seller_stock_batches_app h1 new cid tok) as [-> _].
    rewrite Hf. repeat split; [assumption | intros; discriminate].
Qed.

Lemma seller_upload_prices_batches (ws : Seller.world) (fuel : nat)
      (rem : list watch) (cid tok : string) (hs : list Seller.request)
      o h' :
  Seller.upload_prices ws fuel rem cid tok hs = (o, h') ->
  exists new,
    seller_price_batches h' = seller_price_batches hs ++ new
    /\ Forall (fun b => Z.of_nat (length b) <= 1000) new
    /\ (forall prices, o = Ret prices -> divide prices 1000 = Ok new).
Proof.
  intros H. unfold Seller.upload_prices in H. unfold bind at 1 in H.
  destruct (seller_fetch_batches ws fuel cid tok hs) as [_ Hf].
  cbv zeta in Hf.
  destruct (Seller.get_offer_ids ws fuel cid tok hs) as [[ids|e|] h1];
    simpl in Hf; [|nothing_sent H..].
  unfold bind at 1, lift at 1 in H.
  destruct (Seller.create_prices rem ids) as [prices|e];
    [|nothing_sent H].
  unfold Seller.update_price in H.
  apply (dispatch_then (fun b => Seller.ImportPrices b cid tok)
           (fun b h => Seller.import_prices_api ws h b cid tok)) in H;
    [|lia].
  destruct H as (new & Hb & _ & [[Hd Hk] | [[e ->] ->]]); exists new.
  - inversion Hk; subst o h'.
    destruct (seller_price_batches_app h1 new cid tok) as [-> _].
    rewrite Hf. repeat split; [assumption|].
    intros prices0 Hr. now inversion Hr; subst.
  - destruct (seller_price_batches_app h1 new cid tok) as [-> _].
    rewrite Hf. repeat split; [assumption | intros; discriminate].
Qed.

Lemma market_upload_prices_batches (wm : Market.world) (fuel : nat)
      (rem : list watch) (cid tok : string) (hm : list Market.request)
      o h' :
  Market.upload_prices wm fuel rem cid tok hm = (o, h') ->
  exists new,
    market_price_batches h' = market_price_batches hm ++ new
    /\ Forall (fun b => Z.of_nat (length b) <= 500) new
    /\ (forall prices, o = Ret prices -> divide prices 500 = Ok new).
Proof.
  intros H. unfold Market.upload_prices in H. unfold bind at 1 in H.
  destruct (market_fetch_batches wm fuel cid tok hm) as [_ Hf].
  cbv zeta in Hf.
  destruct (Market.get_offer_ids wm fuel cid tok hm) as [[ids|e|] h1];
    simpl in Hf; [|nothing_sent H..].
  unfold bind at 1, lift at 1 in H.
  destruct (Market.create_prices rem ids) as [prices|e];
    [|nothing_sent H].
  unfold Market.update_price in H.
  apply (dispatch_then (fun b => Market.PriceUpdates b cid tok)
           (fun b h => Market.price_updates_api wm h b cid tok)) in H;
    [|lia].
  destruct H as (new & Hb & _ & [[Hd Hk] | [[e ->] ->]]); exists new.
  - inversion Hk; subst o h'.
    rewrite (market_price_batches_app h1 new cid tok), Hf.
    repeat split; [assumption|].
    intros prices0 Hr. now inversion Hr; subst.
  - rewrite (market_price_batches_app h1 new cid tok), Hf.
    repeat split; [assumption | intros; discriminate].
Qed.

Lemma market_upload_stocks_batches (wm : Market.world) (fuel : nat)
      (rem : list watch) (cid tok wh : string)
      (hm : list Market.request) o h' :
  Market.upload_stocks wm fuel rem cid tok wh hm = (o, h') ->
  exists new,
    market_stock_batches h' = market_stock_batches hm ++ new
    /\ Forall (fun b => Z.of_nat (length b) <= 2000) new
    /\ (forall ne stocks, o = Ret (ne, stocks) ->
                          divide stocks 2000 = Ok new).
Proof.
  intros H. unfold Market.upload_stocks in H. unfold bind at 1 in H.
  destruct (market_fetch_batches wm fuel cid tok hm) as [Hf _].
  cbv zeta in Hf.
  destruct (Market.get_offer_ids wm fuel cid tok hm) as [[ids|e|] h1];
    simpl in Hf; [|nothing_sent H..].
  unfold bind at 1 in H. unfold bind at 1, lift at 1 in H.
  destruct (Market.create_stocks rem ids wh (Market.utcnow wm h1))
    as [[stocks ids']|e]; [|nothing_sent H].
  cbn beta iota in H. unfold Market.update_stocks in H.
  apply (dispatch_then (fun b => Market.PutStocks b cid tok)
           (fun b h => Market.put_stocks_api wm h b cid tok)) in H;
    [|lia].
  destruct H as (new & Hb & _ & [[Hd Hk] | [[e ->] ->]]); exists new.
  - unfold bind, lift in Hk.
    destruct (filter_r Market.count_not_zero stocks) as [ne|e];
      inversion Hk; subst o h';
      rewrite (market_stock_batches_app h1 new cid tok), Hf;
      (repeat split; [assumption|]).
    + intros ne0 stocks0 Hr. now inversion Hr; subst.
    + intros; discriminate.
  - rewrite (market_stock_batches_app h1 new cid tok), Hf.
    repeat split; [assumption | intros; discriminate].
Qed.

(** Every record that [create_stocks] returns is one it has built. *)
Lemma stocks_loop_built {R} (mk : string -> Z -> R) (P : R -> Prop)
      (rem : list watch) :
  (forall c v, P (mk c v)) ->
  forall acc ids s i,
    Forall P acc -> stocks_loop mk rem acc ids = Ok (s, i) -> Forall P s.
Proof.
  intros HP. induction rem as [|w rem IH]; intros acc ids s i Hacc H;
    simpl in H.
  - now inversion H; subst.
  - destruct (py_in (code w) ids); [|now apply (IH acc ids s i)].
    destruct (resolve_stock w) as [v|e]; simpl in H; [|discriminate].
    destruct (py_remove (code w) ids) as [ids1|e]; simpl in H;
      [|discriminate].
    apply (IH _ _ _ _ (proj2 (Forall_app _ _ _)
                         (conj Hacc (Forall_cons _ (HP (code w) v)
                                                 (Forall_nil _)))) H).
Qed.

Lemma market_stocks_built rem ids wh date stocks ids' :
  Market.create_stocks rem ids wh date = Ok (stocks, ids') ->
  Forall (fun r => exists c v, r = Market.stock_record c wh v date) stocks.
Proof.
  rewrite market_create_stocks. unfold stocks_of. intros H.
  destruct (stocks_loop _ rem [] ids) as [[s i]|e] eqn:E; simpl in H;
    [|discriminate].
  inversion H; subst stocks ids'. apply Forall_app. split.
  - apply (stocks_loop_built _ _ rem (fun c v => ex_intro _ c
             (ex_intro _ v eq_refl)) [] ids s i (Forall_nil _) E).
  - apply Forall_forall. intros r Hr. apply in_map_iff in Hr.
    destruct Hr as (c & <- & _). now exists c, 0.
Qed.

Lemma filter_r_returns {A} (f : A -> result bool) (l : list A) :
  Forall (fun x => exists b, f x = Ok b) l ->
  exists l', filter_r f l = Ok l'.
Proof.
  induction 1 as [|x l [b Hb] _ [l' IH]]; simpl; [now eexists|].
  rewrite Hb, IH. simpl. now eexists.
Qed.

(** 2500 records in chunks of 2000: the first 2000, then the rest. *)
Lemma divide_2500 {A} (stocks : list A) :
  length stocks = 2500%nat ->
  divide stocks 2000 = Ok [firstn 2000 stocks; skipn 2000 stocks].
Proof.
  intros H. rewrite divide_chunks_nat by lia. rewrite H.
  change (Z.to_nat (chunk_count (Z.of_nat 2500) 2000)) with 2%nat.
  change (Z.to_nat 2000) with 2000%nat.
  unfold chunks_nat. change (seq 0 2) with [0; 1]%nat. cbn [map].
  rewrite Nat.mul_0_l, Nat.mul_1_l. rewrite skipn_O.
  do 3 f_equal. apply firstn_all2. rewrite length_skipn, H.
  apply Nat.leb_le. reflexivity.
Qed.

(** The batch dispatch scenario, run: the catalog fetch and the
    reconciliation give 2500 records, the remote side accepts every
    batch, and [upload_stocks] of [market.py] returns after exactly two
    requests, of 2000 and of 500 records, in order. *)
Lemma market_upload_2500 (wm : Market.world) (fuel : nat)
      (rem : list watch) (cid tok wh : string) (hm h1 : list Market.request)
      (ids ids' : list string) (stocks : list Market.stock_item) :
  Market.get_offer_ids wm fuel cid tok hm = (Ret ids, h1) ->
  Market.create_stocks rem ids wh (Market.utcnow wm h1)
  = Ok (stocks, ids') ->
  length stocks = 2500%nat ->
  (forall b h, exists j, Market.put_stocks_api wm h b cid tok = Ok j) ->
  exists ne,
    Market.upload_stocks wm fuel rem cid tok wh hm =
    (Ret (ne, stocks),
     h1 ++ [Market.PutStocks (firstn 2000 stocks) cid tok;
            Market.PutStocks (skipn 2000 stocks) cid tok]).
Proof.
  intros Hf Hc Hlen Hacc.
  destruct (filter_r_returns Market.count_not_zero stocks) as [ne Hne].
  { eapply Forall_impl; [|exact (market_stocks_built _ _ _ _ _ _ Hc)].
    intros r (c & v & ->). now eexists. }
  exists ne. unfold Market.upload_stocks. unfold bind at 1. rewrite Hf.
  unfold bind at 1. unfold bind at 1, lift at 1. rewrite Hc.
  cbn beta iota. unfold bind at 1, lift at 1.
  rewrite (divide_2500 stocks Hlen). unfold bind at 1.
  unfold Market.update_stocks.
  rewrite (for_each_accepted (fun b => Market.PutStocks b cid tok)
             (fun b h => Market.put_stocks_api wm h b cid tok)) by exact Hacc.
  unfold bind, lift. rewrite Hne. reflexivity.
Qed.

Lemma seller_prices_after_stocks rem ids stocks ids' :
  NoDup ids ->
  Seller.create_stocks rem ids = Ok (stocks, ids') ->
  Seller.create_prices rem ids' = Ok [].
Proof.
  intros Hnd H. rewrite seller_create_stocks in H.
  destruct (stocks_of_spec seller_stock Seller.offer_id
              (fun _ _ => eq_refl) rem ids stocks ids' Hnd H)
    as (-> & _ & _).
  rewrite seller_create_prices. apply prices_loop_none.
  intros w Hw Hc. apply unmatched_ids_In in Hc. destruct Hc as [_ Hc].
  apply Hc. unfold codes. now apply in_map.
Qed.

(** [main] of [seller.py]: stocks go out in batches of at most 100,
    prices in batches of at most 900; and when the catalog has no
    duplicate, no price goes out at all, since [create_prices] reads
    the list that [create_stocks] has emptied of every matched code. *)
Lemma seller_main_batches (ws : Seller.world) (fuel : nat)
      (cid tok : string) (hs : list Seller.request) o h' :
  Seller.main_try ws fuel cid tok hs = (o, h') ->
  exists news newp,
    seller_stock_batches h' = seller_stock_batches hs ++ news
    /\ seller_price_batches h' = seller_price_batches hs ++ newp
    /\ Forall (fun b => Z.of_nat (length b) <= 100) news
    /\ Forall (fun b => Z.of_nat (length b) <= 900) newp
    /\ ((forall ids h1,
            Seller.get_offer_ids ws fuel cid tok hs = (Ret ids, h1) ->
            NoDup ids) ->
        newp = []).
Proof.
  intros H. unfold Seller.main_try in H. unfold bind at 1 in H.
  destruct (seller_fetch_batches ws fuel cid tok hs) as [Hfs Hfp].
  cbv zeta in Hfs, Hfp.
  assert (Hnone : forall h, seller_stock_batches h = seller_stock_batches hs ->
                            seller_price_batches h = seller_price_batches hs ->
                            exists news newp,
                              seller_stock_batches h
                              = seller_stock_batches hs ++ news
                              /\ seller_price_batches h
                                 = seller_price_batches hs ++ newp
                              /\ Forall (fun b => Z.of_nat (length b) <= 100)
                                        news
                              /\ Forall (fun b => Z.of_nat (length b) <= 900)
                                        newp
                              /\ ((forall ids h1,
                                      Seller.get_offer_ids ws fuel cid tok hs
                                      = (Ret ids, h1) -> NoDup ids) ->
                                  newp = [])).
  { intros h E1 E2. exists [], []. rewrite !app_nil_r.
    repeat split; solve [assumption | constructor]. }
  destruct (Seller.get_offer_ids ws fuel cid tok hs) as [[ids|e|] h1]
    eqn:Eget; simpl in Hfs, Hfp;
    [|inversion H; subst; now apply Hnone..].
  unfold bind at 1, Seller.download_stock, perform at 1 in H.
  assert (Hds : seller_stock_batches (h1 ++ [Seller.DownloadStock])
                = seller_stock_batches hs).
  { unfold seller_stock_batches in *. rewrite flat_map_app. simpl.
    now rewrite app_nil_r. }
  assert (Hdp : seller_price_batches (h1 ++ [Seller.DownloadStock])
                = seller_price_batches hs).
  { unfold seller_price_batches in *. rewrite flat_map_app. simpl.
    now rewrite app_nil_r. }
  destruct (Seller.download_api ws h1) as [rem|e];
    [|inversion H; subst; now apply Hnone].
  unfold bind at 1, lift at 1 in H.
  destruct (Seller.create_stocks rem ids) as [[stocks ids']|e] eqn:Ecs;
    [|inversion H; subst; now apply Hnone].
  cbn beta iota in H. unfold Seller.update_stocks in H.
  apply (dispatch_then (fun b => Seller.ImportStocks b cid tok)
           (fun b h => Seller.import_stocks_api ws h b cid tok)) in H;
    [|lia].
  destruct H as (news & Hbs & _ & [[Hd Hk] | [[e ->] ->]]).
  2:{ exists news, [].
      destruct (seller_stock_batches_app (h1 ++ [Seller.DownloadStock])
                  news cid tok) as [-> ->].
      rewrite Hds, Hdp, app_nil_r.
      repeat split; solve [assumption | constructor]. }
  destruct (seller_stock_batches_app (h1 ++ [Seller.DownloadStock])
              news cid tok) as [Hs2 Hp2].
  rewrite Hds in Hs2. rewrite Hdp in Hp2.
  set (h2 := (h1 ++ [Seller.DownloadStock])
             ++ map (fun b => Seller.ImportStocks b cid tok) news) in *.
  unfold bind at 1, lift at 1 in Hk.
  destruct (Seller.create_prices rem ids') as [prices|e] eqn:Ecp.
  2:{ inversion Hk; subst. exists news, []. rewrite app_nil_r.
      repeat split; solve [assumption | constructor]. }
  unfold Seller.update_price in Hk.
  apply (dispatch_then (fun b => Seller.ImportPrices b cid tok)
           (fun b h => Seller.import_prices_api ws h b cid tok)) in Hk;
    [|lia].
  destruct Hk as (newp & Hbp & (chunks & j & Hdiv & Hpre) & Hcase).
  exists news, newp.
  assert (Hh' : h' = h2 ++ map (fun b => Seller.ImportPrices b cid tok) newp).
  { destruct Hcase as [[_ Hk] | [_ Hk]]; [now inversion Hk | exact Hk]. }
  destruct (seller_price_batches_app h2 newp cid tok) as [Hp3 Hs3].
  rewrite Hh', Hp3, Hs3, Hs2, Hp2.
  repeat split; try assumption.
  intros Hnd. specialize (Hnd ids h1 eq_refl).
  rewrite (seller_prices_after_stocks rem ids stocks ids' Hnd Ecs) in Ecp.
  inversion Ecp; subst prices. inversion Hdiv; subst chunks.
  subst newp. now destruct j.
Qed.

(** C6, as the code has it.  [seller.py] sends prices in batches of at
    most 1000 from [upload_prices] and of at most 900 from [main], and
    stocks in batches of at most 100 from both; [market.py] sends
    prices in batches of at most 500 and stocks in batches of at most
    2000.  The batches that a run adds to the log are chunks of the
    list it has built, in order, and all of them when the run returns.
    2500 stock records under the ceiling of 2000 go out in exactly two
    requests, the first 2000 records and then the other 500. *)
Theorem C6_batch_ceilings
        (ws : Seller.world) (wm : Market.world) (fuel : nat)
        (rem : list watch) (cid tok wh : string)
        (hs : list Seller.request) (hm : list Market.request) :
  (forall o h',
      Seller.upload_prices ws fuel rem cid tok hs = (o, h') ->
      exists new,
        seller_price_batches h' = seller_price_batches hs ++ new
        /\ Forall (fun b => Z.of_nat (length b) <= 1000) new
        /\ (forall prices, o = Ret prices -> divide prices 1000 = Ok new))
  /\ (forall o h',
         Seller.upload_stocks ws fuel rem cid tok hs = (o, h') ->
         exists new,
           seller_stock_batches h' = seller_stock_batches hs ++ new
           /\ Forall (fun b => Z.of_nat (length b) <= 100) new
           /\ (forall ne stocks, o = Ret (ne, stocks) ->
                                 divide stocks 100 = Ok new))
  /\ (forall o h',
         Seller.main_try ws fuel cid tok hs = (o, h') ->
         exists news newp,
           seller_stock_batches h' = seller_stock_batches hs ++ news
           /\ seller_price_batches h' = seller_price_batches hs ++ newp
           /\ Forall (fun b => Z.of_nat (length b) <= 100) news
           /\ Forall (fun b => Z.of_nat (length b) <= 900) newp)
  /\ (forall o h',
         Market.upload_prices wm fuel rem cid tok hm = (o, h') ->
         exists new,
           market_price_batches h' = market_price_batches hm ++ new
           /\ Forall (fun b => Z.of_nat (length b) <= 500) new
           /\ (forall prices, o = Ret prices -> divide prices 500 = Ok new))
  /\ (forall o h',
         Market.upload_stocks wm fuel rem cid tok wh hm = (o, h') ->
         exists new,
           market_stock_batches h' = market_stock_batches hm ++ new
           /\ Forall (fun b => Z.of_nat (length b) <= 2000) new
           /\ (forall ne stocks, o = Ret (ne, stocks) ->
                                 divide stocks 2000 = Ok new))
  /\ (forall stocks : list Market.stock_item,
         length stocks = 2500%nat ->
         divide stocks 2000 = Ok [firstn 2000 stocks; skipn 2000 stocks]
         /\ length (firstn 2000 stocks) = 2000%nat
         /\ length (skipn 2000 stocks) = 500%nat
         /\ firstn 2000 stocks ++ skipn 2000 stocks = stocks)
  /\ (forall ids h1 stocks ids',
         Market.get_offer_ids wm fuel cid tok hm = (Ret ids, h1) ->
         Market.create_stocks rem ids wh (Market.utcnow wm h1)
         = Ok (stocks, ids') ->
         length stocks = 2500%nat ->
         (forall b h, exists j, Market.put_stocks_api wm h b cid tok = Ok j) ->
         exists ne,
           Market.upload_stocks wm fuel rem cid tok wh hm =
           (Ret (ne, stocks),
            h1 ++ [Market.PutStocks (firstn 2000 stocks) cid tok;
                   Market.PutStocks (skipn 2000 stocks) cid tok])).
Proof.
  split; [intros o h'; apply seller_upload_prices_batches|].
  split; [intros o h'; apply seller_upload_stocks_batches|].
  split.
  { intros o h' H.
    destruct (seller_main_batches ws fuel cid tok hs o h' H)
      as (news & newp & H1 & H2 & H3 & H4 & _).
    now exists news, newp. }
  split; [intros o h'; apply market_upload_prices_batches|].
  split; [intros o h'; apply market_upload_stocks_batches|].
  split.
  - intros stocks Hlen. split; [now apply divide_2500|].
    rewrite length_firstn, length_skipn, Hlen, firstn_skipn.
    repeat split; apply Nat.eqb_eq; reflexivity.
  - intros ids h1 stocks ids'. apply market_upload_2500.
Qed.

Lemma numbered_length (n : nat) : length (numbered n) = n.
Proof. unfold numbered. now rewrite length_map, length_seq. Qed.

Lemma market_catalog_fetch (ids : list string) (cid tok : string)
      (h : list Market.request) :
  Market.get_offer_ids (market_catalog ids) 1 cid tok h =
  (Ret ids, h ++ [Market.OfferMappingEntries (Some "") cid tok]).
Proof.
  unfold Market.get_offer_ids, bind. rewrite market_loop_step. simpl.
  rewrite map_map. simpl. now rewrite map_id.
Qed.

Lemma C6_witness :
  length (map (fun c => Market.stock_record c "wh" 0 "2024-01-01T00:00:00Z")
              (numbered 2500)) = 2500%nat
  /\ exists ne,
      Market.upload_stocks (market_catalog (numbered 2500)) 1 [] "c" "t" "wh"
                           [] =
      (Ret (ne, map (fun c =>
                       Market.stock_record c "wh" 0 "2024-01-01T00:00:00Z")
                    (numbered 2500)),
       [Market.OfferMappingEntries (Some "") "c" "t"]
         ++ [Market.PutStocks
               (firstn 2000
                  (map (fun c => Market.stock_record
                                   c "wh" 0 "2024-01-01T00:00:00Z")
                       (numbered 2500))) "c" "t";
             Market.PutStocks
               (skipn 2000
                  (map (fun c => Market.stock_record
                                   c "wh" 0 "2024-01-01T00:00:00Z")
                       (numbered 2500))) "c" "t"]).
Proof.
  assert (Hlen : length (map (fun c => Market.stock_record
                                         c "wh" 0 "2024-01-01T00:00:00Z")
                             (numbered 2500)) = 2500%nat).
  { rewrite length_map. apply numbered_length. }
  split; [exact Hlen|].
  destruct (C6_batch_ceilings
              stuck_world (market_catalog (numbered 2500)) 1 [] "c" "t" "wh"
              [] []) as (_ & _ & _ & _ & _ & _ & Hrun).
  exact (Hrun (numbered 2500)
              [Market.OfferMappingEntries (Some "") "c" "t"]
              _ (numbered 2500)
              (market_catalog_fetch (numbered 2500) "c" "t" [])
              eq_refl Hlen
              (fun b h => ex_intro _ "{}" eq_refl)).
Defined.

(** Against C6 as stated: the stock endpoint of [seller.py] is fed
    batches of 100, not of 900.  A catalog of 101 identifiers, which
    one batch of 900 would hold, goes out in two requests, of 100 and
    of 1 records. *)
Lemma C6_counterexample :
  exists ne stocks h',
    Seller.upload_stocks (seller_catalog (numbered 101)) 1 [] "c" "t" []
    = (Ret (ne, stocks), h')
    /\ length stocks = 101%nat
    /\ divide stocks 900 = Ok [stocks]
    /\ map (@length _) (seller_stock_batches h') = [100; 1]%nat.
Proof.
  eexists _, _, _. split; [vm_compute; reflexivity|].
  repeat split; vm_compute; reflexivity.
Qed.

(** ** What [create_stocks] leaves to [create_prices] *)

(** [l.remove(x)] takes one occurrence of [x] away. *)
Lemma py_remove_count (x : string) (l l' : list string) :
  py_remove x l = Ok l' ->
  forall c, count_occ string_dec l' c =
            if string_dec x c then pred (count_occ string_dec l c)
            else count_occ string_dec l c.
Proof.
  revert l'. induction l as [|y l IH]; simpl; intros l' H c;
    [discriminate|].
  destruct (String.eqb_spec y x) as [->|Hne].
  - inversion H; subst l'. now destruct (string_dec x c).
  - destruct (py_remove x l) as [t|e]; simpl in H; [|discriminate].
    inversion H; subst l'. simpl. rewrite (IH t eq_refl c).
    destruct (string_dec y c), (string_dec x c); congruence.
Qed.

Section LeftOver.
Context {R R' : Type} (mk : string -> Z -> R) (mk' : string -> Z -> R').

(** Every matched row takes one occurrence of its code away from the
    list. *)
Lemma stocks_loop_count (rem : list watch) :
  forall acc ids s i,
    stocks_loop mk rem acc ids = Ok (s, i) ->
    forall c,
      count_occ string_dec i c =
      (count_occ string_dec ids c - count_occ string_dec (codes rem) c)%nat.
Proof.
  induction rem as [|w rem IH]; intros acc ids s i H c; simpl in H.
  - inversion H; subst. simpl. lia.
  - cbn [codes map count_occ]. fold (codes rem).
    destruct (py_in (code w) ids) eqn:E.
    + destruct (resolve_stock w) as [v|e]; simpl in H; [|discriminate].
      destruct (py_remove (code w) ids) as [ids1|e] eqn:Er; simpl in H;
        [|discriminate].
      rewrite (IH _ _ _ _ H c), (py_remove_count _ _ _ Er c).
      destruct (string_dec (code w) c); lia.
    + rewrite (IH _ _ _ _ H c).
      destruct (string_dec (code w) c) as [<-|_]; [|reflexivity].
      apply py_in_not_In in E.
      rewrite (proj1 (count_occ_not_In string_dec ids (code w)) E). lia.
Qed.

(** What is left of the list does not depend on the records built. *)
Lemma stocks_loop_same_left (rem : list watch) :
  forall acc acc' ids s i s' i',
    stocks_loop mk rem acc ids = Ok (s, i) ->
    stocks_loop mk' rem acc' ids = Ok (s', i') ->
    i = i'.
Proof.
  induction rem as [|w rem IH]; intros acc acc' ids s i s' i' H H';
    simpl in H, H'.
  - inversion H; inversion H'; congruence.
  - destruct (py_in (code w) ids); [|exact (IH _ _ _ _ _ _ _ H H')].
    destruct (resolve_stock w) as [v|e]; simpl in H, H'; [|discriminate].
    destruct (py_remove (code w) ids) as [ids1|e]; simpl in H, H';
      [|discriminate].
    exact (IH _ _ _ _ _ _ _ H H').
Qed.

Lemma stocks_of_left (rem : list watch) (ids : list string) s i :
  stocks_of mk rem ids = Ok (s, i) ->
  exists s0, stocks_loop mk rem [] ids = Ok (s0, i).
Proof.
  unfold stocks_of. intros H.
  destruct (stocks_loop mk rem [] ids) as [[s0 i0]|e]; simpl in H;
    [|discriminate].
  inversion H; subst. now eexists.
Qed.
End LeftOver.

(** C4, as the code has it.  On a feed whose matched rows are
    readable, [create_stocks] of either marketplace returns.  It takes
    one occurrence of a code away from the caller's list for
    every row of the feed that it matches: a code stays in the list as
    often as the catalog lists it beyond the rows that carry it, and
    both marketplaces leave the same list.  So a [create_prices] that
    reads this list afterwards yields a price only for a code that the
    catalog lists more often than the feed.  When the catalog has no
    repeated identifier, the list is left with exactly the identifiers
    that no row carries, a later [create_prices] yields prices only
    for codes that [create_stocks] did not match, on the same feed it
    returns the empty list, and [main] of [seller.py], which passes the
    one list to both, sends no price at all. *)
Theorem C4_create_stocks_consumes_offer_ids
        (rem : list watch) (ids : list string) (wh date : string)
        (ws : Seller.world) (fuel : nat) (cid tok : string)
        (hs : list Seller.request) :
  ((forall w, In w rem -> In (code w) ids -> readable w) ->
   exists sstocks mstocks ids',
     Seller.create_stocks rem ids = Ok (sstocks, ids')
     /\ Market.create_stocks rem ids wh date = Ok (mstocks, ids'))
  /\ (forall ids',
         (exists stocks, Seller.create_stocks rem ids = Ok (stocks, ids'))
         \/ (exists stocks,
                Market.create_stocks rem ids wh date = Ok (stocks, ids')) ->
         (forall c,
             count_occ string_dec ids' c =
             (count_occ string_dec ids c
              - count_occ string_dec (codes rem) c)%nat)
         /\ (forall rem2 prices p,
                Seller.create_prices rem2 ids' = Ok prices -> In p prices ->
                (count_occ string_dec (codes rem) (Seller.price_offer_id p)
                 < count_occ string_dec ids (Seller.price_offer_id p))%nat)
         /\ (forall rem2 prices p,
                Market.create_prices rem2 ids' = Ok prices -> In p prices ->
                (count_occ string_dec (codes rem) (Market.id p)
                 < count_occ string_dec ids (Market.id p))%nat)
         /\ (NoDup ids ->
             ids' = unmatched_ids rem ids
             /\ (forall c, In c ids' <->
                           In c ids /\ ~ In c (matched_codes rem ids))
             /\ (forall rem2 prices p,
                    Seller.create_prices rem2 ids' = Ok prices ->
                    In p prices ->
                    In (Seller.price_offer_id p) ids
                    /\ ~ In (Seller.price_offer_id p)
                            (matched_codes rem ids))
             /\ (forall rem2 prices p,
                    Market.create_prices rem2 ids' = Ok prices ->
                    In p prices ->
                    In (Market.id p) ids
                    /\ ~ In (Market.id p) (matched_codes rem ids))
             /\ Seller.create_prices rem ids' = Ok []
             /\ Market.create_prices rem ids' = Ok []))
  /\ (NoDup ids ->
      forall h1 o h',
        Seller.get_offer_ids ws fuel cid tok hs = (Ret ids, h1) ->
        Seller.main_try ws fuel cid tok hs = (o, h') ->
        seller_price_batches h' = seller_price_batches hs).
Proof.
  split; [|split].
  - intros Hread.
    assert (Hres : forall w, In w rem -> In (code w) ids ->
                             exists v, resolve_stock w = Ok v).
    { intros w Hw Hc. exact (proj2 (Hread w Hw Hc)). }
    destruct (stocks_of_returns seller_stock rem ids Hres)
      as (ss & i & Es).
    destruct (stocks_of_returns
                (fun c v => Market.stock_record c wh v date) rem ids Hres)
      as (ms & i' & Em).
    exists ss, ms, i. rewrite seller_create_stocks, market_create_stocks.
    split; [exact Es|].
    destruct (stocks_of_left _ _ _ _ _ Es) as [s0 E0].
    destruct (stocks_of_left _ _ _ _ _ Em) as [s1 E1].
    now rewrite (stocks_loop_same_left _ _ _ _ _ _ _ _ _ _ E0 E1).
  - intros ids' Hret.
    assert (Hloop : (exists s0, stocks_loop seller_stock rem [] ids
                                = Ok (s0, ids'))
                    \/ (exists s0,
                           stocks_loop
                             (fun c v => Market.stock_record c wh v date)
                             rem [] ids = Ok (s0, ids'))).
    { destruct Hret as [[stocks H] | [stocks H]].
      - left. rewrite seller_create_stocks in H.
        exact (stocks_of_left _ _ _ _ _ H).
      - right. rewrite market_create_stocks in H.
        exact (stocks_of_left _ _ _ _ _ H). }
    assert (Hcount : forall c,
               count_occ string_dec ids' c =
               (count_occ string_dec ids c
                - count_occ string_dec (codes rem) c)%nat).
    { destruct Hloop as [[s0 E] | [s0 E]];
        exact (stocks_loop_count _ _ _ _ _ _ E). }
    assert (Hmore : forall c, In c ids' ->
               (count_occ string_dec (codes rem) c
                < count_occ string_dec ids c)%nat).
    { intros c Hc. apply (count_occ_In string_dec) in Hc.
      rewrite Hcount in Hc. lia. }
    assert (Hsp : forall rem2 prices p,
               Seller.create_prices rem2 ids' = Ok prices -> In p prices ->
               In (Seller.price_offer_id p) ids').
    { intros rem2 prices p Hp Hin. rewrite seller_create_prices in Hp.
      apply (prices_loop_spec seller_price Seller.price_offer_id
               seller_price_id) in Hp.
      apply (in_map Seller.price_offer_id) in Hin.
      rewrite Hp, filter_In, py_in_In in Hin. tauto. }
    assert (Hmp : forall rem2 prices p,
               Market.create_prices rem2 ids' = Ok prices -> In p prices ->
               In (Market.id p) ids').
    { intros rem2 prices p Hp Hin. rewrite market_create_prices in Hp.
      apply (prices_loop_spec market_price Market.id
               market_price_id) in Hp.
      apply (in_map Market.id) in Hin.
      rewrite Hp, filter_In, py_in_In in Hin. tauto. }
    split; [exact Hcount|].
    split; [intros rem2 prices p Hp Hin; apply Hmore; eauto|].
    split; [intros rem2 prices p Hp Hin; apply Hmore; eauto|].
    intros Hnd.
    assert (Hleft : forall c, In c (unmatched_ids rem ids) <->
                              In c ids /\ ~ In c (matched_codes rem ids)).
    { intros c. rewrite unmatched_ids_In, matched_codes_In. tauto. }
    assert (Hnone : forall w, In w rem ->
                              ~ In (code w) (unmatched_ids rem ids)).
    { intros w Hw Hc. apply unmatched_ids_In in Hc. destruct Hc as [_ Hc].
      apply Hc. unfold codes. now apply in_map. }
    assert (Hids : ids' = unmatched_ids rem ids).
    { destruct Hret as [[stocks H] | [stocks H]].
      - rewrite seller_create_stocks in H.
        now destruct (stocks_of_spec seller_stock Seller.offer_id
                        (fun _ _ => eq_refl) rem ids stocks ids' Hnd H)
          as (-> & _ & _).
      - rewrite market_create_stocks in H.
        now destruct (stocks_of_spec
                        (fun c v => Market.stock_record c wh v date)
                        Market.sku (fun _ _ => eq_refl)
                        rem ids stocks ids' Hnd H)
          as (-> & _ & _). }
    split; [exact Hids|].
    split; [rewrite Hids; exact Hleft|].
    split; [intros rem2 prices p Hp Hin; apply Hleft; rewrite <- Hids;
            eauto|].
    split; [intros rem2 prices p Hp Hin; apply Hleft; rewrite <- Hids;
            eauto|].
    rewrite Hids. split.
    + rewrite seller_create_prices. now apply prices_loop_none.
    + rewrite market_create_prices. now apply prices_loop_none.
  - intros Hnd h1 o h' Hget Hmain.
    destruct (seller_main_batches ws fuel cid tok hs o h' Hmain)
      as (news & newp & _ & Hp & _ & _ & Hempty).
    rewrite Hp, Hempty; [apply app_nil_r|].
    intros ids0 h0 E. rewrite Hget in E. now inversion E; subst.
Qed.

Lemma C4_witness :
  NoDup demo_ids
  /\ Seller.create_stocks demo_remnants demo_ids =
     Ok ([seller_stock "A" 100; seller_stock "B" 0; seller_stock "C" 0],
         ["C"])
  /\ Seller.create_prices demo_remnants ["C"] = Ok []
  /\ exists sstocks mstocks ids',
      Seller.create_stocks demo_remnants demo_ids = Ok (sstocks, ids')
      /\ Market.create_stocks demo_remnants demo_ids "wh" "now"
         = Ok (mstocks, ids').
Proof.
  assert (Hnd : NoDup demo_ids).
  { repeat constructor; simpl; intuition discriminate. }
  assert (Hres : forall w, In w demo_remnants -> In (code w) demo_ids ->
                           readable w).
  { intros w [<- | [<- | []]] _; (split; [|eexists]; reflexivity). }
  split; [exact Hnd|]. split; [reflexivity|].
  destruct (C4_create_stocks_consumes_offer_ids
              demo_remnants demo_ids "wh" "now" stuck_world 0 "" "" [])
    as (Hret & Hs & _).
  split; [|exact (Hret Hres)].
  destruct (Hs ["C"] (or_introl (ex_intro _ _ eq_refl)))
    as (_ & _ & _ & Hn).
  exact (proj1 (proj2 (proj2 (proj2 (proj2 (Hn Hnd)))))).
Defined.

(** Against C4 as stated: the catalog lists ["A"] twice and the feed
    has one row for it.  [create_stocks] matches ["A"] and leaves one
    ["A"] in the list, so [create_prices] with that list yields a price
    for the matched code, in both marketplaces, and a run of [main]
    sends it. *)
Lemma C4_counterexample :
  Seller.create_stocks [row "A" "5" "10.00"] ["A"; "A"]
  = Ok ([seller_stock "A" 5; seller_stock "A" 0], ["A"])
  /\ Market.create_stocks [row "A" "5" "10.00"] ["A"; "A"] "wh" "now"
     = Ok ([Market.stock_record "A" "wh" 5 "now";
            Market.stock_record "A" "wh" 0 "now"], ["A"])
  /\ In "A" (matched_codes [row "A" "5" "10.00"] ["A"; "A"])
  /\ Seller.create_prices [row "A" "5" "10.00"] ["A"]
     = Ok [seller_price_record "A" "10.00"]
  /\ Market.create_prices [row "A" "5" "10.00"] ["A"]
     = Ok [market_price_record "A" 10]
  /\ exists h',
      Seller.main_try seller_repeated 1 "" "" [] = (Ret tt, h')
      /\ seller_price_batches h' = [[seller_price_record "A" "10.00"]].
Proof.
  split; [reflexivity|]. split; [reflexivity|]. split; [now left|].
  split; [reflexivity|]. split; [reflexivity|].
  eexists. split; reflexivity.
Qed.


(* ################################################################# *)
(** * Further properties of the code *)

(** ** Reconciliation on any catalog *)

Lemma py_remove_perm (x : string) (l l' : list string) :
  py_remove x l = Ok l' -> Permutation (x :: l') l.
Proof.
  revert l'. induction l as [|y l IH]; simpl; intros l' H; [discriminate|].
  destruct (String.eqb_spec y x) as [->|Hne].
  - now inversion H; subst.
  - destruct (py_remove x l) as [t|e]; simpl in H; [|discriminate].
    inversion H; subst l'. rewrite perm_swap. constructor. now apply IH.
Qed.

Section AnyCatalog.
Context {R : Type} (mk : string -> Z -> R) (id_of : R -> string).
Hypothesis id_of_mk : forall c v, id_of (mk c v) = c.

Lemma stocks_loop_perm (rem : list watch) :
  forall acc ids s ids',
    stocks_loop mk rem acc ids = Ok (s, ids') ->
    Permutation (map id_of s ++ ids') (map id_of acc ++ ids).
Proof.
  induction rem as [|w rem IH]; intros acc ids s ids' H; simpl in H.
  - now inversion H; subst.
  - destruct (py_in (code w) ids); [|now apply IH].
    destruct (resolve_stock w) as [v|e]; simpl in H; [|discriminate].
    destruct (py_remove (code w) ids) as [ids1|e] eqn:Er; simpl in H;
      [|discriminate].
    rewrite (IH _ _ _ _ H), map_app, <- app_assoc. simpl.
    rewrite id_of_mk. apply Permutation_app_head.
    now apply py_remove_perm.
Qed.

Lemma stocks_of_perm (rem : list watch) (ids : list string) stocks ids' :
  stocks_of mk rem ids = Ok (stocks, ids') ->
  Permutation (map id_of stocks) ids.
Proof.
  unfold stocks_of. intros H.
  destruct (stocks_loop mk rem [] ids) as [[s i]|e] eqn:E; simpl in H;
    [|discriminate].
  inversion H; subst stocks ids'.
  rewrite map_app, map_map.
  rewrite (map_ext _ (fun c => c)) by (intros c; apply id_of_mk).
  rewrite map_id. exact (stocks_loop_perm rem [] ids s i E).
Qed.

(** Rows whose code the catalog does not know change nothing. *)
Lemma stocks_loop_known (rem : list watch) (ids0 : list string) :
  forall acc ids,
    incl ids ids0 ->
    stocks_loop mk (known_rows rem ids0) acc ids =
    stocks_loop mk rem acc ids.
Proof.
  unfold known_rows.
  induction rem as [|w rem IH]; intros acc ids Hincl; simpl; [reflexivity|].
  destruct (py_in (code w) ids0) eqn:E0; simpl.
  - destruct (py_in (code w) ids); [|now apply IH].
    destruct (resolve_stock w) as [v|e]; simpl; [|reflexivity].
    destruct (py_remove (code w) ids) as [ids1|e] eqn:Er; simpl;
      [|reflexivity].
    apply IH. intros c Hc. apply Hincl.
    apply (Permutation_in c (py_remove_perm _ _ _ Er)). now right.
  - assert (E : py_in (code w) ids = false).
    { apply py_in_not_In. apply py_in_not_In in E0. auto. }
    rewrite E. now apply IH.
Qed.
End AnyCatalog.

Lemma prices_loop_known {P} (mk_price : watch -> result P)
      (rem : list watch) (ids : list string) :
  forall acc,
    prices_loop mk_price (known_rows rem ids) acc ids =
    prices_loop mk_price rem acc ids.
Proof.
  unfold known_rows.
  induction rem as [|w rem IH]; intros acc; simpl; [reflexivity|].
  destruct (py_in (code w) ids) eqn:E; simpl; [|apply IH].
  rewrite E. destruct (mk_price w); simpl; [apply IH | reflexivity].
Qed.

(** [create_prices] is one pass over the rows the list knows, ended
    by the first price that cannot be read. *)
Lemma prices_loop_map_r {P} (mk_price : watch -> result P)
      (rem : list watch) (ids : list string) :
  prices_loop mk_price rem [] ids = map_r mk_price (known_rows rem ids).
Proof.
  unfold known_rows.
  induction rem as [|w rem IH]; simpl; [reflexivity|].
  destruct (py_in (code w) ids); [|exact IH]. simpl.
  destruct (mk_price w) as [p|e]; simpl; [|reflexivity].
  rewrite prices_loop_acc, IH.
  now destruct (map_r mk_price _).
Qed.

Lemma map_r_all {A B} (f : A -> result B) (g : A -> B) (l : list A) :
  Forall (fun x => f x = Ok (g x)) l -> map_r f l = Ok (map g l).
Proof.
  induction 1 as [|x l Hx _ IH]; simpl; [reflexivity|].
  now rewrite Hx, IH.
Qed.

Lemma map_r_first_error {A B} (f : A -> result B) (pre post : list A)
      (x : A) (e : exn) :
  Forall (fun y => exists b, f y = Ok b) pre -> f x = Err e ->
  map_r f (pre ++ x :: post) = Err e.
Proof.
  induction 1 as [|y pre [b Hy] _ IH]; simpl; intros Hx.
  - now rewrite Hx.
  - now rewrite Hy, (IH Hx).
Qed.

(** X1.  On any catalog, duplicates included, [create_stocks] of
    either marketplace returns exactly one record per entry of the
    catalog: the offer ids of the records are a permutation of the list
    it was given, and the two lists have the same length. *)
Theorem X1_create_stocks_any_catalog
        (rem : list watch) (ids : list string) (wh date : string) :
  (forall stocks ids',
      Seller.create_stocks rem ids = Ok (stocks, ids') ->
      Permutation (map Seller.offer_id stocks) ids
      /\ length stocks = length ids)
  /\ (forall stocks ids',
         Market.create_stocks rem ids wh date = Ok (stocks, ids') ->
         Permutation (map Market.sku stocks) ids
         /\ length stocks = length ids).
Proof.
  split; intros stocks ids' H.
  - rewrite seller_create_stocks in H.
    assert (Hp := stocks_of_perm seller_stock Seller.offer_id
                    (fun _ _ => eq_refl) rem ids stocks ids' H).
    split; [exact Hp|].
    rewrite <- (length_map Seller.offer_id). now apply Permutation_length.
  - rewrite market_create_stocks in H.
    assert (Hp := stocks_of_perm
                    (fun c v => Market.stock_record c wh v date) Market.sku
                    (fun _ _ => eq_refl) rem ids stocks ids' H).
    split; [exact Hp|].
    rewrite <- (length_map Market.sku). now apply Permutation_length.
Qed.

Lemma X1_witness :
  Seller.create_stocks [row "A" "5" "10.00"] ["A"; "B"; "A"]
  = Ok ([seller_stock "A" 5; seller_stock "B" 0; seller_stock "A" 0],
        ["B"; "A"])
  /\ Permutation ["A"; "B"; "A"] ["A"; "B"; "A"].
Proof.
  split; [reflexivity|].
  exact (proj1 (proj1 (X1_create_stocks_any_catalog
                         [row "A" "5" "10.00"] ["A"; "B"; "A"] "" "")
                      _ _ eq_refl)).
Defined.

(** X2.  The rows of the feed whose code is not in the list given
    have no effect: on the feed without them, [create_stocks] and
    [create_prices] of either marketplace give the same result, be it a
    list or an exception. *)
Theorem X2_unknown_rows_ignored
        (rem : list watch) (ids : list string) (wh date : string) :
  Seller.create_stocks (known_rows rem ids) ids = Seller.create_stocks rem ids
  /\ Market.create_stocks (known_rows rem ids) ids wh date
     = Market.create_stocks rem ids wh date
  /\ Seller.create_prices (known_rows rem ids) ids
     = Seller.create_prices rem ids
  /\ Market.create_prices (known_rows rem ids) ids
     = Market.create_prices rem ids.
Proof.
  repeat split.
  - rewrite !seller_create_stocks. unfold stocks_of.
    now rewrite stocks_loop_known by apply incl_refl.
  - rewrite !market_create_stocks. unfold stocks_of.
    now rewrite stocks_loop_known by apply incl_refl.
  - rewrite !seller_create_prices. apply prices_loop_known.
  - rewrite !market_create_prices. apply prices_loop_known.
Qed.

(** ** Prices *)

Lemma digit_value_bounds (c : ascii) :
  is_digit c = true -> 0 <= digit_value c <= 9.
Proof.
  unfold is_digit, digit_value. intros H.
  apply andb_true_iff in H. destruct H as [H1 H2].
  apply Nat.leb_le in H1, H2. lia.
Qed.

Lemma lstrip_digits (l : list ascii) :
  forallb is_digit l = true -> lstrip l = l.
Proof.
  destruct l as [|c t]; simpl; [reflexivity|]. intros H.
  apply andb_true_iff in H. destruct H as [Hc _].
  now rewrite (is_digit_not_space c Hc).
Qed.

Lemma strip_digits (l : list ascii) :
  forallb is_digit l = true -> strip l = l.
Proof.
  intros H. unfold strip. rewrite (lstrip_digits l H).
  rewrite lstrip_digits; [apply rev_involutive|].
  apply forallb_forall. intros c Hc. apply in_rev in Hc.
  exact (proj1 (forallb_forall _ _) H c Hc).
Qed.

Lemma decimal_value_nonneg (l : list ascii) :
  forall acc,
    0 <= acc -> forallb is_digit l = true -> 0 <= decimal_value acc l.
Proof.
  induction l as [|c t IH]; intros acc Hacc H; cbn [decimal_value];
    [assumption|].
  cbn [forallb] in H. apply andb_true_iff in H. destruct H as [Hc Ht].
  apply IH; [|assumption].
  pose proof (digit_value_bounds c Hc). lia.
Qed.

(** [int] of a string of decimal digits. *)
Lemma int_of_digits (s : string) :
  digits_only s = true -> s <> EmptyString ->
  int_of_string s = Some (decimal_value 0 (list_ascii_of_string s)).
Proof.
  unfold digits_only, int_of_string. intros H Hne.
  rewrite (strip_digits _ H).
  destruct s as [|c t]; [congruence|]. simpl in *.
  apply andb_true_iff in H. destruct H as [Hc Ht].
  destruct (is_digit_not_sign c Hc) as (-> & -> & _).
  unfold unsigned. rewrite Hc. now apply digits_decimal.
Qed.

Lemma seller_price_str (w : watch) (s : string) :
  get w Cena = PStr s ->
  seller_price w = Ok (seller_price_record (code w) s).
Proof. unfold seller_price. now intros ->. Qed.

Lemma seller_price_not_str (w : watch) :
  (forall s, get w Cena <> PStr s) -> seller_price w = Err AttributeError.
Proof.
  unfold seller_price. destruct (get w Cena) as [|s|z]; simpl; intros H;
    [reflexivity | now destruct (H s) | reflexivity].
Qed.

Lemma market_price_str (w : watch) (s : string) :
  get w Cena = PStr s ->
  market_price w =
  if String.eqb (price_conversion s) ""
  then Err ValueError
  else Ok (market_price_record
             (code w)
             (decimal_value 0 (list_ascii_of_string (price_conversion s)))).
Proof.
  unfold market_price, Market.price_as_int. intros ->.
  cbn [py_price_conversion rbind py_int].
  destruct (String.eqb_spec (price_conversion s) "") as [E|E].
  - now rewrite E.
  - unfold price_conversion in *.
    rewrite (int_of_digits _ (re_sub_digits_only _) E). reflexivity.
Qed.

Lemma market_price_not_str (w : watch) :
  (forall s, get w Cena <> PStr s) -> market_price w = Err AttributeError.
Proof.
  unfold market_price, Market.price_as_int.
  destruct (get w Cena) as [|s|z]; simpl; intros H;
    [reflexivity | now destruct (H s) | reflexivity].
Qed.

(** X3.  [create_prices] of [seller.py] reads the rows whose code is
    in the list, in feed order.  When the price cell of each is a
    string, it returns one record per such row, with the normalized
    price, the currency [RUB], the old price ["0"] and the action flag
    [UNKNOWN].  Otherwise it raises [AttributeError], whatever follows
    the first row whose price cell is not a string. *)
Theorem X3_seller_create_prices (rem : list watch) (ids : list string) :
  (Forall (fun w => exists s, get w Cena = PStr s) (known_rows rem ids) ->
   Seller.create_prices rem ids =
   Ok (map (fun w => seller_price_record (code w) (py_str (get w Cena)))
           (known_rows rem ids)))
  /\ (forall pre w post,
         known_rows rem ids = pre ++ w :: post ->
         Forall (fun w' => exists s, get w' Cena = PStr s) pre ->
         (forall s, get w Cena <> PStr s) ->
         Seller.create_prices rem ids = Err AttributeError).
Proof.
  rewrite seller_create_prices, prices_loop_map_r. split.
  - intros H. apply map_r_all.
    eapply Forall_impl; [|exact H]. intros w [s Hs].
    rewrite (seller_price_str w s Hs). now rewrite Hs.
  - intros pre w post -> Hpre Hw. apply map_r_first_error.
    + eapply Forall_impl; [|exact Hpre]. intros w' [s Hs].
      rewrite (seller_price_str w' s Hs). now eexists.
    + now apply seller_price_not_str.
Qed.

Lemma X3_witness :
  Forall (fun w => exists s, get w Cena = PStr s)
         (known_rows demo_remnants demo_ids)
  /\ Seller.create_prices demo_remnants demo_ids =
     Ok [seller_price_record "A" "100.00 x";
         seller_price_record "B" "50.00 x"].
Proof.
  assert (H : Forall (fun w => exists s, get w Cena = PStr s)
                     (known_rows demo_remnants demo_ids)).
  { repeat constructor; eexists; reflexivity. }
  split; [exact H|].
  exact (proj1 (X3_seller_create_prices demo_remnants demo_ids) H).
Defined.

(** X4.  [create_prices] of [market.py] reads the same rows.  When
    the price cell of each is a string with a digit before its first
    decimal point, and with no more digits there than [int] accepts
    (4300), it returns one record per row whose value is the number
    those digits spell, never negative, in the currency [RUR].  It
    raises [AttributeError] at the first row whose price cell is not a
    string, and [ValueError] at the first whose price has no digit
    before the decimal point. *)
Theorem X4_market_create_prices (rem : list watch) (ids : list string) :
  (Forall (fun w => exists s,
               get w Cena = PStr s
               /\ price_conversion s <> EmptyString
               /\ (String.length (price_conversion s)
                   <= int_max_str_digits)%nat)
          (known_rows rem ids) ->
   Market.create_prices rem ids =
   Ok (map (fun w =>
              market_price_record
                (code w)
                (decimal_value
                   0 (list_ascii_of_string
                        (price_conversion (py_str (get w Cena))))))
           (known_rows rem ids))
   /\ forall prices p,
       Market.create_prices rem ids = Ok prices -> In p prices ->
       0 <= Market.value (Market.price p))
  /\ (forall pre w post,
         known_rows rem ids = pre ++ w :: post ->
         Forall (fun w' => exists s,
                     get w' Cena = PStr s
                     /\ price_conversion s <> EmptyString
                     /\ (String.length (price_conversion s)
                         <= int_max_str_digits)%nat)
                pre ->
         ((forall s, get w Cena <> PStr s) ->
          Market.create_prices rem ids = Err AttributeError)
         /\ (forall s, get w Cena = PStr s ->
                       price_conversion s = EmptyString ->
                       Market.create_prices rem ids = Err ValueError)).
Proof.
  rewrite market_create_prices, prices_loop_map_r.
  assert (Hok : forall w s,
             get w Cena = PStr s -> price_conversion s <> EmptyString ->
             market_price w =
             Ok (market_price_record
                   (code w)
                   (decimal_value
                      0 (list_ascii_of_string
                           (price_conversion (py_str (get w Cena))))))).
  { intros w s Hs Hne. rewrite (market_price_str w s Hs), Hs. simpl.
    apply String.eqb_neq in Hne. now rewrite Hne. }
  split.
  - intros H.
    assert (Hmap : map_r market_price (known_rows rem ids) =
                   Ok (map (fun w =>
                              market_price_record
                                (code w)
                                (decimal_value
                                   0 (list_ascii_of_string
                                        (price_conversion
                                           (py_str (get w Cena))))))
                           (known_rows rem ids))).
    { apply map_r_all. eapply Forall_impl; [|exact H].
      intros w (s & Hs & Hne & _). now apply (Hok w s). }
    split; [exact Hmap|].
    intros prices p Hp Hin. rewrite Hmap in Hp. inversion Hp; subst prices.
    apply in_map_iff in Hin. destruct Hin as (w & <- & _). simpl.
    apply decimal_value_nonneg; [lia | apply re_sub_digits_only].
  - intros pre w post -> Hpre.
    assert (Hpre' : Forall (fun y => exists b, market_price y = Ok b) pre).
    { eapply Forall_impl; [|exact Hpre].
      intros w' (s & Hs & Hne & _). rewrite (Hok w' s Hs Hne).
      now eexists. }
    split.
    + intros Hw. apply map_r_first_error; [exact Hpre'|].
      now apply market_price_not_str.
    + intros s Hs He. apply map_r_first_error; [exact Hpre'|].
      rewrite (market_price_str w s Hs), He. reflexivity.
Qed.

Lemma X4_witness :
  Forall (fun w => exists s,
              get w Cena = PStr s
              /\ price_conversion s <> EmptyString
              /\ (String.length (price_conversion s)
                  <= int_max_str_digits)%nat)
         (known_rows demo_remnants demo_ids)
  /\ Market.create_prices demo_remnants demo_ids =
     Ok [market_price_record "A" 100; market_price_record "B" 50].
Proof.
  assert (H : Forall (fun w => exists s,
                          get w Cena = PStr s
                          /\ price_conversion s <> EmptyString
                          /\ (String.length (price_conversion s)
                              <= int_max_str_digits)%nat)
                     (known_rows demo_remnants demo_ids)).
  { repeat constructor; eexists;
      (split; [reflexivity
              | split; [discriminate
                       | unfold int_max_str_digits; simpl; lia]]). }
  split; [exact H|].
  exact (proj1 (proj1 (X4_market_create_prices demo_remnants demo_ids) H)).
Defined.

Lemma before_dot_app (a b : string) :
  before_dot (a ++ String "." b)%string = before_dot a.
Proof.
  induction a as [|c t IH]; simpl; [reflexivity|].
  destruct (Ascii.eqb c "."); [reflexivity | now rewrite IH].
Qed.

Lemma before_dot_length (s : string) :
  (String.length (before_dot s) <= String.length s)%nat.
Proof.
  induction s as [|c t IH]; simpl; [lia|].
  destruct (Ascii.eqb c "."); simpl; lia.
Qed.

Lemma re_sub_length (s : string) :
  (String.length (re_sub_non_digits s) <= String.length s)%nat.
Proof.
  induction s as [|c t IH]; simpl; [lia|].
  destruct (is_digit c); simpl; lia.
Qed.

(** X5.  Whatever follows the first decimal point of a price never
    counts: [price_conversion] gives the same result with or without
    it.  The result is never longer than the price, and it is the empty
    string exactly when no digit stands before the first decimal
    point. *)
Theorem X5_price_conversion_cut (a b : string) :
  price_conversion (a ++ String "." b)%string = price_conversion a
  /\ (String.length (price_conversion a) <= String.length a)%nat
  /\ (price_conversion a = EmptyString <->
      forall c, In c (list_ascii_of_string (before_dot a)) ->
                is_digit c = false).
Proof.
  unfold price_conversion. rewrite !split_on_hd. repeat split.
  - now rewrite before_dot_app.
  - etransitivity; [apply re_sub_length | apply before_dot_length].
  - intros H c Hc. destruct (is_digit c) eqn:E; [|reflexivity].
    assert (Hin : In c (list_ascii_of_string
                          (re_sub_non_digits (before_dot a)))).
    { rewrite re_sub_filter. apply filter_In. now split. }
    rewrite H in Hin. destruct Hin.
  - intros H. induction (before_dot a) as [|c t IH]; simpl in *;
      [reflexivity|].
    rewrite (H c (or_introl eq_refl)). apply IH. intros c' Hc'. auto.
Qed.

(** X6.  For a width [n >= 1], [divide] yields the least number of
    chunks that can hold the list, [(len + n - 1) / n]; a list that is
    not empty and no longer than [n] goes into a single chunk, the
    list itself. *)
Theorem X6_divide_count {A : Type} (lst : list A) (n : Z) :
  1 <= n ->
  exists chunks,
    divide lst n = Ok chunks
    /\ Z.of_nat (length chunks) = (Z.of_nat (length lst) + n - 1) / n
    /\ (lst <> [] -> Z.of_nat (length lst) <= n -> chunks = [lst]).
Proof.
  intros Hn. eexists. split; [now apply divide_chunks_nat|].
  assert (Hcount : chunk_count (Z.of_nat (length lst)) n
                   = (Z.of_nat (length lst) + n - 1) / n).
  { unfold chunk_count. destruct (Z.ltb_spec 0 (Z.of_nat (length lst))).
    - replace (Z.of_nat (length lst) + n - 1)
        with (Z.of_nat (length lst) - 0 - 1 + 1 * n) by lia.
      rewrite Z.div_add by lia. reflexivity.
    - replace (Z.of_nat (length lst)) with 0 by lia.
      symmetry. apply Z.div_small. lia. }
  split.
  - unfold chunks_nat. rewrite length_map, length_seq, <- Hcount.
    apply Z2Nat.id.
    now destruct (chunk_count_bounds (Z.of_nat (length lst)) n
                    ltac:(lia) Hn).
  - intros Hne Hle.
    assert (Hone : chunk_count (Z.of_nat (length lst)) n = 1).
    { unfold chunk_count. destruct lst as [|x l]; [congruence|].
      destruct (Z.ltb_spec 0 (Z.of_nat (length (x :: l))));
        [|simpl in *; lia].
      rewrite Z.div_small; lia. }
    rewrite Hone. unfold chunks_nat. simpl. f_equal.
    apply firstn_all2. lia.
Qed.

Lemma X6_witness :
  1 <= 2
  /\ exists chunks,
      divide [1; 2; 3; 4; 5] 2 = Ok chunks
      /\ Z.of_nat (length chunks) = 3.
Proof.
  assert (H : 1 <= 2) by discriminate.
  split; [exact H|].
  destruct (X6_divide_count [1; 2; 3; 4; 5] 2 H) as (chunks & Hd & Hc & _).
  exists chunks. split; [exact Hd | exact Hc].
Defined.

(** ** Quantity cells *)

Lemma string_of_Z_inj (a b : Z) : string_of_Z a = string_of_Z b -> a = b.
Proof.
  unfold string_of_Z. intros H. apply DecimalZ.to_int_inj.
  assert (Hnil : forall z, Z.to_int z <> Decimal.Pos Decimal.Nil
                           /\ Z.to_int z <> Decimal.Neg Decimal.Nil).
  { intros [|p|p]; simpl; split; try discriminate;
      intros E; inversion E as [E'];
      exact (DecimalPos.Unsigned.to_uint_nonnil p E'). }
  destruct (Hnil a) as [Ha1 Ha2]. destruct (Hnil b) as [Hb1 Hb2].
  assert (E := NilZero.isi _ Ha1 Ha2). rewrite H in E.
  rewrite (NilZero.isi _ Hb1 Hb2) in E. now inversion E.
Qed.

Lemma string_of_Z_head (z : Z) (t : string) :
  string_of_Z z <> String ">" t.
Proof.
  unfold string_of_Z, NilZero.string_of_int, NilZero.string_of_uint.
  destruct (Z.to_int z) as [d|d]; destruct d; simpl; discriminate.
Qed.

(** X7.  A quantity cell that holds an integer never makes
    [create_stocks] raise: it resolves to itself, except the integer 1,
    which resolves to 0 like the string ["1"]. *)
Theorem X7_integer_quantity (w : watch) (z : Z) :
  get w Kolichestvo = PInt z ->
  resolve_stock w = Ok (if z =? 1 then 0 else z).
Proof.
  unfold resolve_stock. intros ->. simpl.
  destruct (String.eqb_spec (string_of_Z z) ">10") as [E|_].
  - now destruct (string_of_Z_head z _ E).
  - destruct (String.eqb_spec (string_of_Z z) "1") as [E|E].
    + change "1" with (string_of_Z 1) in E. apply string_of_Z_inj in E.
      now subst z.
    + destruct (Z.eqb_spec z 1) as [->|_]; [|reflexivity].
      now destruct E.
Qed.

Lemma X7_witness :
  get [(Kod, PInt 1001); (Kolichestvo, PInt 1)] Kolichestvo = PInt 1
  /\ resolve_stock [(Kod, PInt 1001); (Kolichestvo, PInt 1)] = Ok 0.
Proof.
  split; [reflexivity|].
  exact (X7_integer_quantity [(Kod, PInt 1001); (Kolichestvo, PInt 1)] 1
                             eq_refl).
Defined.

(** *** [int(str(z))] *)

Lemma uint_chars_digits (d : Decimal.uint) :
  forallb is_digit (list_ascii_of_string (NilEmpty.string_of_uint d)) = true.
Proof. induction d; simpl; auto. Qed.

Lemma decimal_value_acc (d : Decimal.uint) :
  forall acc : positive,
    decimal_value (Z.pos acc)
                  (list_ascii_of_string (NilEmpty.string_of_uint d))
    = Z.pos (Pos.of_uint_acc d acc).
Proof.
  induction d; intros acc;
    cbn [NilEmpty.string_of_uint list_ascii_of_string decimal_value
         Pos.of_uint_acc];
    [reflexivity|..];
    rewrite <- IHd; f_equal; unfold digit_value;
    vm_compute (Z.of_nat _); lia.
Qed.

Lemma decimal_value_uint (d : Decimal.uint) :
  decimal_value 0 (list_ascii_of_string (NilEmpty.string_of_uint d))
  = Z.of_uint d.
Proof.
  unfold Z.of_uint.
  induction d;
    cbn [NilEmpty.string_of_uint list_ascii_of_string decimal_value
         Pos.of_uint];
    [reflexivity | exact IHd | ..];
    match goal with
    | |- decimal_value (10 * 0 + digit_value ?c) _ = _ =>
        let v := eval vm_compute in (10 * 0 + digit_value c) in
        change (10 * 0 + digit_value c) with v
    end;
    rewrite decimal_value_acc; reflexivity.
Qed.

Lemma nilzero_uint (d : Decimal.uint) :
  let l := list_ascii_of_string (NilZero.string_of_uint d) in
  forallb is_digit l = true /\ l <> [] /\ decimal_value 0 l = Z.of_uint d.
Proof.
  destruct d; cbv zeta;
    (split; [first [reflexivity | apply uint_chars_digits]|]);
    (split; [simpl; discriminate
            | first [reflexivity | apply decimal_value_uint]]).
Qed.

Lemma strip_signed (l : list ascii) :
  forallb is_digit l = true -> l <> [] ->
  strip ("-"%char :: l) = "-"%char :: l.
Proof.
  intros H Hne. unfold strip. cbn [lstrip].
  change (is_space "-") with false. cbn [rev].
  destruct (rev l) as [|c t] eqn:E.
  { apply (f_equal (@rev ascii)) in E. rewrite rev_involutive in E.
    now destruct Hne. }
  assert (Hc : is_space c = false).
  { apply is_digit_not_space.
    apply (proj1 (forallb_forall _ _) H). apply in_rev. rewrite E.
    now left. }
  cbn [app lstrip]. rewrite Hc.
  change (c :: t ++ ["-"%char]) with ((c :: t) ++ rev ["-"%char]).
  rewrite <- E, <- rev_app_distr. apply rev_involutive.
Qed.

(** [int(str(z))] is [z]. *)
Lemma int_of_string_of_Z (z : Z) : int_of_string (string_of_Z z) = Some z.
Proof.
  unfold string_of_Z. rewrite <- (DecimalZ.of_to z) at 2.
  destruct (Z.to_int z) as [d|d]; unfold NilZero.string_of_int, Z.of_int;
    destruct (nilzero_uint d) as (Hd & Hne & Hv); cbv zeta in *.
  - unfold int_of_string. rewrite (strip_digits _ Hd).
    destruct (list_ascii_of_string (NilZero.string_of_uint d)) as [|c t]
      eqn:E; [congruence|].
    assert (Hc : is_digit c = true).
    { cbn [forallb] in Hd. now apply andb_true_iff in Hd. }
    destruct (is_digit_not_sign c Hc) as (-> & -> & _).
    rewrite (unsigned_digits _ Hd) by discriminate. now rewrite Hv.
  - unfold int_of_string. cbn [list_ascii_of_string].
    rewrite (strip_signed _ Hd Hne).
    change (Ascii.eqb "-" "+") with false.
    change (Ascii.eqb "-" "-") with true.
    rewrite (unsigned_digits _ Hd Hne). simpl. now rewrite Hv.
Qed.

(** X8.  It does not matter whether the spreadsheet delivers a
    quantity as a number or as the text of that number: [int] of the
    decimal string of an integer is the integer, and the two cells
    resolve to the same count. *)
Theorem X8_quantity_number_or_text (w w' : watch) (z : Z) :
  get w Kolichestvo = PInt z ->
  get w' Kolichestvo = PStr (py_str (PInt z)) ->
  py_int (PStr (py_str (PInt z))) = Ok z
  /\ resolve_stock w' = resolve_stock w.
Proof.
  intros Hw Hw'.
  assert (Hint : py_int (PStr (py_str (PInt z))) = Ok z).
  { cbn [py_str py_int]. now rewrite int_of_string_of_Z. }
  split; [exact Hint|].
  unfold resolve_stock. rewrite Hw, Hw'. cbn [py_str] in *.
  now rewrite Hint.
Qed.

Lemma X8_witness :
  get [(Kolichestvo, PInt (-37))] Kolichestvo = PInt (-37)
  /\ get [(Kolichestvo, PStr "-37")] Kolichestvo
     = PStr (py_str (PInt (-37)))
  /\ py_int (PStr (py_str (PInt (-37)))) = Ok (-37).
Proof.
  split; [reflexivity|]. split; [reflexivity|].
  exact (proj1 (X8_quantity_number_or_text
                  [(Kolichestvo, PInt (-37))] [(Kolichestvo, PStr "-37")]
                  (-37) eq_refl eq_refl)).
Defined.

(** ** Catalog fetch over several pages *)

Lemma market_loop_pages (w : Market.world) (cid tok : string)
      h page script :
  market_pages w cid tok h page script ->
  forall fuel acc,
    (length script <= fuel)%nat ->
    Market.get_offer_ids_loop w fuel cid tok page acc h =
    (Ret (acc ++ concat (map snd script)),
     h ++ map (fun p => Market.OfferMappingEntries (fst p) cid tok) script).
Proof.
  induction 1 as [h page pm entries pg Ha He Hp Hn
                 |h page pm entries pg script Ha He Hp Hn _ IH];
    intros fuel acc Hfuel;
    (destruct fuel as [|fuel]; [simpl in Hfuel; lia|]);
    rewrite market_loop_step, Ha, He, Hp; cbv zeta; rewrite Hn.
  - simpl. now rewrite app_nil_r.
  - rewrite IH by (simpl in Hfuel; lia). simpl.
    now rewrite <- !app_assoc.
Qed.

Lemma seller_loop_pages (w : Seller.world) (cid tok : string)
      h last n script :
  seller_pages w cid tok h last n script ->
  forall fuel acc,
    length acc = n ->
    (length script <= fuel)%nat ->
    Seller.get_offer_ids_loop w fuel cid tok last acc h =
    (Ret (acc ++ concat (map snd script)),
     h ++ map (fun p => Seller.ProductList (fst p) cid tok) script).
Proof.
  induction 1 as [h last n ps items Ha Hi Ht
                 |h last n ps items script Ha Hi Ht _ IH];
    intros fuel acc Hacc Hfuel;
    (destruct fuel as [|fuel]; [simpl in Hfuel; lia|]);
    rewrite seller_loop_step, Ha, Hi; cbv zeta;
    rewrite length_app, Hacc.
  - rewrite Ht, Z.eqb_refl. simpl. now rewrite app_nil_r.
  - assert (E : match Seller.get_total ps with
                | Some t => t =? Z.of_nat (n + length items)
                | None => false
                end = false).
    { destruct (Seller.get_total ps) as [t|]; [|reflexivity].
      apply Z.eqb_neq. congruence. }
    rewrite E.
    rewrite IH by (rewrite ?length_app; simpl in Hfuel; lia). simpl.
    now rewrite <- !app_assoc.
Qed.

(** X9.  When the naming of pages goes on for several answers,
    [get_offer_ids] of [market.py] asks for the first page with the
    empty token and for each next page with the token of the answer
    before; given fuel for every page it returns, and what it returns
    is the [shopSku] of every entry of every page, in the order
    received. *)
Theorem X9_market_pages_concatenated
        (w : Market.world) (fuel : nat) (cid tok : string)
        (h : list Market.request)
        (script : list (option string * list Market.entry)) :
  market_pages w cid tok h (Some "") script ->
  (length script <= fuel)%nat ->
  Market.get_offer_ids w fuel cid tok h =
  (Ret (map (fun e => Market.shopSku (Market.get_offer e))
            (concat (map snd script))),
   h ++ map (fun p => Market.OfferMappingEntries (fst p) cid tok) script).
Proof.
  intros Hs Hfuel. unfold Market.get_offer_ids, bind.
  now rewrite (market_loop_pages w cid tok h _ script Hs fuel [] Hfuel).
Qed.

Lemma X9_witness :
  market_pages market_two_pages "c" "t" [] (Some "")
               [(Some "", [Market.Build_entry (Market.Build_offer "A");
                           Market.Build_entry (Market.Build_offer "B")]);
                (Some "p2", [Market.Build_entry (Market.Build_offer "C")])]
  /\ (2 <= 5)%nat
  /\ Market.get_offer_ids market_two_pages 5 "c" "t" [] =
     (Ret ["A"; "B"; "C"],
      [Market.OfferMappingEntries (Some "") "c" "t";
       Market.OfferMappingEntries (Some "p2") "c" "t"]).
Proof.
  assert (Hs : market_pages
                 market_two_pages "c" "t" [] (Some "")
                 [(Some "", [Market.Build_entry (Market.Build_offer "A");
                             Market.Build_entry (Market.Build_offer "B")]);
                  (Some "p2",
                   [Market.Build_entry (Market.Build_offer "C")])]).
  { eapply market_next_page; try reflexivity.
    eapply market_last_page; reflexivity. }
  assert (Hf : (2 <= 5)%nat) by (repeat constructor).
  split; [exact Hs|]. split; [exact Hf|].
  exact (X9_market_pages_concatenated market_two_pages 5 "c" "t" [] _ Hs Hf).
Defined.

(** X10.  The same for [seller.py], where the sign of the last page
    is a [total] equal to the number of products gathered: each next
    request carries the [last_id] of the answer before, and what
    [get_offer_ids] returns is the [offer_id] of every product of every
    page, in the order received. *)
Theorem X10_seller_pages_concatenated
        (w : Seller.world) (fuel : nat) (cid tok : string)
        (h : list Seller.request)
        (script : list (option string * list Seller.product)) :
  seller_pages w cid tok h (Some "") 0 script ->
  (length script <= fuel)%nat ->
  Seller.get_offer_ids w fuel cid tok h =
  (Ret (map Seller.product_offer_id (concat (map snd script))),
   h ++ map (fun p => Seller.ProductList (fst p) cid tok) script).
Proof.
  intros Hs Hfuel. unfold Seller.get_offer_ids, bind.
  now rewrite (seller_loop_pages w cid tok h _ 0 script Hs fuel []
                 eq_refl Hfuel).
Qed.

Lemma X10_witness :
  seller_pages seller_two_pages "c" "t" [] (Some "") 0
               [(Some "", [Seller.Build_product "A";
                           Seller.Build_product "B"]);
                (Some "B", [Seller.Build_product "C"])]
  /\ (2 <= 5)%nat
  /\ Seller.get_offer_ids seller_two_pages 5 "c" "t" [] =
     (Ret ["A"; "B"; "C"],
      [Seller.ProductList (Some "") "c" "t";
       Seller.ProductList (Some "B") "c" "t"]).
Proof.
  assert (Hs : seller_pages
                 seller_two_pages "c" "t" [] (Some "") 0
                 [(Some "", [Seller.Build_product "A";
                             Seller.Build_product "B"]);
                  (Some "B", [Seller.Build_product "C"])]).
  { eapply seller_next_page; try reflexivity; [discriminate|].
    eapply seller_last_page; reflexivity. }
  assert (Hf : (2 <= 5)%nat) by (repeat constructor).
  split; [exact Hs|]. split; [exact Hf|].
  exact (X10_seller_pages_concatenated seller_two_pages 5 "c" "t" [] _ Hs Hf).
Defined.

Lemma market_loop_fail (w : Market.world) (cid tok : string) (e : exn)
      h page tokens :
  market_pages_fail w cid tok e h page tokens ->
  forall fuel acc,
    (length tokens <= fuel)%nat ->
    Market.get_offer_ids_loop w fuel cid tok page acc h =
    (Raise e,
     h ++ map (fun t => Market.OfferMappingEntries t cid tok) tokens).
Proof.
  induction 1 as [h page Ha
                 |h page pm entries pg tokens Ha He Hp Hn _ IH];
    intros fuel acc Hfuel;
    (destruct fuel as [|fuel]; [simpl in Hfuel; lia|]);
    rewrite market_loop_step, Ha; cbv zeta; [reflexivity|].
  rewrite He, Hp, Hn.
  rewrite IH by (simpl in Hfuel; lia). simpl. now rewrite <- !app_assoc.
Qed.

Lemma seller_loop_fail (w : Seller.world) (cid tok : string) (e : exn)
      h last n tokens :
  seller_pages_fail w cid tok e h last n tokens ->
  forall fuel acc,
    length acc = n ->
    (length tokens <= fuel)%nat ->
    Seller.get_offer_ids_loop w fuel cid tok last acc h =
    (Raise e, h ++ map (fun t => Seller.ProductList t cid tok) tokens).
Proof.
  induction 1 as [h last n Ha
                 |h last n ps items tokens Ha Hi Ht _ IH];
    intros fuel acc Hacc Hfuel;
    (destruct fuel as [|fuel]; [simpl in Hfuel; lia|]);
    rewrite seller_loop_step, Ha; cbv zeta; [reflexivity|].
  rewrite Hi, length_app, Hacc.
  assert (E : match Seller.get_total ps with
              | Some t => t =? Z.of_nat (n + length items)
              | None => false
              end = false).
  { destruct (Seller.get_total ps) as [t|]; [|reflexivity].
    apply Z.eqb_neq. congruence. }
  rewrite E.
  rewrite IH by (rewrite ?length_app; simpl in Hfuel; lia). simpl.
  now rewrite <- !app_assoc.
Qed.

(** X11.  A page request that fails ends the catalog fetch of either
    marketplace at once: [get_offer_ids] raises the exception of that
    request, issues no request after it, and hands over none of the
    identifiers of the pages received before. *)
Theorem X11_fetch_failure_propagates
        (wm : Market.world) (ws : Seller.world) (fuel : nat)
        (cid tok : string) (e : exn)
        (hm : list Market.request) (hs : list Seller.request)
        (tokens : list (option string)) :
  (length tokens <= fuel)%nat ->
  (market_pages_fail wm cid tok e hm (Some "") tokens ->
   Market.get_offer_ids wm fuel cid tok hm =
   (Raise e,
    hm ++ map (fun t => Market.OfferMappingEntries t cid tok) tokens))
  /\ (seller_pages_fail ws cid tok e hs (Some "") 0 tokens ->
      Seller.get_offer_ids ws fuel cid tok hs =
      (Raise e, hs ++ map (fun t => Seller.ProductList t cid tok) tokens)).
Proof.
  intros Hfuel. split; intros Hs.
  - unfold Market.get_offer_ids, bind.
    now rewrite (market_loop_fail wm cid tok e hm _ tokens Hs fuel [] Hfuel).
  - unfold Seller.get_offer_ids, bind.
    now rewrite (seller_loop_fail ws cid tok e hs _ 0 tokens Hs fuel []
                   eq_refl Hfuel).
Qed.

Lemma X11_witness :
  (2 <= 5)%nat
  /\ market_pages_fail market_breaks "c" "t" RequestException []
                       (Some "") [Some ""; Some "p2"]
  /\ Market.get_offer_ids market_breaks 5 "c" "t" [] =
     (Raise RequestException,
      [Market.OfferMappingEntries (Some "") "c" "t";
       Market.OfferMappingEntries (Some "p2") "c" "t"]).
Proof.
  assert (Hf : (2 <= 5)%nat) by (repeat constructor).
  assert (Hs : market_pages_fail market_breaks "c" "t" RequestException []
                                 (Some "") [Some ""; Some "p2"]).
  { eapply market_fail_later; try reflexivity.
    apply market_fail_now. reflexivity. }
  split; [exact Hf|]. split; [exact Hs|].
  exact (proj1 (X11_fetch_failure_propagates
                  market_breaks stuck_world 5 "c" "t" RequestException
                  [] [] [Some ""; Some "p2"] Hf) Hs).
Defined.

(** ** Dispatch to the end, or to the first refusal *)

Section Refusal.
Context {E A : Type}.
Variable ev : list A -> E.
Variable ans : list A -> list E -> result json.

Lemma for_each_refused (k : nat) (e : exn) :
  forall chunks h,
    accepted_until ev ans h chunks k e ->
    for_each chunks (fun c => perform (ev c) (ans c)) h =
    (Raise e, h ++ map ev (firstn (S k) chunks)).
Proof.
  induction k as [|k IH]; intros chunks h (Hk & Hacc & Href);
    destruct chunks as [|c t]; simpl in Hk; try lia.
  - cbn [nth firstn map] in Href. rewrite app_nil_r in Href.
    cbn [for_each]. unfold bind at 1. unfold perform at 1.
    now rewrite Href.
  - destruct (Hacc 0%nat ltac:(lia)) as [j Hj].
    cbn [nth firstn map] in Hj. rewrite app_nil_r in Hj.
    cbn [for_each]. unfold bind at 1. unfold perform at 1. rewrite Hj.
    rewrite (IH t (h ++ [ev c])).
    + cbn [firstn map]. now rewrite <- app_assoc.
    + split; [lia|]. split.
      * intros i Hi. destruct (Hacc (S i) ltac:(lia)) as [j' Hj'].
        exists j'. cbn [nth firstn map] in Hj'.
        now rewrite <- app_assoc.
      * cbn [nth firstn map] in Href. now rewrite <- app_assoc.
Qed.
End Refusal.

(** X12.  A batch that the remote side refuses ends an upload at
    once.  When the catalog is fetched, the list is built, and the
    remote side accepts the first [k] batches and refuses the next,
    [upload_stocks] and [upload_prices] of either marketplace raise the
    exception of the refusal; the log holds the [k + 1] batches sent,
    in order, and nothing after them: no batch is sent again and none
    of the later ones is sent. *)
Theorem X12_refused_batch_ends_upload
        (ws : Seller.world) (wm : Market.world) (fuel : nat)
        (rem : list watch) (cid tok wh : string)
        (hs : list Seller.request) (hm : list Market.request)
        (k : nat) (e : exn) :
  (forall ids h1 stocks ids' chunks,
      Seller.get_offer_ids ws fuel cid tok hs = (Ret ids, h1) ->
      Seller.create_stocks rem ids = Ok (stocks, ids') ->
      divide stocks 100 = Ok chunks ->
      accepted_until (fun b => Seller.ImportStocks b cid tok)
                     (fun b h => Seller.import_stocks_api ws h b cid tok)
                     h1 chunks k e ->
      Seller.upload_stocks ws fuel rem cid tok hs =
      (Raise e,
       h1 ++ map (fun b => Seller.ImportStocks b cid tok)
                 (firstn (S k) chunks)))
  /\ (forall ids h1 prices chunks,
         Seller.get_offer_ids ws fuel cid tok hs = (Ret ids, h1) ->
         Seller.create_prices rem ids = Ok prices ->
         divide prices 1000 = Ok chunks ->
         accepted_until (fun b => Seller.ImportPrices b cid tok)
                        (fun b h => Seller.import_prices_api ws h b cid tok)
                        h1 chunks k e ->
         Seller.upload_prices ws fuel rem cid tok hs =
         (Raise e,
          h1 ++ map (fun b => Seller.ImportPrices b cid tok)
                    (firstn (S k) chunks)))
  /\ (forall ids h1 stocks ids' chunks,
         Market.get_offer_ids wm fuel cid tok hm = (Ret ids, h1) ->
         Market.create_stocks rem ids wh (Market.utcnow wm h1)
         = Ok (stocks, ids') ->
         divide stocks 2000 = Ok chunks ->
         accepted_until (fun b => Market.PutStocks b cid tok)
                        (fun b h => Market.put_stocks_api wm h b cid tok)
                        h1 chunks k e ->
         Market.upload_stocks wm fuel rem cid tok wh hm =
         (Raise e,
          h1 ++ map (fun b => Market.PutStocks b cid tok)
                    (firstn (S k) chunks)))
  /\ (forall ids h1 prices chunks,
         Market.get_offer_ids wm fuel cid tok hm = (Ret ids, h1) ->
         Market.create_prices rem ids = Ok prices ->
         divide prices 500 = Ok chunks ->
         accepted_until (fun b => Market.PriceUpdates b cid tok)
                        (fun b h => Market.price_updates_api wm h b cid tok)
                        h1 chunks k e ->
         Market.upload_prices wm fuel rem cid tok hm =
         (Raise e,
          h1 ++ map (fun b => Market.PriceUpdates b cid tok)
                    (firstn (S k) chunks))).
Proof.
  repeat split.
  - intros ids h1 stocks ids' chunks Hf Hc Hd Hacc.
    unfold Seller.upload_stocks. unfold bind at 1. rewrite Hf.
    unfold bind at 1, lift at 1. rewrite Hc. cbn beta iota.
    unfold bind at 1, lift at 1. rewrite Hd. unfold bind at 1.
    unfold Seller.update_stocks.
    now rewrite (for_each_refused _ _ k e chunks h1 Hacc).
  - intros ids h1 prices chunks Hf Hc Hd Hacc.
    unfold Seller.upload_prices. unfold bind at 1. rewrite Hf.
    unfold bind at 1, lift at 1. rewrite Hc.
    unfold bind at 1, lift at 1. rewrite Hd. unfold bind at 1.
    unfold Seller.update_price.
    now rewrite (for_each_refused _ _ k e chunks h1 Hacc).
  - intros ids h1 stocks ids' chunks Hf Hc Hd Hacc.
    unfold Market.upload_stocks. unfold bind at 1. rewrite Hf.
    unfold bind at 1. unfold bind at 1, lift at 1. rewrite Hc.
    cbn beta iota.
    unfold bind at 1, lift at 1. rewrite Hd. unfold bind at 1.
    unfold Market.update_stocks.
    now rewrite (for_each_refused _ _ k e chunks h1 Hacc).
  - intros ids h1 prices chunks Hf Hc Hd Hacc.
    unfold Market.upload_prices. unfold bind at 1. rewrite Hf.
    unfold bind at 1, lift at 1. rewrite Hc.
    unfold bind at 1, lift at 1. rewrite Hd. unfold bind at 1.
    unfold Market.update_price.
    now rewrite (for_each_refused _ _ k e chunks h1 Hacc).
Qed.

Lemma X12_witness :
  accepted_until
    (fun b => Seller.ImportStocks b "c" "t")
    (fun b h => Seller.import_stocks_api
                  (seller_refuses_second (numbered 101)) h b "c" "t")
    [Seller.ProductList (Some "") "c" "t"]
    [firstn 100 (map (fun c => seller_stock c 0) (numbered 101));
     skipn 100 (map (fun c => seller_stock c 0) (numbered 101))]
    1 RequestException
  /\ Seller.upload_stocks (seller_refuses_second (numbered 101)) 1 []
                          "c" "t" [] =
     (Raise RequestException,
      [Seller.ProductList (Some "") "c" "t"]
        ++ map (fun b => Seller.ImportStocks b "c" "t")
               (firstn 2
                  [firstn 100 (map (fun c => seller_stock c 0)
                                   (numbered 101));
                   skipn 100 (map (fun c => seller_stock c 0)
                                  (numbered 101))])).
Proof.
  assert (Hacc : accepted_until
                   (fun b => Seller.ImportStocks b "c" "t")
                   (fun b h => Seller.import_stocks_api
                                 (seller_refuses_second (numbered 101))
                                 h b "c" "t")
                   [Seller.ProductList (Some "") "c" "t"]
                   [firstn 100 (map (fun c => seller_stock c 0)
                                    (numbered 101));
                    skipn 100 (map (fun c => seller_stock c 0)
                                   (numbered 101))]
                   1 RequestException).
  { split; [repeat constructor|]. split; [|reflexivity].
    intros [|i] Hi; [now eexists|].
    apply Nat.succ_lt_mono in Hi. now apply Nat.nlt_0_r in Hi. }
  split; [exact Hacc|].
  exact (proj1 (X12_refused_batch_ends_upload
                  (seller_refuses_second (numbered 101)) market_breaks 1 []
                  "c" "t" "" [] [] 1 RequestException)
               (numbered 101) [Seller.ProductList (Some "") "c" "t"]
               (map (fun c => seller_stock c 0) (numbered 101))
               (numbered 101) _ eq_refl eq_refl eq_refl Hacc).
Defined.

Lemma divide_concat {A} (l : list A) (n : Z) :
  1 <= n -> exists chunks, divide l n = Ok chunks /\ concat chunks = l.
Proof.
  intros Hn. eexists. split; [now apply divide_chunks_nat|].
  rewrite concat_chunks_nat. apply firstn_all2.
  now destruct (chunk_count_nat n l 0 Hn) as (H & _).
Qed.

Lemma filter_r_built (wh date : string) (stocks : list Market.stock_item) :
  Forall (fun r => exists c v, r = Market.stock_record c wh v date) stocks ->
  filter_r Market.count_not_zero stocks =
  Ok (filter (fun r => negb (market_count r =? 0)) stocks).
Proof.
  induction 1 as [|r l (c & v & ->) _ IH]; simpl; [reflexivity|].
  rewrite IH. reflexivity.
Qed.

(** X13.  When the catalog is fetched, the list is built and the
    remote side accepts every batch, an upload of either marketplace
    returns, and the batches it has sent are, put end to end, the list
    it returns: every record goes out once, in order.  [upload_stocks]
    returns next to the list the records whose count is not 0. *)
Theorem X13_accepted_upload_sends_all
        (ws : Seller.world) (wm : Market.world) (fuel : nat)
        (rem : list watch) (cid tok wh : string)
        (hs : list Seller.request) (hm : list Market.request) :
  (forall ids h1 stocks ids',
      Seller.get_offer_ids ws fuel cid tok hs = (Ret ids, h1) ->
      Seller.create_stocks rem ids = Ok (stocks, ids') ->
      (forall b h, exists j, Seller.import_stocks_api ws h b cid tok = Ok j) ->
      exists chunks,
        concat chunks = stocks
        /\ Seller.upload_stocks ws fuel rem cid tok hs =
           (Ret (filter (fun r => negb (Seller.stock r =? 0)) stocks, stocks),
            h1 ++ map (fun b => Seller.ImportStocks b cid tok) chunks))
  /\ (forall ids h1 prices,
         Seller.get_offer_ids ws fuel cid tok hs = (Ret ids, h1) ->
         Seller.create_prices rem ids = Ok prices ->
         (forall b h,
             exists j, Seller.import_prices_api ws h b cid tok = Ok j) ->
         exists chunks,
           concat chunks = prices
           /\ Seller.upload_prices ws fuel rem cid tok hs =
              (Ret prices,
               h1 ++ map (fun b => Seller.ImportPrices b cid tok) chunks))
  /\ (forall ids h1 stocks ids',
         Market.get_offer_ids wm fuel cid tok hm = (Ret ids, h1) ->
         Market.create_stocks rem ids wh (Market.utcnow wm h1)
         = Ok (stocks, ids') ->
         (forall b h, exists j, Market.put_stocks_api wm h b cid tok = Ok j) ->
         exists chunks,
           concat chunks = stocks
           /\ Market.upload_stocks wm fuel rem cid tok wh hm =
              (Ret (filter (fun r => negb (market_count r =? 0)) stocks,
                    stocks),
               h1 ++ map (fun b => Market.PutStocks b cid tok) chunks))
  /\ (forall ids h1 prices,
         Market.get_offer_ids wm fuel cid tok hm = (Ret ids, h1) ->
         Market.create_prices rem ids = Ok prices ->
         (forall b h,
             exists j, Market.price_updates_api wm h b cid tok = Ok j) ->
         exists chunks,
           concat chunks = prices
           /\ Market.upload_prices wm fuel rem cid tok hm =
              (Ret prices,
               h1 ++ map (fun b => Market.PriceUpdates b cid tok) chunks)).
Proof.
  repeat split.
  - intros ids h1 stocks ids' Hf Hc Hacc.
    destruct (divide_concat stocks 100 ltac:(lia)) as (chunks & Hd & Hcat).
    exists chunks. split; [exact Hcat|].
    unfold Seller.upload_stocks. unfold bind at 1. rewrite Hf.
    unfold bind at 1, lift at 1. rewrite Hc. cbn beta iota.
    unfold bind at 1, lift at 1. rewrite Hd. unfold bind at 1.
    unfold Seller.update_stocks.
    now rewrite (for_each_accepted
                   (fun b => Seller.ImportStocks b cid tok)
                   (fun b h => Seller.import_stocks_api ws h b cid tok))
      by exact Hacc.
  - intros ids h1 prices Hf Hc Hacc.
    destruct (divide_concat prices 1000 ltac:(lia)) as (chunks & Hd & Hcat).
    exists chunks. split; [exact Hcat|].
    unfold Seller.upload_prices. unfold bind at 1. rewrite Hf.
    unfold bind at 1, lift at 1. rewrite Hc.
    unfold bind at 1, lift at 1. rewrite Hd. unfold bind at 1.
    unfold Seller.update_price.
    now rewrite (for_each_accepted
                   (fun b => Seller.ImportPrices b cid tok)
                   (fun b h => Seller.import_prices_api ws h b cid tok))
      by exact Hacc.
  - intros ids h1 stocks ids' Hf Hc Hacc.
    destruct (divide_concat stocks 2000 ltac:(lia)) as (chunks & Hd & Hcat).
    exists chunks. split; [exact Hcat|].
    unfold Market.upload_stocks. unfold bind at 1. rewrite Hf.
    unfold bind at 1. unfold bind at 1, lift at 1. rewrite Hc.
    cbn beta iota.
    unfold bind at 1, lift at 1. rewrite Hd. unfold bind at 1.
    unfold Market.update_stocks.
    rewrite (for_each_accepted
               (fun b => Market.PutStocks b cid tok)
               (fun b h => Market.put_stocks_api wm h b cid tok))
      by exact Hacc.
    unfold bind, lift.
    now rewrite (filter_r_built wh (Market.utcnow wm h1) stocks
                   (market_stocks_built _ _ _ _ _ _ Hc)).
  - intros ids h1 prices Hf Hc Hacc.
    destruct (divide_concat prices 500 ltac:(lia)) as (chunks & Hd & Hcat).
    exists chunks. split; [exact Hcat|].
    unfold Market.upload_prices. unfold bind at 1. rewrite Hf.
    unfold bind at 1, lift at 1. rewrite Hc.
    unfold bind at 1, lift at 1. rewrite Hd. unfold bind at 1.
    unfold Market.update_price.
    now rewrite (for_each_accepted
                   (fun b => Market.PriceUpdates b cid tok)
                   (fun b h => Market.price_updates_api wm h b cid tok))
      by exact Hacc.
Qed.

Lemma X13_witness :
  Seller.get_offer_ids (seller_catalog demo_ids) 1 "c" "t" []
  = (Ret demo_ids, [Seller.ProductList (Some "") "c" "t"])
  /\ exists chunks,
      concat chunks = [seller_price_record "A" "100.00 x";
                       seller_price_record "B" "50.00 x"]
      /\ Seller.upload_prices (seller_catalog demo_ids) 1 demo_remnants
                              "c" "t" [] =
         (Ret [seller_price_record "A" "100.00 x";
               seller_price_record "B" "50.00 x"],
          [Seller.ProductList (Some "") "c" "t"]
            ++ map (fun b => Seller.ImportPrices b "c" "t") chunks).
Proof.
  split; [reflexivity|].
  exact (proj1 (proj2 (X13_accepted_upload_sends_all
                         (seller_catalog demo_ids) market_breaks 1
                         demo_remnants "c" "t" "" [] []))
               demo_ids [Seller.ProductList (Some "") "c" "t"] _
               eq_refl eq_refl (fun b h => ex_intro _ "{}" eq_refl)).
Defined.

(** ** The two [main] *)

Lemma market_put_batches_app h (new : list (list Market.stock_item))
      (cid tok : string) :
  market_price_batches
    (h ++ map (fun b => Market.PutStocks b cid tok) new)
  = market_price_batches h.
Proof.
  unfold market_price_batches. rewrite flat_map_app.
  rewrite <- app_nil_r. f_equal.
  induction new as [|b t IH]; simpl; [reflexivity | assumption].
Qed.

(** One campaign of [main] of [market.py], followed by [k]: the log
    gains stock batches of at most 2000 records and no price batch;
    then [k] runs, unless the campaign has failed or run out of
    fuel. *)
Lemma market_campaign {C} (k : M Market.request C) (w : Market.world)
      (fuel : nat) (rem : list watch) (cid tok wh : string)
      (h : list Market.request) (o : outcome C) (h' : list Market.request) :
  bind (Market.get_offer_ids w fuel cid tok)
       (fun offer_ids =>
          bind (fun h => (Ret (Market.utcnow w h), h))
               (fun date =>
                  bind (lift (Market.create_stocks rem offer_ids wh date))
                       (fun x =>
                          match x with
                          | (stocks, _) =>
                              bind (lift (divide stocks 2000))
                                   (fun chunks =>
                                      bind (for_each
                                              chunks
                                              (fun some_stock =>
                                                 Market.update_stocks
                                                   w some_stock cid tok))
                                           (fun _ => k))
                          end))) h = (o, h') ->
  exists new hmid,
    Forall (fun b => Z.of_nat (length b) <= 2000) new
    /\ market_stock_batches hmid = market_stock_batches h ++ new
    /\ market_price_batches hmid = market_price_batches h
    /\ (k hmid = (o, h')
        \/ (h' = hmid
            /\ ((exists e, o = Raise e)
                \/ (o = Timeout
                    /\ fst (Market.get_offer_ids w fuel cid tok h)
                       = Timeout)))).
Proof.
  intros H. unfold bind at 1 in H.
  destruct (market_fetch_batches w fuel cid tok h) as [Hfs Hfp].
  cbv zeta in Hfs, Hfp.
  destruct (Market.get_offer_ids w fuel cid tok h) as [[ids|e|] h1];
    simpl in Hfs, Hfp.
  2:{ inversion H; subst. exists [], h'. rewrite app_nil_r.
      split; [constructor|]. split; [assumption|]. split; [assumption|].
      right. split; [reflexivity|]. left. now eexists. }
  2:{ inversion H; subst. exists [], h'. rewrite app_nil_r.
      split; [constructor|]. split; [assumption|]. split; [assumption|].
      right. split; [reflexivity|]. right. now split. }
  unfold bind at 1 in H. unfold bind at 1, lift at 1 in H.
  destruct (Market.create_stocks rem ids wh (Market.utcnow w h1))
    as [[stocks ids']|e].
  2:{ inversion H; subst. exists [], h'. rewrite app_nil_r.
      split; [constructor|]. split; [assumption|]. split; [assumption|].
      right. split; [reflexivity|]. left. now eexists. }
  unfold Market.update_stocks in H.
  apply (dispatch_then (fun b => Market.PutStocks b cid tok)
           (fun b h => Market.put_stocks_api w h b cid tok)) in H; [|lia].
  destruct H as (new & Hb & _ & Hcase).
  exists new, (h1 ++ map (fun b => Market.PutStocks b cid tok) new).
  rewrite market_stock_batches_app, market_put_batches_app, Hfs, Hfp.
  repeat split; try assumption.
  destruct Hcase as [[_ Hk] | [He ->]]; [now left|].
  right. split; [reflexivity | now left].
Qed.

Lemma market_main_try_spec (w : Market.world) (fuel : nat)
      (rem : list watch) (tok fbs dbs whf whd : string)
      (h : list Market.request) o h' :
  Market.main_try w fuel rem tok fbs dbs whf whd h = (o, h') ->
  market_price_batches h' = market_price_batches h
  /\ exists new,
      market_stock_batches h' = market_stock_batches h ++ new
      /\ Forall (fun b => Z.of_nat (length b) <= 2000) new.
Proof.
  intros H. unfold Market.main_try in H.
  apply market_campaign in H.
  destruct H as (new1 & h1 & Hb1 & Hs1 & Hp1 & [Hk | [-> _]]).
  2:{ split; [assumption|]. now exists new1. }
  apply market_campaign in Hk.
  destruct Hk as (new2 & h2 & Hb2 & Hs2 & Hp2 & Hend).
  assert (Hh' : h' = h2).
  { destruct Hend as [Hk | [Hk _]]; [now inversion Hk | exact Hk]. }
  subst h'. split; [congruence|].
  exists (new1 ++ new2). rewrite Hs2, Hs1, <- app_assoc.
  split; [reflexivity|]. apply Forall_app. now split.
Qed.

(** X14.  [main] of [market.py] fails only where the feed cannot be
    downloaded: that exception is raised before any request.  With the
    feed at hand it never raises, it sends stock batches of at most 2000
    records, and it sends no price at all: the two calls of
    [upload_prices] are never awaited. *)
Theorem X14_market_main
        (w : Market.world) (fuel : nat) (downloaded : result (list watch))
        (tok fbs dbs whf whd : string) (h : list Market.request) :
  (forall e, downloaded = Err e ->
             Market.main w fuel downloaded tok fbs dbs whf whd h
             = (Raise e, h))
  /\ (forall rem o h',
         downloaded = Ok rem ->
         Market.main w fuel downloaded tok fbs dbs whf whd h = (o, h') ->
         (forall e, o <> Raise e)
         /\ market_price_batches h' = market_price_batches h
         /\ exists new,
             market_stock_batches h' = market_stock_batches h ++ new
             /\ Forall (fun b => Z.of_nat (length b) <= 2000) new).
Proof.
  split.
  - intros e ->. reflexivity.
  - intros rem o h' -> H. unfold Market.main, bind, lift in H.
    destruct (Market.main_try w fuel rem tok fbs dbs whf whd h)
      as [o1 h1] eqn:E.
    apply market_main_try_spec in E.
    assert (h1 = h' /\ forall e, o <> Raise e) as [-> Ho].
    { destruct o1; inversion H; subst; split; try reflexivity;
        intros e0; discriminate. }
    split; [exact Ho | exact E].
Qed.

Lemma X14_witness :
  exists h',
    Market.main (market_catalog ["A"; "B"; "C"]) 1 (Ok demo_remnants)
                "t" "fbs" "dbs" "w1" "w2" [] = (Ret tt, h')
    /\ market_price_batches h' = market_price_batches []
    /\ map (@length _) (market_stock_batches h') = [3; 3]%nat.
Proof.
  eexists. split; [reflexivity|].
  split; [|reflexivity].
  exact (proj1 (proj2 (proj2 (X14_market_main
                                (market_catalog ["A"; "B"; "C"]) 1
                                (Ok demo_remnants)
                                "t" "fbs" "dbs" "w1" "w2" [])
                             demo_remnants _ _ eq_refl eq_refl))).
Defined.

Lemma seller_main_try_timeout (ws : Seller.world) (fuel : nat)
      (cid tok : string) (hs : list Seller.request) o h' :
  Seller.main_try ws fuel cid tok hs = (o, h') ->
  o = Timeout -> fst (Seller.get_offer_ids ws fuel cid tok hs) = Timeout.
Proof.
  intros H ->. unfold Seller.main_try in H. unfold bind at 1 in H.
  destruct (Seller.get_offer_ids ws fuel cid tok hs) as [[ids|e|] h1];
    [|discriminate | reflexivity].
  exfalso.
  unfold bind at 1, Seller.download_stock, perform at 1 in H.
  destruct (Seller.download_api ws h1) as [rem|e]; [|discriminate].
  unfold bind at 1, lift at 1 in H.
  destruct (Seller.create_stocks rem ids) as [[stocks ids']|e];
    [|discriminate].
  cbn beta iota in H. unfold Seller.update_stocks in H.
  apply (dispatch_then (fun b => Seller.ImportStocks b cid tok)
           (fun b h => Seller.import_stocks_api ws h b cid tok)) in H;
    [|lia].
  destruct H as (news & _ & _ & [[_ Hk] | [[e He] _]]); [|discriminate].
  unfold bind at 1, lift at 1 in Hk.
  destruct (Seller.create_prices rem ids') as [prices|e]; [|discriminate].
  unfold Seller.update_price in Hk.
  apply (dispatch_then (fun b => Seller.ImportPrices b cid tok)
           (fun b h => Seller.import_prices_api ws h b cid tok)) in Hk;
    [|lia].
  destruct Hk as (newp & _ & _ & [[_ Hk] | [[e He] _]]); discriminate.
Qed.

(** X15.  [main] of [seller.py] contains every failure: whatever the
    remote side answers and whatever the feed holds, it never raises.
    It fails to return only if the catalog fetch does; the download,
    the reconciliation and the dispatch always end. *)
Theorem X15_seller_main_contains_errors
        (ws : Seller.world) (fuel : nat) (cid tok : string)
        (hs : list Seller.request) :
  (forall e, fst (Seller.main ws fuel cid tok hs) <> Raise e)
  /\ (fst (Seller.main ws fuel cid tok hs) = Timeout ->
      fst (Seller.get_offer_ids ws fuel cid tok hs) = Timeout)
  /\ (fst (Seller.get_offer_ids ws fuel cid tok hs) <> Timeout ->
      fst (Seller.main ws fuel cid tok hs) = Ret tt).
Proof.
  unfold Seller.main.
  destruct (Seller.main_try ws fuel cid tok hs) as [o h'] eqn:E.
  assert (Ht := seller_main_try_timeout ws fuel cid tok hs o h' E).
  destruct o as [[]|e|]; simpl; repeat split;
    try discriminate; try reflexivity; auto.
  intros Hne. now destruct (Hne (Ht eq_refl)).
Qed.

Lemma X15_witness :
  fst (Seller.get_offer_ids seller_two_pages 5 "c" "t" []) <> Timeout
  /\ fst (Seller.main seller_two_pages 5 "c" "t" []) = Ret tt.
Proof.
  assert (H : fst (Seller.get_offer_ids seller_two_pages 5 "c" "t" [])
              <> Timeout) by discriminate.
  split; [exact H|].
  exact (proj2 (proj2 (X15_seller_main_contains_errors
                         seller_two_pages 5 "c" "t" [])) H).
Defined.

(** ** Failures and empty matches of the reconciliation *)

Lemma resolve_stock_error (w : watch) (e : exn) :
  resolve_stock w = Err e ->
  (e = TypeError /\ get w Kolichestvo = PNone)
  \/ (e = ValueError
      /\ exists q, get w Kolichestvo = PStr q /\ int_of_string q = None).
Proof.
  unfold resolve_stock.
  destruct (String.eqb _ ">10"); [discriminate|].
  destruct (String.eqb _ "1"); [discriminate|].
  destruct (get w Kolichestvo) as [|q|z]; simpl.
  - intros H. inversion H. now left.
  - destruct (int_of_string q) eqn:E; [discriminate|].
    intros H. inversion H. right. split; [reflexivity|]. now exists q.
  - discriminate.
Qed.

Lemma py_remove_incl (x : string) (l l' : list string) :
  py_remove x l = Ok l' -> incl l' l.
Proof.
  intros H c Hc.
  apply (Permutation_in c (py_remove_perm _ _ _ H)). now right.
Qed.

Lemma stocks_loop_error {R} (mk : string -> Z -> R) (rem : list watch)
      (e : exn) :
  forall acc ids,
    stocks_loop mk rem acc ids = Err e ->
    exists w, In w rem /\ In (code w) ids /\ resolve_stock w = Err e.
Proof.
  induction rem as [|w rem IH]; intros acc ids H; simpl in H;
    [discriminate|].
  destruct (py_in (code w) ids) eqn:E.
  - destruct (resolve_stock w) as [v|e'] eqn:Ev; simpl in H.
    + destruct (py_remove_in _ _ E) as [ids1 Hr]. rewrite Hr in H.
      simpl in H. destruct (IH _ _ H) as (w' & Hin & Hc & He).
      exists w'. repeat split; [now right | | exact He].
      exact (py_remove_incl _ _ _ Hr _ Hc).
    + inversion H; subst e'. exists w.
      repeat split; [now left | now apply py_in_In | exact Ev].
  - destruct (IH _ _ H) as (w' & Hin & Hc & He).
    exists w'. repeat split; [now right | exact Hc | exact He].
Qed.

(** X16.  The only way for [create_stocks] of either marketplace to
    fail is a quantity that cannot be read on a row whose code is in
    the catalog: [TypeError] where the row has no quantity cell,
    [ValueError] where the cell is a string that is not an integer.  In
    particular [list.remove] never raises in it. *)
Theorem X16_create_stocks_failures
        (rem : list watch) (ids : list string) (wh date : string) (e : exn) :
  Seller.create_stocks rem ids = Err e
  \/ Market.create_stocks rem ids wh date = Err e ->
  exists w,
    In w rem /\ In (code w) ids
    /\ ((e = TypeError /\ get w Kolichestvo = PNone)
        \/ (e = ValueError
            /\ exists q, get w Kolichestvo = PStr q
                         /\ int_of_string q = None)).
Proof.
  assert (Hgen : forall R (mk : string -> Z -> R),
             stocks_of mk rem ids = Err e ->
             exists w, In w rem /\ In (code w) ids
                       /\ resolve_stock w = Err e).
  { intros R mk H. unfold stocks_of in H.
    destruct (stocks_loop mk rem [] ids) as [[s i]|e'] eqn:E; simpl in H;
      [discriminate|].
    inversion H; subst e'. exact (stocks_loop_error mk rem e [] ids E). }
  intros [H | H].
  - rewrite seller_create_stocks in H.
    destruct (Hgen _ _ H) as (w & Hin & Hc & He).
    exists w. repeat split; try assumption. now apply resolve_stock_error.
  - rewrite market_create_stocks in H.
    destruct (Hgen _ _ H) as (w & Hin & Hc & He).
    exists w. repeat split; try assumption. now apply resolve_stock_error.
Qed.

Lemma X16_witness :
  (Seller.create_stocks [[(Kod, PStr "A")]] ["A"] = Err TypeError
   \/ Market.create_stocks [[(Kod, PStr "A")]] ["A"] "" "" = Err TypeError)
  /\ exists w,
      In w [[(Kod, PStr "A")]] /\ In (code w) ["A"]
      /\ ((TypeError = TypeError /\ get w Kolichestvo = PNone)
          \/ (TypeError = ValueError
              /\ exists q, get w Kolichestvo = PStr q
                           /\ int_of_string q = None)).
Proof.
  assert (H : Seller.create_stocks [[(Kod, PStr "A")]] ["A"] = Err TypeError
              \/ Market.create_stocks [[(Kod, PStr "A")]] ["A"] "" ""
                 = Err TypeError) by (left; reflexivity).
  split; [exact H|].
  exact (X16_create_stocks_failures [[(Kod, PStr "A")]] ["A"] "" ""
                                    TypeError H).
Defined.

Lemma known_rows_none (rem : list watch) (ids : list string) :
  (forall w, In w rem -> ~ In (code w) ids) -> known_rows rem ids = [].
Proof.
  intros H. unfold known_rows.
  induction rem as [|w rem IH]; simpl; [reflexivity|].
  assert (E : py_in (code w) ids = false).
  { apply py_in_not_In. apply H. now left. }
  rewrite E. apply IH. intros w' Hw'. apply H. now right.
Qed.

(** X17.  A feed that mentions no offer of the catalog, the empty
    feed among them, sets the whole catalog to zero: [create_stocks]
    of either marketplace returns a record of count 0 for every
    identifier, in catalog order, leaves the list as it was, and raises
    nothing whatever the cells of the feed hold; [create_prices]
    returns no record. *)
Theorem X17_feed_without_known_codes
        (rem : list watch) (ids : list string) (wh date : string) :
  (forall w, In w rem -> ~ In (code w) ids) ->
  Seller.create_stocks rem ids =
  Ok (map (fun c => seller_stock c 0) ids, ids)
  /\ Market.create_stocks rem ids wh date =
     Ok (map (fun c => Market.stock_record c wh 0 date) ids, ids)
  /\ Seller.create_prices rem ids = Ok []
  /\ Market.create_prices rem ids = Ok [].
Proof.
  intros H.
  assert (Hk := known_rows_none rem ids H).
  repeat split.
  - rewrite seller_create_stocks. unfold stocks_of.
    rewrite <- (stocks_loop_known seller_stock rem ids [] ids)
      by apply incl_refl.
    now rewrite Hk.
  - rewrite market_create_stocks. unfold stocks_of.
    rewrite <- (stocks_loop_known _ rem ids [] ids) by apply incl_refl.
    now rewrite Hk.
  - rewrite seller_create_prices, <- prices_loop_known. now rewrite Hk.
  - rewrite market_create_prices, <- prices_loop_known. now rewrite Hk.
Qed.

Lemma X17_witness :
  (forall w, In w [row "Z" "n/a" "?"] -> ~ In (code w) demo_ids)
  /\ Seller.create_stocks [row "Z" "n/a" "?"] demo_ids =
     Ok ([seller_stock "A" 0; seller_stock "B" 0; seller_stock "C" 0],
         demo_ids).
Proof.
  assert (H : forall w, In w [row "Z" "n/a" "?"] -> ~ In (code w) demo_ids).
  { intros w [<- | []]. simpl. intuition discriminate. }
  split; [exact H|].
  exact (proj1 (X17_feed_without_known_codes
                  [row "Z" "n/a" "?"] demo_ids "" "" H)).
Defined.

Lemma stocks_loop_first_rows {R} (mk : string -> Z -> R)
      (rem : list watch) :
  forall seen acc ids,
    NoDup ids ->
    (forall c, In c seen -> ~ In c ids) ->
    stocks_loop mk (first_rows seen rem) acc ids =
    stocks_loop mk rem acc ids.
Proof.
  induction rem as [|w rem IH]; intros seen acc ids Hnd Hseen;
    cbn [first_rows]; [reflexivity|].
  destruct (py_in (code w) seen) eqn:Es.
  - cbn [stocks_loop].
    assert (E : py_in (code w) ids = false).
    { apply py_in_not_In. apply Hseen. now apply py_in_In. }
    rewrite E. now apply IH.
  - cbn [stocks_loop]. destruct (py_in (code w) ids) eqn:E.
    + destruct (resolve_stock w) as [v|e]; simpl; [|reflexivity].
      rewrite (py_remove_nodup _ _ Hnd E). simpl.
      apply IH; [now apply NoDup_filter|].
      intros c [<- | Hc]; rewrite filter_In.
      * intros [_ Hx]. now rewrite String.eqb_refl in Hx.
      * intros [Hx _]. exact (Hseen c Hc Hx).
    + apply IH; [assumption|].
      intros c [<- | Hc]; [now apply py_in_not_In | now apply Hseen].
Qed.

(** X18.  For a catalog without duplicates, a row of the feed that
    repeats the code of an earlier row has no effect on
    [create_stocks] of either marketplace: with or without such rows
    the call gives the same list, or the same exception. *)
Theorem X18_repeated_rows_ignored
        (rem : list watch) (ids : list string) (wh date : string) :
  NoDup ids ->
  Seller.create_stocks (first_rows [] rem) ids = Seller.create_stocks rem ids
  /\ Market.create_stocks (first_rows [] rem) ids wh date
     = Market.create_stocks rem ids wh date.
Proof.
  intros Hnd. split.
  - rewrite !seller_create_stocks. unfold stocks_of.
    now rewrite (stocks_loop_first_rows seller_stock rem [] [] ids Hnd)
      by (intros c []).
  - rewrite !market_create_stocks. unfold stocks_of.
    now rewrite (stocks_loop_first_rows _ rem [] [] ids Hnd)
      by (intros c []).
Qed.

Lemma X18_witness :
  NoDup ["A"]
  /\ first_rows [] [row "A" "5" "10.00"; row "A" "n/a" "12.00"]
     = [row "A" "5" "10.00"]
  /\ Seller.create_stocks [row "A" "5" "10.00"] ["A"]
     = Seller.create_stocks
         [row "A" "5" "10.00"; row "A" "n/a" "12.00"] ["A"].
Proof.
  assert (Hnd : NoDup ["A"]) by (repeat constructor; simpl; tauto).
  split; [exact Hnd|]. split; [reflexivity|].
  exact (proj1 (X18_repeated_rows_ignored
                  [row "A" "5" "10.00"; row "A" "n/a" "12.00"] ["A"]
                  "" "" Hnd)).
Defined.

(** X19.  Every record that [create_stocks] of [market.py] returns
    has the shape the stock endpoint is sent: the warehouse given, and
    exactly one item, of type [FIT], stamped with the one date read at
    the start of the call.  So reading the count of its first item, as
    [upload_stocks] does, never raises [IndexError]. *)
Theorem X19_market_stock_shape
        (rem : list watch) (ids : list string) (wh date : string)
        (stocks : list Market.stock_item) (ids' : list string) :
  Market.create_stocks rem ids wh date = Ok (stocks, ids') ->
  (forall r, In r stocks ->
             Market.warehouseId r = wh
             /\ exists v, Market.items r =
                          [{| Market.count := v;
                              Market.type := "FIT";
                              Market.updatedAt := date |}])
  /\ filter_r Market.count_not_zero stocks =
     Ok (filter (fun r => negb (market_count r =? 0)) stocks).
Proof.
  intros H. assert (Hb := market_stocks_built _ _ _ _ _ _ H). split.
  - intros r Hr. rewrite Forall_forall in Hb.
    destruct (Hb r Hr) as (c & v & ->). split; [reflexivity|].
    now exists v.
  - now apply (filter_r_built wh date).
Qed.

Lemma X19_witness :
  Market.create_stocks demo_remnants demo_ids "w1" "now"
  = Ok ([Market.stock_record "A" "w1" 100 "now";
         Market.stock_record "B" "w1" 0 "now";
         Market.stock_record "C" "w1" 0 "now"], ["C"])
  /\ filter_r Market.count_not_zero
              [Market.stock_record "A" "w1" 100 "now";
               Market.stock_record "B" "w1" 0 "now";
               Market.stock_record "C" "w1" 0 "now"]
     = Ok [Market.stock_record "A" "w1" 100 "now"].
Proof.
  split; [reflexivity|].
  exact (proj2 (X19_market_stock_shape demo_remnants demo_ids "w1" "now"
                                       _ _ eq_refl)).
Defined.
